(** * SeersOrb: interaction detector, synergy graph, weighter and analyzer

    A shallow embedding of the deck-analysis core of SeersOrb
    ([core/models/card.py], [core/models/interaction.py],
    [core/graph/interaction_detector.py], [core/graph/deck_graph.py],
    [core/graph/tagging.py], [core/graph/synergy_weighter.py] and
    [core/graph/analysis.py]) together with the properties its
    specification states about it.

    Conventions of the embedding:
    - a Python [float] is a binary64 number ([PrimFloat.float]); [min] and
      [max] are written out with the comparison the interpreter performs;
    - a Python [str] is a [string] of bytes (the UTF-8 encoding of the
      text); [in] is substring search, and case conversion and whitespace
      act on the ASCII range;
    - a [set] of strings is a [gset string]; iterating it yields
      [elements], whose order is as unspecified as Python's;
    - a [dict] whose iteration order matters is an association list kept
      duplicate free by its insertion function, one whose order does not
      matter is a [gmap];
    - the [networkx.Graph] object is a node dictionary plus the symmetric
      dictionary-of-dictionaries adjacency that networkx keeps;
    - the networkx algorithms themselves (centralities, clustering,
      components, Louvain) are external: the analyzer is parameterised
      by them and by whether they raise. *)

From Stdlib Require Import Floats ZArith Lia Ascii String.
From stdpp Require Import gmap strings list fin_maps.

Set Warnings "-inexact-float".

(* ===================================================================== *)
(** * Part I: the program                                                 *)
(* ===================================================================== *)

(** ** Python floats *)

Module PyFloat.

(** [max(a, b)]: the first argument is kept unless the second one is
    strictly greater. *)
Definition max (a b : float) : float :=
  if PrimFloat.ltb a b then b else a.

(** [min(a, b)]: the first argument is kept unless the second one is
    strictly smaller. *)
Definition min (a b : float) : float :=
  if PrimFloat.ltb b a then b else a.

(** [a >= b] *)
Definition ge (a b : float) : bool := PrimFloat.leb b a.

(** [x != x], true of NaN only. *)
Definition is_nan (x : float) : bool := negb (PrimFloat.eqb x x).

End PyFloat.

(** ** Python strings

    A [str] is held as the bytes of its UTF-8 encoding.  Substring
    tests, cuts at a separator and literal characters of a pattern read
    the same on these bytes as on the characters.  Letter case,
    whitespace and digits are modelled on the ASCII range only: on a text
    that [isascii] accepts, [lower], [capitalize], [is_space], [strip] and
    [split_ws] below give what Python gives; on other text Python also
    lower-cases letters and strips and splits at blanks outside that
    range, which this model does not follow.  A property that holds
    of the code only where the two agree is stated for ASCII text
    ([Spec.ascii_text], [Spec.ascii_subtypes]). *)

Module PyStr.

(** [s.isascii()] *)
Fixpoint isascii (s : string) : bool :=
  match s with
  | EmptyString => true
  | String c s' => (nat_of_ascii c <? 128)%nat && isascii s'
  end.

(** [sub in s] *)
Fixpoint contains (sub s : string) : bool :=
  String.prefix sub s ||
  match s with
  | EmptyString => false
  | String _ s' => contains sub s'
  end.

Definition is_upper (c : ascii) : bool :=
  let n := nat_of_ascii c in (65 <=? n)%nat && (n <=? 90)%nat.

Definition is_lower (c : ascii) : bool :=
  let n := nat_of_ascii c in (97 <=? n)%nat && (n <=? 122)%nat.

Definition lower_char (c : ascii) : ascii :=
  if is_upper c then ascii_of_nat (nat_of_ascii c + 32) else c.

Definition upper_char (c : ascii) : ascii :=
  if is_lower c then ascii_of_nat (nat_of_ascii c - 32) else c.

(** [s.lower()] of an ASCII text. *)
Fixpoint lower (s : string) : string :=
  match s with
  | EmptyString => EmptyString
  | String c s' => String (lower_char c) (lower s')
  end.

(** [s.capitalize()] of an ASCII text: first character upper case, the
    rest lower case. *)
Definition capitalize (s : string) : string :=
  match s with
  | EmptyString => EmptyString
  | String c s' => String (upper_char c) (lower s')
  end.

(** Whitespace as [str.isspace] sees it in the ASCII range:
    tab, newline, vertical tab, form feed, carriage return, the four
    separators 0x1c-0x1f and the blank.  The whitespace characters
    outside the ASCII range are not modelled. *)
Definition is_space (c : ascii) : bool :=
  let n := nat_of_ascii c in
  ((9 <=? n)%nat && (n <=? 13)%nat) || ((28 <=? n)%nat && (n <=? 32)%nat).

Fixpoint lstrip (s : string) : string :=
  match s with
  | EmptyString => EmptyString
  | String c s' => if is_space c then lstrip s' else s
  end.

Fixpoint rstrip (s : string) : string :=
  match s with
  | EmptyString => EmptyString
  | String c s' =>
      let r := rstrip s' in
      if is_space c && String.eqb r EmptyString then EmptyString
      else String c r
  end.

(** [s.strip()] *)
Definition strip (s : string) : string := rstrip (lstrip s).

(** [s.split()]: the maximal runs of non-whitespace characters.
    [cur] is the run being read. *)
Fixpoint split_ws_from (cur s : string) : list string :=
  match s with
  | EmptyString => if String.eqb cur EmptyString then [] else [cur]
  | String c s' =>
      if is_space c then
        if String.eqb cur EmptyString then split_ws_from EmptyString s'
        else cur :: split_ws_from EmptyString s'
      else split_ws_from (cur +:+ String c EmptyString) s'
  end.

Definition split_ws (s : string) : list string := split_ws_from EmptyString s.

(** [s.split(sep)] for a non-empty separator: cut at the leftmost
    non-overlapping occurrences.  [skip] counts the characters of a
    separator that is being stepped over. *)
Fixpoint split_from (sep : string) (skip : nat) (cur s : string) : list string :=
  match s with
  | EmptyString => [cur]
  | String c s' =>
      match skip with
      | S k => split_from sep k cur s'
      | O =>
          if String.prefix sep s
          then cur :: split_from sep (String.length sep - 1) EmptyString s'
          else split_from sep 0 (cur +:+ String c EmptyString) s'
      end
  end.

Definition split (sep s : string) : list string :=
  split_from sep 0 EmptyString s.

(** [sep.join(l)] *)
Definition join (sep : string) (l : list string) : string :=
  String.concat sep l.

End PyStr.

(** ** The fragment of [re] the patterns use *)

Module Re.

(** One character position of a pattern.  [\s] and [\d] are those of
    ASCII text: Python's also match the blanks and the decimal digits
    outside the ASCII range. *)
Inductive cset :=
| Dot                      (* [.]: anything but a newline *)
| Lit (c : ascii)          (* a literal or escaped character *)
| OneOf (s : string)       (* a bracket class such as [[Ss]] *)
| Space                    (* [\s] *)
| OneOfOrDigit (s : string) (* a bracket class with [\d] in it *).

Definition is_digit (c : ascii) : bool :=
  let n := nat_of_ascii c in (48 <=? n)%nat && (n <=? 57)%nat.

Fixpoint mem_char (c : ascii) (s : string) : bool :=
  match s with
  | EmptyString => false
  | String x s' => Ascii.eqb c x || mem_char c s'
  end.

Definition cset_mem (k : cset) (c : ascii) : bool :=
  match k with
  | Dot => negb (Ascii.eqb c "010"%char)
  | Lit x => Ascii.eqb c x
  | OneOf s => mem_char c s
  | Space => PyStr.is_space c
  | OneOfOrDigit s => mem_char c s || is_digit c
  end.

(** A pattern is a sequence of single positions, starred positions
    ([.*]) and plussed positions ([\s+]). *)
Inductive atom :=
| One (k : cset)
| Star (k : cset)
| Plus (k : cset).

Definition re := list atom.

(** The literal text [s] as a pattern. *)
Fixpoint lit (s : string) : re :=
  match s with
  | EmptyString => []
  | String c s' => One (Lit c) :: lit s'
  end.

(** Does some prefix of the text match the pattern?  Repetitions try
    every number of characters, so the answer is the one a backtracking
    matcher reaches, greedy or not. *)
Fixpoint match_here (p : re) : string -> bool :=
  match p with
  | [] => fun _ => true
  | One k :: p' => fun s =>
      match s with
      | EmptyString => false
      | String x s' => cset_mem k x && match_here p' s'
      end
  | Star k :: p' =>
      fix star (s : string) : bool :=
        match_here p' s ||
        match s with
        | EmptyString => false
        | String x s' => cset_mem k x && star s'
        end
  | Plus k :: p' => fun s =>
      match s with
      | EmptyString => false
      | String x s' =>
          cset_mem k x &&
          (fix star (s : string) : bool :=
             match_here p' s ||
             match s with
             | EmptyString => false
             | String x s' => cset_mem k x && star s'
             end) s'
      end
  end.

(** [re.search(p, text)] seen as a truth value: a match starts at some
    position of the text. *)
Fixpoint search (p : re) (s : string) : bool :=
  match_here p s ||
  match s with
  | EmptyString => false
  | String _ s' => search p s'
  end.

(** [any(re.search(p, text) for p in patterns)] *)
Definition any_search (patterns : list re) (text : string) : bool :=
  existsb (fun p => search p text) patterns.

End Re.

(** ** [core/models/card.py] *)

Module Card.

(** The fields of the dataclass that the graph core reads.  The others
    (power, toughness, art crop, legalities, prices, set data) are
    carried around by the application and never inspected here. *)
Record t := mk {
  id : string;
  name : string;
  mana_cost : string;
  cmc : float;
  colors : list string;
  color_identity : list string;
  type_line : string;
  oracle_text : string;
  keywords : list string;
  image_uri : string
}.

Definition is_creature (c : t) : bool := PyStr.contains "Creature" (type_line c).
Definition is_land (c : t) : bool := PyStr.contains "Land" (type_line c).
Definition is_instant (c : t) : bool := PyStr.contains "Instant" (type_line c).
Definition is_sorcery (c : t) : bool := PyStr.contains "Sorcery" (type_line c).
Definition is_artifact (c : t) : bool := PyStr.contains "Artifact" (type_line c).
Definition is_enchantment (c : t) : bool := PyStr.contains "Enchantment" (type_line c).
Definition is_planeswalker (c : t) : bool := PyStr.contains "Planeswalker" (type_line c).

Definition card_type_names : list string :=
  ["Creature"; "Land"; "Instant"; "Sorcery"; "Artifact"; "Enchantment"; "Planeswalker"].

Definition get_card_types (c : t) : list string :=
  filter (fun ty => Is_true (PyStr.contains ty (type_line c))) card_type_names.

(** The long dash that separates types from subtypes. *)
Definition dash : string := "—".

(** [type_line.split(dash)[1].strip().split()]; the index is in range
    because the dash occurs.  Python's answer when the part after the
    dash is ASCII. *)
Definition get_creature_types (c : t) : list string :=
  if negb (PyStr.contains dash (type_line c)) then []
  else
    let subtypes_part := PyStr.strip (nth 1 (PyStr.split dash (type_line c)) "") in
    PyStr.split_ws subtypes_part.

(** [r"[Aa]dd\s+\{[WUBRGC\d]\}"] *)
Definition mana_pattern : Re.re :=
  [Re.One (Re.OneOf "Aa")] ++ Re.lit "dd" ++ [Re.Plus Re.Space] ++ Re.lit "{" ++
  [Re.One (Re.OneOfOrDigit "WUBRGC")] ++ Re.lit "}".

(** Python's answer for a land, and for any card whose text is ASCII. *)
Definition produces_mana (c : t) : bool :=
  if is_land c then true else Re.search mana_pattern (oracle_text c).

Definition etb_trigger_patterns : list Re.re :=
  [ [Re.One (Re.OneOf "Ww")] ++ Re.lit "hen " ++ [Re.Star Re.Dot] ++ Re.lit " enters the battlefield";
    [Re.One (Re.OneOf "Ww")] ++ Re.lit "hen " ++ [Re.Star Re.Dot] ++ Re.lit " enters";
    [Re.One (Re.OneOf "Ee")] ++ Re.lit "nters the battlefield" ].

Definition has_etb_trigger (c : t) : bool :=
  Re.any_search etb_trigger_patterns (oracle_text c).

Definition death_trigger_patterns : list Re.re :=
  [ [Re.One (Re.OneOf "Ww")] ++ Re.lit "hen " ++ [Re.Star Re.Dot] ++ Re.lit " dies";
    [Re.One (Re.OneOf "Ww")] ++ Re.lit "henever " ++ [Re.Star Re.Dot] ++ Re.lit " dies";
    [Re.One (Re.OneOf "Ww")] ++ Re.lit "hen " ++ [Re.Star Re.Dot] ++ Re.lit " is put into a graveyard" ].

Definition has_death_trigger (c : t) : bool :=
  Re.any_search death_trigger_patterns (oracle_text c).

Definition counter_synergy_patterns : list Re.re :=
  [ Re.lit "+1/+1 counter";
    [Re.One (Re.OneOf "Pp")] ++ Re.lit "roliferate";
    [Re.One (Re.OneOf "Dd")] ++ Re.lit "ouble the number of " ++ [Re.Star Re.Dot] ++ Re.lit " counters" ].

Definition has_counter_synergy (c : t) : bool :=
  Re.any_search counter_synergy_patterns (oracle_text c).

Definition type_patterns : list string :=
  ["creature"; "artifact"; "enchantment"; "land"; "planeswalker"; "instant"; "sorcery"].

(** Python's answer when the text of the card is ASCII. *)
Definition get_referenced_types (c : t) : gset string :=
  let text_lower := PyStr.lower (oracle_text c) in
  list_to_set
    (PyStr.capitalize <$>
       filter (fun type_name => Is_true (PyStr.contains type_name text_lower)) type_patterns).

End Card.

(** ** [core/models/interaction.py] *)

Module InteractionType.

Inductive t :=
| COMBOS_WITH | ENABLES | SYNERGY | PROTECTS | BUFFS | TUTORS
| MANA_ENABLES | DRAWS_INTO | TRIBAL | TYPE_MATTERS
| SACRIFICE_FODDER | SACRIFICE_OUTLET | COUNTER_SYNERGY
| ETB_CHAIN | DEATH_CHAIN.

Definition value (ty : t) : string :=
  match ty with
  | COMBOS_WITH => "combos_with"
  | ENABLES => "enables"
  | SYNERGY => "synergy"
  | PROTECTS => "protects"
  | BUFFS => "buffs"
  | TUTORS => "tutors"
  | MANA_ENABLES => "mana_enables"
  | DRAWS_INTO => "draws_into"
  | TRIBAL => "tribal"
  | TYPE_MATTERS => "type_matters"
  | SACRIFICE_FODDER => "sacrifice_fodder"
  | SACRIFICE_OUTLET => "sacrifice_outlet"
  | COUNTER_SYNERGY => "counter_synergy"
  | ETB_CHAIN => "etb_chain"
  | DEATH_CHAIN => "death_chain"
  end.

#[global] Instance eq_dec : EqDecision t.
Proof. solve_decision. Defined.

End InteractionType.

Module Interaction.

Record t := mk {
  source_id : string;
  target_id : string;
  interaction_type : InteractionType.t;
  weight : float;
  description : option string;
  bidirectional : bool
}.

End Interaction.

(** ** [core/graph/interaction_detector.py] *)

Module InteractionDetector.

Import InteractionType.

(** The pattern tables set up by [__init__]. *)

Definition sacrifice_outlet_patterns : list Re.re :=
  [ [Re.One (Re.OneOf "Ss")] ++ Re.lit "acrifice a creature";
    [Re.One (Re.OneOf "Ss")] ++ Re.lit "acrifice another";
    [Re.One (Re.OneOf "Ss")] ++ Re.lit "acrifice a permanent";
    Re.lit ", " ++ [Re.One (Re.OneOf "Ss")] ++ Re.lit "acrifice a" ].

Definition death_trigger_patterns : list Re.re :=
  [ [Re.One (Re.OneOf "Ww")] ++ Re.lit "henever " ++ [Re.Star Re.Dot] ++ Re.lit " dies";
    [Re.One (Re.OneOf "Ww")] ++ Re.lit "hen " ++ [Re.Star Re.Dot] ++ Re.lit " dies";
    [Re.One (Re.OneOf "Ww")] ++ Re.lit "henever another " ++ [Re.Star Re.Dot] ++ Re.lit " dies";
    [Re.One (Re.OneOf "Ww")] ++ Re.lit "henever a creature dies" ].

Definition blink_patterns : list Re.re :=
  [ [Re.One (Re.OneOf "Ee")] ++ Re.lit "xile " ++ [Re.Star Re.Dot] ++ Re.lit " then return";
    [Re.One (Re.OneOf "Ee")] ++ Re.lit "xile target " ++ [Re.Star Re.Dot] ++ Re.lit " " ++
      [Re.One (Re.OneOf "Rr")] ++ Re.lit "eturn";
    [Re.One (Re.OneOf "Ff")] ++ Re.lit "licker" ].

Definition counter_add_patterns : list Re.re :=
  [ [Re.One (Re.OneOf "Pp")] ++ Re.lit "ut " ++ [Re.Star Re.Dot] ++ Re.lit " +1/+1 counter";
    [Re.One (Re.OneOf "Ee")] ++ Re.lit "nters " ++ [Re.Star Re.Dot] ++ Re.lit " with " ++
      [Re.Star Re.Dot] ++ Re.lit " +1/+1 counter" ].

(** The dictionary of tutor patterns, in insertion order. *)
Definition tutor_type_patterns : list (string * Re.re) :=
  let search_for (what : string) : Re.re :=
    [Re.One (Re.OneOf "Ss")] ++ Re.lit "earch " ++ [Re.Star Re.Dot] ++ Re.lit what in
  [ ("creature", search_for " for a creature");
    ("artifact", search_for " for an artifact");
    ("enchantment", search_for " for an enchantment");
    ("land", search_for " for a " ++ [Re.Star Re.Dot] ++ Re.lit " land");
    ("instant", search_for " for an instant");
    ("sorcery", search_for " for a sorcery") ].

(** [interactions.append(...)] under [if cond]. *)
Definition emit (cond : bool) (i : Interaction.t) : list Interaction.t :=
  if cond then [i] else [].

Definition _check_sacrifice_synergy (card1 card2 : Card.t) : list Interaction.t :=
  let c1_outlet := Re.any_search sacrifice_outlet_patterns (Card.oracle_text card1) in
  let c2_death := Re.any_search death_trigger_patterns (Card.oracle_text card2) in
  let c2_outlet := Re.any_search sacrifice_outlet_patterns (Card.oracle_text card2) in
  let c1_death := Re.any_search death_trigger_patterns (Card.oracle_text card1) in
  emit (c1_outlet && c2_death)
    (Interaction.mk (Card.id card1) (Card.id card2) DEATH_CHAIN 0.8
       (Some (Card.name card1 +:+ " can sacrifice creatures to trigger " +:+ Card.name card2))
       false) ++
  emit (c2_outlet && c1_death)
    (Interaction.mk (Card.id card2) (Card.id card1) DEATH_CHAIN 0.8
       (Some (Card.name card2 +:+ " can sacrifice creatures to trigger " +:+ Card.name card1))
       false) ++
  emit (c1_outlet && Card.has_death_trigger card2 && Card.is_creature card2)
    (Interaction.mk (Card.id card1) (Card.id card2) SACRIFICE_OUTLET 0.7
       (Some (Card.name card1 +:+ " can sacrifice " +:+ Card.name card2 +:+ " for value"))
       false) ++
  emit (c2_outlet && Card.has_death_trigger card1 && Card.is_creature card1)
    (Interaction.mk (Card.id card2) (Card.id card1) SACRIFICE_OUTLET 0.7
       (Some (Card.name card2 +:+ " can sacrifice " +:+ Card.name card1 +:+ " for value"))
       false).

Definition _check_etb_synergy (card1 card2 : Card.t) : list Interaction.t :=
  let c1_etb := Card.has_etb_trigger card1 in
  let c2_etb := Card.has_etb_trigger card2 in
  let c1_blink := Re.any_search blink_patterns (Card.oracle_text card1) in
  let c2_blink := Re.any_search blink_patterns (Card.oracle_text card2) in
  emit (c1_blink && c2_etb)
    (Interaction.mk (Card.id card1) (Card.id card2) ETB_CHAIN 0.85
       (Some (Card.name card1 +:+ " can reuse " +:+ Card.name card2 +:+ "'s ETB")) false) ++
  emit (c2_blink && c1_etb)
    (Interaction.mk (Card.id card2) (Card.id card1) ETB_CHAIN 0.85
       (Some (Card.name card2 +:+ " can reuse " +:+ Card.name card1 +:+ "'s ETB")) false).

Definition _check_counter_synergy (card1 card2 : Card.t) : list Interaction.t :=
  let c1_adds := Re.any_search counter_add_patterns (Card.oracle_text card1) in
  let c2_adds := Re.any_search counter_add_patterns (Card.oracle_text card2) in
  let c1_cares := Card.has_counter_synergy card1 in
  let c2_cares := Card.has_counter_synergy card2 in
  emit (c1_adds && c2_cares)
    (Interaction.mk (Card.id card1) (Card.id card2) COUNTER_SYNERGY 0.75
       (Some (Card.name card1 +:+ " adds counters for " +:+ Card.name card2)) false) ++
  emit (c2_adds && c1_cares)
    (Interaction.mk (Card.id card2) (Card.id card1) COUNTER_SYNERGY 0.75
       (Some (Card.name card2 +:+ " adds counters for " +:+ Card.name card1)) false) ++
  emit (c1_cares && c2_cares && (c1_adds || c2_adds))
    (Interaction.mk (Card.id card1) (Card.id card2) COUNTER_SYNERGY 0.7
       (Some ("Both " +:+ Card.name card1 +:+ " and " +:+ Card.name card2 +:+
              " work with counters")) true).

Definition _check_tribal_synergy (card1 card2 : Card.t) : list Interaction.t :=
  let types1 : gset string := list_to_set (Card.get_creature_types card1) in
  let types2 : gset string := list_to_set (Card.get_creature_types card2) in
  let shared_types := types1 ∩ types2 in
  let text1_lower := PyStr.lower (Card.oracle_text card1) in
  let text2_lower := PyStr.lower (Card.oracle_text card2) in
  emit (negb (bool_decide (shared_types = ∅)) && Card.is_creature card1 && Card.is_creature card2)
    (Interaction.mk (Card.id card1) (Card.id card2) TRIBAL 0.5
       (Some ("Both are " +:+ PyStr.join ", " (elements shared_types))) true) ++
  (elements types2 ≫= fun ctype =>
     emit (PyStr.contains (PyStr.lower ctype) text1_lower)
       (Interaction.mk (Card.id card1) (Card.id card2) TRIBAL 0.7
          (Some (Card.name card1 +:+ " cares about " +:+ ctype +:+ "s")) false)) ++
  (elements types1 ≫= fun ctype =>
     emit (PyStr.contains (PyStr.lower ctype) text2_lower)
       (Interaction.mk (Card.id card2) (Card.id card1) TRIBAL 0.7
          (Some (Card.name card2 +:+ " cares about " +:+ ctype +:+ "s")) false)).

Definition _check_type_matters (card1 card2 : Card.t) : list Interaction.t :=
  let types1_cares := Card.get_referenced_types card1 in
  let types2_cares := Card.get_referenced_types card2 in
  let types1_is : gset string := list_to_set (Card.get_card_types card1) in
  let types2_is : gset string := list_to_set (Card.get_card_types card2) in
  (let matches := types1_cares ∩ types2_is in
   emit (negb (bool_decide (matches = ∅)))
     (Interaction.mk (Card.id card1) (Card.id card2) TYPE_MATTERS 0.6
        (Some (Card.name card1 +:+ " cares about " +:+ PyStr.join ", " (elements matches)))
        false)) ++
  (let matches := types2_cares ∩ types1_is in
   emit (negb (bool_decide (matches = ∅)))
     (Interaction.mk (Card.id card2) (Card.id card1) TYPE_MATTERS 0.6
        (Some (Card.name card2 +:+ " cares about " +:+ PyStr.join ", " (elements matches)))
        false)).

Definition _check_mana_relationship (card1 card2 : Card.t) : list Interaction.t :=
  (if Card.produces_mana card1 && negb (Card.is_land card2) then
     let weight := PyFloat.min (0.4 + Card.cmc card2 * 0.05) 0.8 in
     emit (PyFloat.ge (Card.cmc card2) 4)
       (Interaction.mk (Card.id card1) (Card.id card2) MANA_ENABLES weight
          (Some (Card.name card1 +:+ " helps cast " +:+ Card.name card2)) false)
   else []) ++
  (if Card.produces_mana card2 && negb (Card.is_land card1) then
     let weight := PyFloat.min (0.4 + Card.cmc card1 * 0.05) 0.8 in
     emit (PyFloat.ge (Card.cmc card1) 4)
       (Interaction.mk (Card.id card2) (Card.id card1) MANA_ENABLES weight
          (Some (Card.name card2 +:+ " helps cast " +:+ Card.name card1)) false)
   else []).

(** [k in keywords] *)
Definition has (k : string) (keywords : gset string) : bool :=
  bool_decide (k ∈ keywords).

Definition _check_keyword_synergy (card1 card2 : Card.t) : list Interaction.t :=
  let keywords1 : gset string := list_to_set (PyStr.lower <$> Card.keywords card1) in
  let keywords2 : gset string := list_to_set (PyStr.lower <$> Card.keywords card2) in
  emit (has "deathtouch" keywords1 &&
        (has "first strike" keywords2 || has "double strike" keywords2) &&
        PyStr.contains "target creature gains" (PyStr.lower (Card.oracle_text card2)))
    (Interaction.mk (Card.id card2) (Card.id card1) BUFFS 0.75
       (Some "First strike + deathtouch combo") false) ++
  emit (has "deathtouch" keywords2 &&
        (has "first strike" keywords1 || has "double strike" keywords1) &&
        PyStr.contains "target creature gains" (PyStr.lower (Card.oracle_text card1)))
    (Interaction.mk (Card.id card1) (Card.id card2) BUFFS 0.75
       (Some "First strike + deathtouch combo") false) ++
  (if has "lifelink" keywords1 || has "lifelink" keywords2 then
     let text1 := PyStr.lower (Card.oracle_text card1) in
     let text2 := PyStr.lower (Card.oracle_text card2) in
     emit (has "lifelink" keywords1 && PyStr.contains "whenever you gain life" text2)
       (Interaction.mk (Card.id card1) (Card.id card2) ENABLES 0.7
          (Some (Card.name card1 +:+ " triggers " +:+ Card.name card2)) false) ++
     emit (has "lifelink" keywords2 && PyStr.contains "whenever you gain life" text1)
       (Interaction.mk (Card.id card2) (Card.id card1) ENABLES 0.7
          (Some (Card.name card2 +:+ " triggers " +:+ Card.name card1)) false)
   else []).

Definition _check_tutor_relationship (card1 card2 : Card.t) : list Interaction.t :=
  (tutor_type_patterns ≫= fun '(card_type, pattern) =>
     emit (Re.search pattern (Card.oracle_text card1) &&
           PyStr.contains (PyStr.capitalize card_type) (Card.type_line card2))
       (Interaction.mk (Card.id card1) (Card.id card2) TUTORS 0.9
          (Some (Card.name card1 +:+ " can find " +:+ Card.name card2)) false)) ++
  (tutor_type_patterns ≫= fun '(card_type, pattern) =>
     emit (Re.search pattern (Card.oracle_text card2) &&
           PyStr.contains (PyStr.capitalize card_type) (Card.type_line card1))
       (Interaction.mk (Card.id card2) (Card.id card1) TUTORS 0.9
          (Some (Card.name card2 +:+ " can find " +:+ Card.name card1)) false)).

Definition _detect_pair_interactions (card1 card2 : Card.t) : list Interaction.t :=
  _check_sacrifice_synergy card1 card2 ++
  _check_etb_synergy card1 card2 ++
  _check_counter_synergy card1 card2 ++
  _check_tribal_synergy card1 card2 ++
  _check_type_matters card1 card2 ++
  _check_mana_relationship card1 card2 ++
  _check_keyword_synergy card1 card2 ++
  _check_tutor_relationship card1 card2.

(** The double loop over [enumerate(cards)] and [cards[i + 1:]]. *)
Fixpoint detect_all (cards : list Card.t) : list Interaction.t :=
  match cards with
  | [] => []
  | card1 :: rest =>
      (rest ≫= fun card2 => _detect_pair_interactions card1 card2) ++ detect_all rest
  end.

End InteractionDetector.

(** ** [core/models/deck.py] *)

Module Deck.

Record DeckEntry := mk_entry {
  card : Card.t;
  quantity : Z;
  category : string
}.

(** [cards] is the dictionary from card id to entry, in insertion
    order.  The metadata fields other than [commander] play no part in
    the graph. *)
Record t := mk {
  cards : list (string * DeckEntry);
  commander : option string
}.

Definition get_unique_cards (self : t) : list Card.t :=
  (fun kv => card (snd kv)) <$> cards self.

End Deck.

(** ** The [networkx.Graph] object *)

Module Nx.

(** The attributes [_build_nodes] stores on a node. *)
Record NodeAttrs := mk_node {
  name : string;
  type_line : string;
  card_types : list string;
  cmc : float;
  colors : list string;
  color_identity : list string;
  keywords : list string;
  quantity : Z;
  category : string;
  image_uri : string;
  is_commander : bool
}.

(** The attributes [add_interaction] stores on an edge. *)
Record EdgeData := mk_edge {
  interaction_types : list string;
  weight : float;
  description : option string
}.

(** [_node] maps a node to its attribute dictionary, in insertion
    order; [None] is the empty dictionary that [add_edge] gives to an
    endpoint it has to create.  [_adj] maps a node to its neighbours and,
    for each neighbour, to the attribute dictionary of the edge; networkx
    stores one dictionary object per edge under both [_adj[u][v]] and
    [_adj[v][u]]. *)
Record Graph := mk {
  _node : list (string * option NodeAttrs);
  _adj : gmap string (gmap string EdgeData)
}.

Definition empty : Graph := mk [] ∅.

(** [d[k] = v] on an insertion-ordered dictionary. *)
Fixpoint dict_set {V : Type} (k : string) (v : V) (d : list (string * V)) : list (string * V) :=
  match d with
  | [] => [(k, v)]
  | (k', v') :: d' =>
      if decide (k = k') then (k, v) :: d' else (k', v') :: dict_set k v d'
  end.

(** [list(G.nodes())] *)
Definition nodes (g : Graph) : list string := fst <$> _node g.

(** [n in G] *)
Definition has_node (g : Graph) (n : string) : bool := bool_decide (n ∈ nodes g).

Definition number_of_nodes (g : Graph) : nat := length (_node g).

(** [G.add_node(n, **attr)] with the full attribute set of
    [_build_nodes]: a new node gets an empty neighbour dictionary, an
    existing one has its attributes overwritten. *)
Definition add_node (g : Graph) (n : string) (attr : NodeAttrs) : Graph :=
  if has_node g n then mk (dict_set n (Some attr) (_node g)) (_adj g)
  else mk (_node g ++ [(n, Some attr)]) (<[n := ∅]> (_adj g)).

(** [G.has_edge(u, v)]: [v in self._adj[u]], false when [u] is unknown. *)
Definition has_edge (g : Graph) (u v : string) : bool :=
  match _adj g !! u with
  | Some nbrs => bool_decide (is_Some (nbrs !! v))
  | None => false
  end.

(** [G.edges[u, v]], the attribute dictionary of an edge. *)
Definition edge_data (g : Graph) (u v : string) : option EdgeData :=
  _adj g !! u ≫= fun nbrs => nbrs !! v.

(** [self._adj[u][v] = d] *)
Definition set_adj (u v : string) (d : EdgeData)
    (adj : gmap string (gmap string EdgeData)) : gmap string (gmap string EdgeData) :=
  <[u := <[v := d]> (default ∅ (adj !! u))]> adj.

(** A write through the attribute dictionary of the edge [u]-[v]: the
    object is shared by both adjacency entries, so both see it. *)
Definition update_edge_data (g : Graph) (u v : string) (d : EdgeData) : Graph :=
  mk (_node g) (set_adj v u d (set_adj u v d (_adj g))).

(** The node part of [G.add_edge]: an unknown endpoint is created with
    no neighbours and no attributes. *)
Definition ensure_node (g : Graph) (n : string) : Graph :=
  if has_node g n then g
  else mk (_node g ++ [(n, None)]) (<[n := ∅]> (_adj g)).

(** [G.add_edge(u, v, interaction_types=.., weight=.., description=..)]
    for a pair that has no edge yet. *)
Definition add_edge (g : Graph) (u v : string) (d : EdgeData) : Graph :=
  update_edge_data (ensure_node (ensure_node g u) v) u v d.

(** [G.remove_edge(u, v)] for a pair that has an edge. *)
Definition remove_edge (g : Graph) (u v : string) : Graph :=
  let adj1 := <[u := delete v (default ∅ (_adj g !! u))]> (_adj g) in
  let adj2 := if decide (u = v) then adj1
              else <[v := delete u (default ∅ (adj1 !! v))]> adj1 in
  mk (_node g) adj2.

End Nx.

(** ** [core/graph/deck_graph.py] *)

Module DeckGraph.

Record t := mk {
  deck : Deck.t;
  graph : Nx.Graph;
  interactions : list Interaction.t
}.

Definition with_graph (self : t) (g : Nx.Graph) : t :=
  mk (deck self) g (interactions self).

Definition _build_nodes (self : t) : t :=
  foldl (fun (self : t) (kv : string * Deck.DeckEntry) =>
           let entry := snd kv in
           let card := Deck.card entry in
           with_graph self
             (Nx.add_node (graph self) (Card.id card)
                (Nx.mk_node (Card.name card) (Card.type_line card)
                   (Card.get_card_types card) (Card.cmc card) (Card.colors card)
                   (Card.color_identity card) (Card.keywords card)
                   (Deck.quantity entry) (Deck.category entry) (Card.image_uri card)
                   (bool_decide (Some (Card.id card) = Deck.commander (deck self))))))
        self (Deck.cards (deck self)).

Definition add_interaction (self : t) (interaction : Interaction.t) : t :=
  let u := Interaction.source_id interaction in
  let v := Interaction.target_id interaction in
  if Nx.has_edge (graph self) u v then
    match Nx.edge_data (graph self) u v with
    | Some edge_data =>
        let types := Nx.interaction_types edge_data ++
                     [InteractionType.value (Interaction.interaction_type interaction)] in
        with_graph self
          (Nx.update_edge_data (graph self) u v
             (Nx.mk_edge types
                (PyFloat.max (Nx.weight edge_data) (Interaction.weight interaction))
                (Nx.description edge_data)))
    | None => self
    end
  else
    with_graph self
      (Nx.add_edge (graph self) u v
         (Nx.mk_edge [InteractionType.value (Interaction.interaction_type interaction)]
            (Interaction.weight interaction)
            (Interaction.description interaction))).

(** The loop [for interaction in ...: self.add_interaction(interaction)]. *)
Definition ingest (self : t) (l : list Interaction.t) : t :=
  foldl add_interaction self l.

(** The letter that follows the TODO comment of this method in the
    source is read as the end of that comment. *)
Definition detect_interactions (self : t) : t :=
  let cards := Deck.get_unique_cards (deck self) in
  let found := InteractionDetector.detect_all cards in
  ingest (mk (deck self) (graph self) found) found.

(** [DeckGraph(deck, auto_detect)] *)
Definition init (deck : Deck.t) (auto_detect : bool) : t :=
  let self := _build_nodes (mk deck Nx.empty []) in
  if auto_detect then detect_interactions self else self.

Definition remove_interaction (self : t) (source_id target_id : string) : t :=
  if Nx.has_edge (graph self) source_id target_id
  then with_graph self (Nx.remove_edge (graph self) source_id target_id)
  else self.

Definition add_custom_interaction (self : t) (source_id target_id : string)
    (interaction_type : InteractionType.t) (weight : float)
    (description : option string) : t * Interaction.t :=
  let interaction :=
    Interaction.mk source_id target_id interaction_type weight description false in
  (add_interaction
     (mk (deck self) (graph self) (interactions self ++ [interaction])) interaction,
   interaction).

End DeckGraph.

(** ** [core/graph/tagging.py] *)

Module KeywordTagger.

(** [KEYWORD_CATEGORIES], in the order the dictionary is written. *)
Definition KEYWORD_CATEGORIES : list (string * gset string) :=
  [ ("evasion", list_to_set
       ["flying"; "menace"; "trample"; "intimidate"; "fear"; "skulk";
        "horsemanship"; "shadow"; "plainswalk"; "islandwalk";
        "swampwalk"; "mountainwalk"; "forestwalk"; "landwalk"; "unblockable"]);
    ("combat", list_to_set
       ["first strike"; "double strike"; "deathtouch"; "vigilance"; "reach";
        "trample"; "rampage"; "flanking"; "bushido"; "battle cry"; "melee";
        "mentor"; "training"]);
    ("protection", list_to_set
       ["hexproof"; "shroud"; "indestructible"; "protection"; "ward";
        "defender"; "absorb"; "regenerate"]);
    ("speed", list_to_set ["haste"; "flash"; "split second"]);
    ("recursion", list_to_set
       ["persist"; "undying"; "unearth"; "embalm"; "eternalize"; "encore";
        "escape"; "retrace"; "jump-start"; "flashback"; "aftermath"; "recover";
        "dredge"; "scavenge"]);
    ("economy", list_to_set
       ["convoke"; "delve"; "affinity"; "improvise"; "assist"; "bargain";
        "offering"; "treasure"; "gold"]);
    ("advantage", list_to_set
       ["investigate"; "clue"; "cycling"; "monarch"; "initiative";
        "cascade"; "discover"; "explore"; "scry"; "surveil"; "fateseal"]);
    ("removal", list_to_set
       ["destroy"; "exile"; "fight"; "bite"; "sacrifice"; "annihilator"]);
    ("tokens", list_to_set
       ["populate"; "proliferate"; "amass"; "incubate"; "fabricate";
        "living weapon"; "afterlife"; "create"]);
    ("counters", list_to_set
       ["proliferate"; "support"; "bolster"; "adapt"; "outlast";
        "evolve"; "graft"; "modular"; "scavenge"; "devour"; "riot"; "mentor"]);
    ("graveyard", list_to_set
       ["mill"; "surveil"; "dredge"; "delve"; "escape"; "flashback";
        "unearth"; "threshold"; "delirium"]) ].

(** The loop of [get_category] over the remaining categories. *)
Fixpoint first_category (keyword_lower : string)
    (categories : list (string * gset string)) : string :=
  match categories with
  | [] => "other"
  | (category, keywords) :: rest =>
      if bool_decide (keyword_lower ∈ keywords) then category
      else first_category keyword_lower rest
  end.

Definition get_category (keyword : string) : string :=
  first_category (PyStr.lower keyword) KEYWORD_CATEGORIES.

End KeywordTagger.

(** ** [core/graph/synergy_weighter.py] *)

Module SynergyWeighter.

Definition DEFAULT_CATEGORY_WEIGHTS : gmap string float :=
  list_to_map
    [ ("evasion", 1.2%float); ("combat", 1.1%float); ("protection", 1.3%float);
      ("speed", 1.1%float); ("recursion", 1.5%float); ("economy", 1.4%float);
      ("advantage", 1.3%float); ("removal", 1.2%float); ("tokens", 1.5%float);
      ("counters", 1.5%float); ("graveyard", 1.4%float); ("other", 1.0%float) ].

Definition DEFAULT_CONSTANT_C : float := 5.0.

Record t := mk { category_weights : gmap string float }.

(** [SynergyWeighter(category_weights)]: a copy of the defaults, updated
    with the caller's table when one is given and is not empty. *)
Definition init (custom : option (gmap string float)) : t :=
  match custom with
  | Some w => if bool_decide (w = ∅) then mk DEFAULT_CATEGORY_WEIGHTS
              else mk (w ∪ DEFAULT_CATEGORY_WEIGHTS)
  | None => mk DEFAULT_CATEGORY_WEIGHTS
  end.

Definition check_direct_reference (card1 card2 : Card.t) : bool :=
  if PyStr.contains (Card.name card1) (Card.oracle_text card2) then true
  else if PyStr.contains (Card.name card2) (Card.oracle_text card1) then true
  else false.

Definition calculate_synergy_score (self : t) (card1 card2 : Card.t)
    (interaction_tags : list string) : float :=
  let score :=
    foldl (fun (score : float) (tag : string) =>
             let category := KeywordTagger.get_category tag in
             let alpha := default 1.0%float (category_weights self !! category) in
             (score + 1.0 * alpha)%float)
          0.0%float interaction_tags in
  if check_direct_reference card1 card2
  then (score + DEFAULT_CONSTANT_C)%float
  else score.

End SynergyWeighter.

(** ** Exceptions and sorting *)

Module Py.

(** The exceptions (instances of [Exception]) that a call into networkx
    can end with. *)
Inductive exn :=
| PowerIterationFailedConvergence
| ImportError
| NetworkXError
| OtherException.

(** The outcome of a call: a value, or a raised exception. *)
Inductive result (A : Type) :=
| Ok (a : A)
| Raise (e : exn).
Arguments Ok {A} a.
Arguments Raise {A} e.

Definition bind {A B : Type} (r : result A) (k : A -> result B) : result B :=
  match r with
  | Ok a => k a
  | Raise e => Raise e
  end.

(** One step of a stable sort into descending key order: [x], which
    came before every element of [l], goes behind the elements that are
    strictly greater and in front of the first one that is not. *)
Fixpoint insert_desc {A : Type} (key : A -> float) (x : A) (l : list A) : list A :=
  match l with
  | [] => [x]
  | y :: l' =>
      if PrimFloat.ltb (key x) (key y) then y :: insert_desc key x l'
      else x :: l
  end.

(** [sorted(l, key=key, reverse=True)]: stable, descending.  On keys
    that are totally ordered (no NaN) every stable sort returns this
    list. *)
Definition sorted_desc {A : Type} (key : A -> float) (l : list A) : list A :=
  foldr (insert_desc key) [] l.

(** [l[:n]], with the negative bound counted from the end. *)
Definition slice_to {A : Type} (n : Z) (l : list A) : list A :=
  if (0 <=? n)%Z then take (Z.to_nat n) l
  else take (Z.to_nat (Z.of_nat (length l) + n)) l.

End Py.

(** [do x <- r; k] runs [k] on the value of [r] and lets an exception of
    [r] pass through. *)
Notation "'do' x <- r ; k" := (Py.bind r (fun x => k))
  (at level 10, x name, r at level 100, k at level 200, only parsing).

(** ** [core/graph/analysis.py] *)

Module GraphAnalyzer.

Import Py.

(** The networkx entry points the analyzer calls.  A centrality is a
    dictionary from node to score; components and communities are sets
    of nodes.  [nx_pagerank] stands for [nx.pagerank] on
    [G.to_directed()], the directed view with both orientations of every
    edge.  [nx_louvain_communities] is [None] when the import of
    [louvain_communities] fails. *)
Record Networkx := mk_nx {
  nx_degree_centrality : Nx.Graph -> result (gmap string float);
  nx_betweenness_centrality : Nx.Graph -> result (gmap string float);
  nx_closeness_centrality : Nx.Graph -> result (gmap string float);
  nx_eigenvector_centrality : Nx.Graph -> result (gmap string float);
  nx_pagerank : Nx.Graph -> result (gmap string float);
  nx_clustering : Nx.Graph -> result (gmap string float);
  nx_average_clustering : Nx.Graph -> result float;
  nx_connected_components : Nx.Graph -> result (list (gset string));
  nx_louvain_communities : option (Nx.Graph -> result (list (gset string)))
}.

(** The entry of one card in the dictionary [scores] of [key_cards]. *)
Record Metrics := mk_metrics {
  composite : float;
  degree : float;
  betweenness : float;
  pagerank_score : float;
  clustering : float
}.

Section Analyzer.

Variable nx : Networkx.

(** [self.graph] *)
Variable graph : Nx.Graph.

Definition degree_centrality : result (gmap string float) :=
  nx_degree_centrality nx graph.

Definition betweenness_centrality : result (gmap string float) :=
  if (Nx.number_of_nodes graph <? 2)%nat then Ok ∅
  else nx_betweenness_centrality nx graph.

Definition closeness_centrality : result (gmap string float) :=
  if (Nx.number_of_nodes graph <? 2)%nat then Ok ∅
  else nx_closeness_centrality nx graph.

Definition eigenvector_centrality : result (gmap string float) :=
  if (Nx.number_of_nodes graph <? 2)%nat then Ok ∅
  else
    match nx_eigenvector_centrality nx graph with
    | Raise PowerIterationFailedConvergence => Ok ∅
    | r => r
    end.

Definition pagerank : result (gmap string float) :=
  if (Nx.number_of_nodes graph <? 2)%nat then Ok ∅
  else nx_pagerank nx graph.

Definition clustering_coefficient : result (gmap string float) :=
  nx_clustering nx graph.

Definition average_clustering : result float :=
  if (Nx.number_of_nodes graph <? 3)%nat then Ok 0.0%float
  else nx_average_clustering nx graph.

Definition connected_components : result (list (list string)) :=
  do components <- nx_connected_components nx graph;
  Ok (elements <$> components).

Definition detect_communities : result (list (list string)) :=
  if (Nx.number_of_nodes graph <? 2)%nat then Ok [Nx.nodes graph]
  else
    match nx_louvain_communities nx with
    | None => connected_components
    | Some louvain_communities =>
        match louvain_communities graph with
        | Ok communities => Ok (elements <$> communities)
        | Raise _ => connected_components
        end
    end.

(** [d.get(card_id, 0)] *)
Definition get0 (d : gmap string float) (card_id : string) : float :=
  default 0%float (d !! card_id).

Definition metrics_of (degree betweenness pagerank_scores clustering : gmap string float)
    (card_id : string) : Metrics :=
  mk_metrics
    (get0 degree card_id * 0.3 + get0 betweenness card_id * 0.3 +
     get0 pagerank_scores card_id * 0.3 + get0 clustering card_id * 0.1)%float
    (get0 degree card_id) (get0 betweenness card_id)
    (get0 pagerank_scores card_id) (get0 clustering card_id).

Definition key_cards (top_n : Z) : result (list (string * Metrics)) :=
  do degree <- degree_centrality;
  do betweenness <- betweenness_centrality;
  do pagerank_scores <- pagerank;
  do clustering <- clustering_coefficient;
  let scores :=
    foldl (fun scores card_id =>
             Nx.dict_set card_id
               (metrics_of degree betweenness pagerank_scores clustering card_id) scores)
          [] (Nx.nodes graph) in
  let sorted_cards := sorted_desc (fun x => composite (snd x)) scores in
  Ok (slice_to top_n sorted_cards).

End Analyzer.

End GraphAnalyzer.

(** ** Vocabulary of the properties *)

Module Spec.

(** [{a, b} = {u, v}] as unordered pairs. *)
Definition same_pair (a b u v : string) : bool :=
  bool_decide (a = u ∧ b = v) || bool_decide (a = v ∧ b = u).

(** What networkx maintains of a [Graph]: both adjacency entries of an
    edge hold the same attribute dictionary, every key of the adjacency
    is a node, and a node is listed once. *)
Record wf_graph (g : Nx.Graph) : Prop := mk_wf {
  wf_symmetric : forall u v, Nx.edge_data g u v = Nx.edge_data g v u;
  wf_adj_node : forall u, is_Some (Nx._adj g !! u) -> u ∈ Nx.nodes g;
  wf_nodup : NoDup (Nx.nodes g)
}.

Definition no_self_loop (g : Nx.Graph) : Prop :=
  forall u, Nx.edge_data g u u = None.

(** The attribute dictionary of the edge of an interaction once the
    interaction is added, given the dictionary found before. *)
Definition merged (old : option Nx.EdgeData) (i : Interaction.t) : Nx.EdgeData :=
  match old with
  | Some e =>
      Nx.mk_edge
        (Nx.interaction_types e ++
           [InteractionType.value (Interaction.interaction_type i)])
        (PyFloat.max (Nx.weight e) (Interaction.weight i))
        (Nx.description e)
  | None =>
      Nx.mk_edge [InteractionType.value (Interaction.interaction_type i)]
        (Interaction.weight i) (Interaction.description i)
  end.

(** The type tags that the interactions of [l] between [a] and [b], in
    either direction, contribute, in the order of [l]. *)
Definition contributed (l : list Interaction.t) (a b : string) : list string :=
  (fun i => InteractionType.value (Interaction.interaction_type i)) <$>
  filter (fun i => Is_true (same_pair a b (Interaction.source_id i) (Interaction.target_id i))) l.

(** An edge dictionary with more tags at the end of its type list. *)
Definition with_more_types (ts : list string) (e : Nx.EdgeData) : Nx.EdgeData :=
  Nx.mk_edge (Nx.interaction_types e ++ ts) (Nx.weight e) (Nx.description e).

(** The edge of [i] exists and its weight is not below the weight of [i]. *)
Definition covered (g : Nx.Graph) (i : Interaction.t) : Prop :=
  exists e,
    Nx.edge_data g (Interaction.source_id i) (Interaction.target_id i) = Some e /\
    PrimFloat.ltb (Nx.weight e) (Interaction.weight i) = false.

(** Every character of [m] is in the class [k]. *)
Fixpoint all_in (k : Re.cset) (m : string) : bool :=
  match m with
  | EmptyString => true
  | String x m' => Re.cset_mem k x && all_in k m'
  end.

(** [x] occurs in front of [y] in [l]. *)
Definition before {A : Type} (l : list A) (x y : A) : Prop :=
  exists i j, i < j /\ l !! i = Some x /\ l !! j = Some y.

(** No element stands in front of one with a strictly greater key. *)
Definition descending {A : Type} (key : A -> float) (l : list A) : Prop :=
  forall x y, before l x y -> PrimFloat.ltb (key x) (key y) = false.

(** No key is NaN. *)
Definition no_nan {A : Type} (key : A -> float) (l : list A) : Prop :=
  forall x, x ∈ l -> PyFloat.is_nan (key x) = false.

(** The rules text of the card is ASCII. *)
Definition ascii_text (c : Card.t) : Prop :=
  PyStr.isascii (Card.oracle_text c) = true.

(** The part of the type line that holds the subtypes is ASCII. *)
Definition ascii_subtypes (c : Card.t) : Prop :=
  PyStr.isascii (nth 1 (PyStr.split Card.dash (Card.type_line c)) "") = true.

End Spec.

(** ** Sample data *)

Module Examples.

(** The graph of a deck without cards. *)
Definition no_cards : DeckGraph.t := DeckGraph.init (Deck.mk [] None) false.

Definition synergy_ab : Interaction.t :=
  Interaction.mk "a" "b" InteractionType.SYNERGY 0.5 None false.

Definition tribal_ba : Interaction.t :=
  Interaction.mk "b" "a" InteractionType.TRIBAL 0.6 (Some "Both are Elf") true.

Definition tutors_ab : Interaction.t :=
  Interaction.mk "a" "b" InteractionType.TUTORS 0.9 (Some "a can find b") false.

(** A graph in which [a] and [b] already have an edge. *)
Definition one_edge : DeckGraph.t := DeckGraph.add_interaction no_cards tribal_ba.

(** The three cards of [tests/smoke_test.py]. *)
Definition card1 : Card.t :=
  Card.mk "c1" "Sacrifice Outlet" "" 2 [] [] "Artifact"
    "Sacrifice a creature: Add {B}." [] "".

Definition card2 : Card.t :=
  Card.mk "c2" "Death Trigger" "" 3 [] [] "Creature"
    "When this creature dies, draw a card." ["Flying"] "".

Definition card3 : Card.t :=
  Card.mk "c3" "Keyword Lord" "" 4 [] [] "Enchantment"
    "Creatures with flying get +1/+1." [] "".

(** An enchantment, not a creature, with a death trigger. *)
Definition card4 : Card.t :=
  Card.mk "c4" "Grave Pact" "" 4 [] [] "Enchantment"
    "Whenever a creature dies, draw a card." [] "".


(** A networkx whose every algorithm fails. *)
Definition failing_networkx : GraphAnalyzer.Networkx :=
  GraphAnalyzer.mk_nx
    (fun _ => Py.Raise Py.NetworkXError) (fun _ => Py.Raise Py.NetworkXError)
    (fun _ => Py.Raise Py.NetworkXError) (fun _ => Py.Raise Py.NetworkXError)
    (fun _ => Py.Raise Py.NetworkXError) (fun _ => Py.Raise Py.NetworkXError)
    (fun _ => Py.Raise Py.NetworkXError) (fun _ => Py.Raise Py.NetworkXError)
    None.

(** A networkx that knows the components of [two_nodes] below and whose
    Louvain implementation fails. *)
Definition louvain_failing_networkx : GraphAnalyzer.Networkx :=
  GraphAnalyzer.mk_nx
    (fun _ => Py.Ok ∅) (fun _ => Py.Ok ∅) (fun _ => Py.Ok ∅) (fun _ => Py.Ok ∅)
    (fun _ => Py.Ok ∅) (fun _ => Py.Ok ∅) (fun _ => Py.Ok 0%float)
    (fun _ => Py.Ok [{["a"]}; {["b"]}])
    (Some (fun _ => Py.Raise Py.OtherException)).

(** A networkx that knows the degree centrality of three cards and
    nothing else. *)
Definition ranking_networkx : GraphAnalyzer.Networkx :=
  GraphAnalyzer.mk_nx
    (fun _ => Py.Ok (list_to_map [("a", 0.5%float); ("b", 1%float); ("c", 0.5%float)]))
    (fun _ => Py.Ok ∅) (fun _ => Py.Ok ∅) (fun _ => Py.Ok ∅)
    (fun _ => Py.Ok ∅) (fun _ => Py.Ok ∅) (fun _ => Py.Ok 0%float)
    (fun _ => Py.Ok []) None.

Definition four_nodes : Nx.Graph :=
  Nx.mk [("a", None); ("b", None); ("c", None); ("d", None)] ∅.

Definition one_node : Nx.Graph := Nx.ensure_node Nx.empty "a".

Definition two_nodes : Nx.Graph := Nx.ensure_node one_node "b".

End Examples.

(** ** Insertion-ordered dictionaries *)

Module PyDict.

(** [d.get(k)] *)
Fixpoint dict_get {V : Type} (k : string) (d : list (string * V)) : option V :=
  match d with
  | [] => None
  | (k', v) :: d' => if decide (k = k') then Some v else dict_get k d'
  end.

(** [del d[k]] for a key that is present. *)
Fixpoint dict_del {V : Type} (k : string) (d : list (string * V)) : list (string * V) :=
  match d with
  | [] => []
  | (k', v) :: d' => if decide (k = k') then d' else (k', v) :: dict_del k d'
  end.

End PyDict.

(** ** [core/models/deck.py]: card management and statistics

    The methods also store the time of the change in [updated_at]; the
    clock is outside the model, as is the other metadata of the deck. *)

Module DeckOps.

Definition with_cards (self : Deck.t) (cards : list (string * Deck.DeckEntry)) : Deck.t :=
  Deck.mk cards (Deck.commander self).

Definition add_card (self : Deck.t) (card : Card.t) (quantity : Z) (category : string) : Deck.t :=
  match PyDict.dict_get (Card.id card) (Deck.cards self) with
  | Some entry =>
      with_cards self
        (Nx.dict_set (Card.id card)
           (Deck.mk_entry (Deck.card entry) (Deck.quantity entry + quantity) (Deck.category entry))
           (Deck.cards self))
  | None =>
      with_cards self
        (Nx.dict_set (Card.id card) (Deck.mk_entry card quantity category) (Deck.cards self))
  end.

(** The deck after the call, and the returned flag. *)
Definition remove_card (self : Deck.t) (card_id : string) (quantity : Z) : Deck.t * bool :=
  match PyDict.dict_get card_id (Deck.cards self) with
  | None => (self, false)
  | Some entry =>
      let left := (Deck.quantity entry - quantity)%Z in
      if (left <=? 0)%Z
      then (with_cards self (PyDict.dict_del card_id (Deck.cards self)), true)
      else (with_cards self
              (Nx.dict_set card_id
                 (Deck.mk_entry (Deck.card entry) left (Deck.category entry))
                 (Deck.cards self)), true)
  end.

Definition set_card_quantity (self : Deck.t) (card_id : string) (quantity : Z) : Deck.t * bool :=
  match PyDict.dict_get card_id (Deck.cards self) with
  | None => (self, false)
  | Some entry =>
      if (quantity <=? 0)%Z
      then (with_cards self (PyDict.dict_del card_id (Deck.cards self)), true)
      else (with_cards self
              (Nx.dict_set card_id
                 (Deck.mk_entry (Deck.card entry) quantity (Deck.category entry))
                 (Deck.cards self)), true)
  end.

Definition set_card_category (self : Deck.t) (card_id : string) (category : string)
    : Deck.t * bool :=
  match PyDict.dict_get card_id (Deck.cards self) with
  | None => (self, false)
  | Some entry =>
      (with_cards self
         (Nx.dict_set card_id
            (Deck.mk_entry (Deck.card entry) (Deck.quantity entry) category)
            (Deck.cards self)), true)
  end.

Definition get_card (self : Deck.t) (card_id : string) : option Deck.DeckEntry :=
  PyDict.dict_get card_id (Deck.cards self).

(** [sum(entry.quantity for entry in self.cards.values())] *)
Definition total_cards (self : Deck.t) : Z :=
  foldl (fun acc kv => (acc + Deck.quantity (snd kv))%Z) 0%Z (Deck.cards self).

Definition unique_cards (self : Deck.t) : nat := length (Deck.cards self).

(** One copy of the card per unit of quantity; [range] of a quantity that
    is not positive is empty. *)
Definition get_cards_list (self : Deck.t) : list Card.t :=
  Deck.cards self ≫= fun kv =>
    replicate (Z.to_nat (Deck.quantity (snd kv))) (Deck.card (snd kv)).

Definition land_count (self : Deck.t) : Z :=
  foldl (fun acc kv => (acc + Deck.quantity (snd kv))%Z) 0%Z
    (filter (fun kv => Is_true (Card.is_land (Deck.card (snd kv)))) (Deck.cards self)).

End DeckOps.

(** ** [core/models/interaction.py]: serialization *)

Module InteractionCodec.

(** The values a serialized interaction holds. *)
Inductive pyvalue :=
| VStr (s : string)
| VFloat (x : float)
| VBool (b : bool)
| VNone.

Definition all_types : list InteractionType.t :=
  [ InteractionType.COMBOS_WITH; InteractionType.ENABLES; InteractionType.SYNERGY;
    InteractionType.PROTECTS; InteractionType.BUFFS; InteractionType.TUTORS;
    InteractionType.MANA_ENABLES; InteractionType.DRAWS_INTO; InteractionType.TRIBAL;
    InteractionType.TYPE_MATTERS; InteractionType.SACRIFICE_FODDER;
    InteractionType.SACRIFICE_OUTLET; InteractionType.COUNTER_SYNERGY;
    InteractionType.ETB_CHAIN; InteractionType.DEATH_CHAIN ].

(** [InteractionType(s)]: the member whose value is [s], if there is
    one (Python raises [ValueError] otherwise). *)
Definition of_value (s : string) : option InteractionType.t :=
  find (fun ty => String.eqb (InteractionType.value ty) s) all_types.

Definition to_dict (self : Interaction.t) : gmap string pyvalue :=
  list_to_map
    [ ("source_id", VStr (Interaction.source_id self));
      ("target_id", VStr (Interaction.target_id self));
      ("interaction_type",
       VStr (InteractionType.value (Interaction.interaction_type self)));
      ("weight", VFloat (Interaction.weight self));
      ("description",
       match Interaction.description self with Some s => VStr s | None => VNone end);
      ("bidirectional", VBool (Interaction.bidirectional self)) ].

(** How [from_dict] ends: with an interaction, with the [KeyError] of a
    missing key, or with the [ValueError] of an unknown type name.
    [Untyped] stands for a dictionary that holds, under one of the keys, a
    value of another type than the field's: Python stores such a value
    unchecked, which the typed record cannot express. *)
Inductive loaded :=
| Loaded (i : Interaction.t)
| KeyError (key : string)
| ValueError (value : string)
| Untyped.

Definition from_dict (data : gmap string pyvalue) : loaded :=
  match data !! "source_id" with
  | None => KeyError "source_id"
  | Some (VStr source_id) =>
      match data !! "target_id" with
      | None => KeyError "target_id"
      | Some (VStr target_id) =>
          match data !! "interaction_type" with
          | None => KeyError "interaction_type"
          | Some (VStr type_name) =>
              match of_value type_name with
              | None => ValueError type_name
              | Some interaction_type =>
                  match default (VFloat 1.0) (data !! "weight"),
                        default VNone (data !! "description"),
                        default (VBool false) (data !! "bidirectional") with
                  | VFloat weight, VStr description, VBool bidirectional =>
                      Loaded (Interaction.mk source_id target_id interaction_type
                                weight (Some description) bidirectional)
                  | VFloat weight, VNone, VBool bidirectional =>
                      Loaded (Interaction.mk source_id target_id interaction_type
                                weight None bidirectional)
                  | _, _, _ => Untyped
                  end
              end
          | Some _ => Untyped
          end
      | Some _ => Untyped
      end
  | Some _ => Untyped
  end.

End InteractionCodec.

(** ** [core/graph/deck_graph.py]: queries and node colours *)

Module DeckGraphQueries.

(** The neighbour dictionary of a node, empty for an unknown node. *)
Definition neighbors (g : Nx.Graph) (n : string) : gmap string Nx.EdgeData :=
  default ∅ (Nx._adj g !! n).

(** [G.degree(n)]: the number of neighbours, a self-loop counting twice. *)
Definition degree (g : Nx.Graph) (n : string) : nat :=
  size (neighbors g n) + (if bool_decide (is_Some (neighbors g n !! n)) then 1 else 0).

(** The neighbours come in the order of the neighbour dictionary, which
    the finite map of the model does not keep: the list is right up to
    the order of its elements. *)
Definition get_connected_cards (self : DeckGraph.t) (card_id : string) : list string :=
  if negb (Nx.has_node (DeckGraph.graph self) card_id) then []
  else (map_to_list (neighbors (DeckGraph.graph self) card_id)).*1.

Definition get_isolated_cards (self : DeckGraph.t) : list string :=
  filter (fun node => degree (DeckGraph.graph self) node = 0)
    (Nx.nodes (DeckGraph.graph self)).

(** The dictionary [type_colors], in the order it is written. *)
Definition type_colors : list (string * string) :=
  [ ("Creature", "#4CAF50"); ("Instant", "#2196F3"); ("Sorcery", "#F44336");
    ("Artifact", "#9E9E9E"); ("Enchantment", "#9C27B0");
    ("Planeswalker", "#FF9800"); ("Land", "#8D6E63") ].

Fixpoint _get_type_color (card_types : list string) : string :=
  match card_types with
  | [] => "#607D8B"
  | card_type :: rest =>
      match PyDict.dict_get card_type type_colors with
      | Some color => color
      | None => _get_type_color rest
      end
  end.

End DeckGraphQueries.

(** ** [core/graph/synergy_weighter.py]: shared keywords *)

Module SharedKeywords.

(** [get_shared_keywords]: the keywords the two cards share once lower
    cased.  The keyword extraction that follows in the source has its
    result dropped and its exceptions swallowed. *)
Definition get_shared_keywords (card1 card2 : Card.t) : list string :=
  let k1 : gset string := list_to_set (PyStr.lower <$> Card.keywords card1) in
  let k2 : gset string := list_to_set (PyStr.lower <$> Card.keywords card2) in
  elements (k1 ∩ k2).

End SharedKeywords.

(** ** Vocabulary of the further properties *)

Module MoreSpec.

(** A deck as [add_card] keeps it: every entry is filed under the id of
    its card, and no id is filed twice. *)
Definition deck_ok (d : Deck.t) : Prop :=
  NoDup (Deck.cards d).*1 /\
  forall k e, (k, e) ∈ Deck.cards d -> k = Card.id (Deck.card e).

(** Every entry holds at least one copy. *)
Definition all_positive (d : Deck.t) : Prop :=
  forall k e, (k, e) ∈ Deck.cards d -> (0 < Deck.quantity e)%Z.

(** The interactions of [l] between [a] and [b], in either direction. *)
Definition between (l : list Interaction.t) (a b : string) : list Interaction.t :=
  filter (fun i => Is_true (Spec.same_pair a b (Interaction.source_id i)
                              (Interaction.target_id i))) l.

(** The edge that a list of interactions between two cards adds up to:
    their tags in order, the greatest weight, the first description. *)
Definition summary (l : list Interaction.t) : option Nx.EdgeData :=
  match l with
  | [] => None
  | i :: rest =>
      Some (Nx.mk_edge
              ((fun j => InteractionType.value (Interaction.interaction_type j)) <$> l)
              (foldl PyFloat.max (Interaction.weight i) (Interaction.weight <$> rest))
              (Interaction.description i))
  end.

(** The graph has no edge at all. *)
Definition no_edge (g : Nx.Graph) : Prop :=
  forall a b, Nx.edge_data g a b = None.

(** Every edge has a type list that is not empty and holds values of
    [InteractionType] only. *)
Definition typed_edges (g : Nx.Graph) : Prop :=
  forall a b e,
    Nx.edge_data g a b = Some e ->
    Nx.interaction_types e <> [] /\
    Forall (fun s => exists ty, InteractionCodec.of_value s = Some ty)
      (Nx.interaction_types e).

(** No edge weighs more than [bound]. *)
Definition weights_at_most (bound : float) (g : Nx.Graph) : Prop :=
  forall a b e, Nx.edge_data g a b = Some e -> PrimFloat.ltb bound (Nx.weight e) = false.

(** The attributes that [_build_nodes] stores on the node of an entry. *)
Definition node_attrs (deck : Deck.t) (entry : Deck.DeckEntry) : Nx.NodeAttrs :=
  Nx.mk_node (Card.name (Deck.card entry)) (Card.type_line (Deck.card entry))
    (Card.get_card_types (Deck.card entry)) (Card.cmc (Deck.card entry))
    (Card.colors (Deck.card entry)) (Card.color_identity (Deck.card entry))
    (Card.keywords (Deck.card entry)) (Deck.quantity entry) (Deck.category entry)
    (Card.image_uri (Deck.card entry))
    (bool_decide (Some (Card.id (Deck.card entry)) = Deck.commander deck)).

(** The same interaction read in the other direction. *)
Definition same_but_direction (x y : Interaction.t) : Prop :=
  Interaction.source_id y = Interaction.target_id x /\
  Interaction.target_id y = Interaction.source_id x /\
  Interaction.interaction_type y = Interaction.interaction_type x /\
  Interaction.weight y = Interaction.weight x /\
  Interaction.bidirectional y = Interaction.bidirectional x.

End MoreSpec.

Module MoreExamples.

Definition empty_deck : Deck.t := Deck.mk [] None.

(** The deck of [tests/smoke_test.py]. *)
Definition smoke_deck : Deck.t :=
  DeckOps.add_card
    (DeckOps.add_card (DeckOps.add_card empty_deck Examples.card1 1 "") Examples.card2 1 "")
    Examples.card3 1 "".

End MoreExamples.

(** ** Further examples *)

Module ExampleCards.

Definition hardened_scales : Card.t :=
  Card.mk "hs" "Hardened Scales" "{G}" 1 ["G"] ["G"] "Enchantment"
    "Creatures you control with a +1/+1 counter get trample." [] "".

Definition travel_preparations : Card.t :=
  Card.mk "tp" "Travel Preparations" "{1}{G}" 2 ["G"] ["G"] "Sorcery"
    "Put a +1/+1 counter on each of up to two target creatures." [] "".

(** A deck of one card. *)
Definition lone_deck : Deck.t :=
  DeckOps.add_card MoreExamples.empty_deck Examples.card2 1 "".

Definition elvish_archdruid : Card.t :=
  Card.mk "ea" "Elvish Archdruid" "{1}{G}{G}" 3 ["G"] ["G"] "Creature — Elf Druid"
    "Other Elf creatures you control get +1/+1." [] "".

Definition llanowar_elves : Card.t :=
  Card.mk "le" "Llanowar Elves" "{G}" 1 ["G"] ["G"] "Creature — Elf Druid"
    "{T}: Add {G}." [] "".

End ExampleCards.

(* ===================================================================== *)
(** * Part II: properties                                                 *)
(* ===================================================================== *)

(** ** The order of binary64 numbers *)

Module FloatFacts.

Local Ltac split_compares :=
  repeat match goal with
  | H : context [Z.compare ?a ?b] |- _ => destruct (Z.compare_spec a b)
  | H : context [Pos.compare ?a ?b] |- _ => destruct (Pos.compare_spec a b)
  | |- context [Z.compare ?a ?b] => destruct (Z.compare_spec a b)
  | |- context [Pos.compare ?a ?b] => destruct (Pos.compare_spec a b)
  end.

(** Case analysis on three specification floats, down to comparisons
    of exponents and mantissas. *)
Local Ltac sf_cases a b c :=
  unfold SFltb, SFeqb, SFcompare;
  destruct a as [[]|[]| |[] ? ?], b as [[]|[]| |[] ? ?], c as [[]|[]| |[] ? ?];
  try (intros; congruence); intros;
  change (PosDef.Pos.compare_cont Eq) with Pos.compare in *;
  split_compares; cbn [CompOpp] in *; subst; try congruence; try lia.

Lemma SFltb_trans (a b c : spec_float) :
  SFltb a b = true -> SFltb b c = true -> SFltb a c = true.
Proof. sf_cases a b c. Qed.

Lemma SFltb_neg_trans (a b c : spec_float) :
  SFeqb b b = true ->
  SFltb a b = false -> SFltb b c = false -> SFltb a c = false.
Proof. sf_cases a b c. Qed.

Lemma SFltb_irrefl (a : spec_float) : SFltb a a = false.
Proof.
  unfold SFltb, SFcompare.
  destruct a as [[]|[]| |[] m e]; simpl; try reflexivity;
    rewrite Z.compare_refl, Pos.compare_refl; reflexivity.
Qed.

Lemma SFeqb_not_ltb (a b : spec_float) :
  SFeqb a b = true -> SFltb b a = false.
Proof.
  unfold SFltb, SFeqb, SFcompare.
  destruct a as [[]|[]| |[] ? ?], b as [[]|[]| |[] ? ?];
    try (intros; congruence); intros;
    change (PosDef.Pos.compare_cont Eq) with Pos.compare in *;
    split_compares; cbn [CompOpp] in *; subst; try congruence; try lia.
Qed.

Lemma ltb_irrefl (x : float) : PrimFloat.ltb x x = false.
Proof. rewrite ltb_spec. apply SFltb_irrefl. Qed.

Lemma ltb_trans (x y z : float) :
  PrimFloat.ltb x y = true -> PrimFloat.ltb y z = true -> PrimFloat.ltb x z = true.
Proof. rewrite !ltb_spec. apply SFltb_trans. Qed.

Lemma ltb_asym (x y : float) :
  PrimFloat.ltb x y = true -> PrimFloat.ltb y x = false.
Proof.
  intros H. destruct (PrimFloat.ltb y x) eqn:E; [|reflexivity].
  pose proof (ltb_trans _ _ _ H E) as F. rewrite ltb_irrefl in F. discriminate.
Qed.

(** Among numbers that are not NaN, "not less than" is transitive. *)
Lemma ltb_neg_trans (x y z : float) :
  PyFloat.is_nan y = false ->
  PrimFloat.ltb x y = false -> PrimFloat.ltb y z = false -> PrimFloat.ltb x z = false.
Proof.
  unfold PyFloat.is_nan. intros Hy%negb_false_iff.
  rewrite FloatAxioms.eqb_spec in Hy. rewrite !ltb_spec.
  apply SFltb_neg_trans, Hy.
Qed.

Lemma eqb_not_ltb (x y : float) :
  PrimFloat.eqb x y = true -> PrimFloat.ltb y x = false.
Proof. rewrite FloatAxioms.eqb_spec, ltb_spec. apply SFeqb_not_ltb. Qed.

(** The maximum that is already reached is kept. *)
Lemma max_absorb (w x : float) : PrimFloat.ltb w x = false -> PyFloat.max w x = w.
Proof. unfold PyFloat.max. intros ->. reflexivity. Qed.

(** The maximum is not below its second argument, and a bound of the
    first argument from below stays one. *)
Lemma max_not_below_r (w x : float) : PrimFloat.ltb (PyFloat.max w x) x = false.
Proof.
  unfold PyFloat.max. destruct (PrimFloat.ltb w x) eqn:E; [apply ltb_irrefl | exact E].
Qed.

Lemma max_not_below (w x y : float) :
  PrimFloat.ltb w y = false -> PrimFloat.ltb (PyFloat.max w x) y = false.
Proof.
  unfold PyFloat.max. intros Hy. destruct (PrimFloat.ltb w x) eqn:E; [|exact Hy].
  destruct (PrimFloat.ltb x y) eqn:F; [|reflexivity].
  rewrite (ltb_trans _ _ _ E F) in Hy. discriminate.
Qed.

End FloatFacts.

(** ** The networkx graph under [add_interaction] *)

Module GraphFacts.

Import Spec.

Lemma same_pair_spec (a b u v : string) :
  same_pair a b u v = true <-> (a = u /\ b = v) \/ (a = v /\ b = u).
Proof.
  unfold same_pair. rewrite orb_true_iff, !bool_decide_eq_true. reflexivity.
Qed.

Lemma same_pair_swap (a b u v : string) : same_pair b a u v = same_pair a b u v.
Proof.
  apply eq_true_iff_eq. rewrite !same_pair_spec. tauto.
Qed.

Lemma has_edge_edge_data (g : Nx.Graph) (u v : string) :
  Nx.has_edge g u v = bool_decide (is_Some (Nx.edge_data g u v)).
Proof.
  unfold Nx.has_edge, Nx.edge_data.
  destruct (Nx._adj g !! u) as [nbrs|]; reflexivity.
Qed.

Lemma lookup_set_adj (u v : string) (d : Nx.EdgeData)
    (adj : gmap string (gmap string Nx.EdgeData)) (a b : string) :
  (Nx.set_adj u v d adj !! a ≫= fun nbrs => nbrs !! b) =
  if decide (a = u /\ b = v) then Some d else adj !! a ≫= fun nbrs => nbrs !! b.
Proof.
  unfold Nx.set_adj. destruct (decide (a = u)) as [->|Ha].
  - rewrite lookup_insert_eq. simpl. destruct (decide (b = v)) as [->|Hb].
    + rewrite lookup_insert_eq. rewrite decide_True by done. reflexivity.
    + rewrite lookup_insert_ne by done. rewrite decide_False by tauto.
      destruct (adj !! u); simpl; [reflexivity | apply lookup_empty].
  - rewrite lookup_insert_ne by done. rewrite decide_False by tauto. reflexivity.
Qed.

Lemma set_adj_is_Some (u v : string) (d : Nx.EdgeData)
    (adj : gmap string (gmap string Nx.EdgeData)) (a : string) :
  is_Some (Nx.set_adj u v d adj !! a) <-> a = u \/ is_Some (adj !! a).
Proof.
  unfold Nx.set_adj. destruct (decide (a = u)) as [->|Ha].
  - rewrite lookup_insert_eq. split; [tauto | eauto].
  - rewrite lookup_insert_ne by done. split; [tauto | intros [?|?]; done].
Qed.

Lemma edge_data_update (g : Nx.Graph) (u v : string) (d : Nx.EdgeData) (a b : string) :
  Nx.edge_data (Nx.update_edge_data g u v d) a b =
  if same_pair a b u v then Some d else Nx.edge_data g a b.
Proof.
  unfold Nx.edge_data, Nx.update_edge_data. simpl.
  rewrite !lookup_set_adj. unfold same_pair.
  repeat case_decide; repeat case_bool_decide; simpl; try reflexivity; tauto.
Qed.

Lemma wf_update (g : Nx.Graph) (u v : string) (d : Nx.EdgeData) :
  wf_graph g -> u ∈ Nx.nodes g -> v ∈ Nx.nodes g ->
  wf_graph (Nx.update_edge_data g u v d).
Proof.
  intros [Hs Ha Hn] Hu Hv. split.
  - intros a b. rewrite !edge_data_update, (same_pair_swap a b), Hs. reflexivity.
  - intros a. unfold Nx.update_edge_data. simpl.
    rewrite !set_adj_is_Some. intros [->|[->|H]]; auto.
  - exact Hn.
Qed.

Lemma elem_of_nodes_ensure (g : Nx.Graph) (n a : string) :
  a ∈ Nx.nodes (Nx.ensure_node g n) <-> a = n \/ a ∈ Nx.nodes g.
Proof.
  unfold Nx.ensure_node, Nx.has_node. case_bool_decide as Hn.
  - split; [tauto | intros [->|?]; done].
  - unfold Nx.nodes. simpl. rewrite fmap_app, elem_of_app. simpl.
    rewrite list_elem_of_singleton. tauto.
Qed.

Lemma edge_data_ensure (g : Nx.Graph) (n : string) :
  wf_graph g -> forall a b, Nx.edge_data (Nx.ensure_node g n) a b = Nx.edge_data g a b.
Proof.
  intros [Hs Ha Hn] a b. unfold Nx.ensure_node, Nx.has_node.
  case_bool_decide as Hin; [reflexivity|].
  unfold Nx.edge_data. simpl. destruct (decide (a = n)) as [->|Hne].
  - rewrite lookup_insert_eq. simpl. rewrite lookup_empty.
    destruct (Nx._adj g !! n) eqn:E; [|reflexivity].
    exfalso. apply Hin, Ha. eauto.
  - rewrite lookup_insert_ne by done. reflexivity.
Qed.

Lemma wf_ensure (g : Nx.Graph) (n : string) :
  wf_graph g -> wf_graph (Nx.ensure_node g n).
Proof.
  intros Hwf. pose proof Hwf as [Hs Ha Hn]. split.
  - intros a b. rewrite !edge_data_ensure by done. apply Hs.
  - intros a. rewrite elem_of_nodes_ensure. unfold Nx.ensure_node, Nx.has_node.
    case_bool_decide as Hin; [auto|]. simpl.
    destruct (decide (a = n)) as [->|Hne]; [auto|].
    rewrite lookup_insert_ne by done. auto.
  - unfold Nx.ensure_node, Nx.has_node. case_bool_decide as Hin; [exact Hn|].
    unfold Nx.nodes in *. simpl. rewrite fmap_app. simpl.
    apply NoDup_app. split; [exact Hn|]. split.
    + intros x Hx ->%list_elem_of_singleton. done.
    + apply NoDup_singleton.
Qed.

Lemma wf_empty : wf_graph Nx.empty.
Proof.
  split.
  - intros u v. reflexivity.
  - intros u [x Hx]. unfold Nx.empty in Hx. simpl in Hx.
    rewrite lookup_empty in Hx. discriminate.
  - constructor.
Qed.

Lemma edge_data_Some_node (g : Nx.Graph) (u v : string) (e : Nx.EdgeData) :
  wf_graph g -> Nx.edge_data g u v = Some e -> u ∈ Nx.nodes g /\ v ∈ Nx.nodes g.
Proof.
  intros Hwf E. pose proof Hwf as [Hs Ha Hn].
  assert (Hl : forall a b, Nx.edge_data g a b = Some e -> a ∈ Nx.nodes g).
  { intros a b Hab. apply Ha. unfold Nx.edge_data in Hab.
    destruct (Nx._adj g !! a); [eauto | discriminate]. }
  split; [eapply Hl, E | eapply Hl; rewrite Hs; apply E].
Qed.

Section AddInteraction.

Variable self : DeckGraph.t.
Variable i : Interaction.t.

Let g := DeckGraph.graph self.
Let u := Interaction.source_id i.
Let v := Interaction.target_id i.
Let g' := DeckGraph.graph (DeckGraph.add_interaction self i).

(** Adding an interaction rewrites the dictionary of its unordered pair
    and no other. *)
Lemma edge_data_add_interaction :
  wf_graph g ->
  forall a b,
    Nx.edge_data g' a b =
    if same_pair a b u v then Some (merged (Nx.edge_data g u v) i)
    else Nx.edge_data g a b.
Proof.
  intros Hwf a b. subst g'. unfold DeckGraph.add_interaction.
  fold u v g. rewrite has_edge_edge_data.
  destruct (Nx.edge_data g u v) as [e|] eqn:E; simpl.
  - apply edge_data_update.
  - unfold Nx.add_edge. rewrite edge_data_update.
    rewrite !edge_data_ensure by auto using wf_ensure. reflexivity.
Qed.

Lemma wf_add_interaction : wf_graph g -> wf_graph g'.
Proof.
  intros Hwf. subst g'. unfold DeckGraph.add_interaction.
  fold u v g. rewrite has_edge_edge_data.
  destruct (Nx.edge_data g u v) as [e|] eqn:E; simpl.
  - destruct (edge_data_Some_node g u v e Hwf E). apply wf_update; assumption.
  - unfold Nx.add_edge. apply wf_update.
    + auto using wf_ensure.
    + rewrite !elem_of_nodes_ensure. auto.
    + rewrite !elem_of_nodes_ensure. auto.
Qed.

(** A merge leaves the node dictionary alone. *)
Lemma node_add_interaction_merge :
  Nx.has_edge g u v = true -> Nx._node g' = Nx._node g.
Proof.
  intros H. subst g'. unfold DeckGraph.add_interaction.
  fold u v g. rewrite H. rewrite has_edge_edge_data in H.
  apply bool_decide_eq_true in H. destruct H as [e E]. rewrite E. reflexivity.
Qed.

Lemma deck_add_interaction :
  DeckGraph.deck (DeckGraph.add_interaction self i) = DeckGraph.deck self /\
  DeckGraph.interactions (DeckGraph.add_interaction self i) = DeckGraph.interactions self.
Proof.
  unfold DeckGraph.add_interaction. fold u v g.
  destruct (Nx.has_edge g u v); [destruct (Nx.edge_data g u v)|]; split; reflexivity.
Qed.

End AddInteraction.

Lemma wf_ingest (l : list Interaction.t) (self : DeckGraph.t) :
  wf_graph (DeckGraph.graph self) ->
  wf_graph (DeckGraph.graph (DeckGraph.ingest self l)).
Proof.
  revert self. induction l as [|i l IH]; intros self Hwf; [exact Hwf|].
  apply IH, wf_add_interaction, Hwf.
Qed.

Lemma dict_set_keys {V : Type} (k : string) (v : V) (d : list (string * V)) :
  k ∈ d.*1 -> (Nx.dict_set k v d).*1 = d.*1.
Proof.
  induction d as [|[k' v'] d IH]; intros Hin.
  - inversion Hin.
  - cbn [Nx.dict_set]. case_decide as Hk.
    + subst. reflexivity.
    + rewrite !fmap_cons, IH; [reflexivity|].
      rewrite fmap_cons in Hin. apply elem_of_cons in Hin.
      destruct Hin as [Hin|Hin]; [contradiction | exact Hin].
Qed.

Lemma edge_data_add_node (g : Nx.Graph) (n : string) (attr : Nx.NodeAttrs) :
  wf_graph g -> forall a b, Nx.edge_data (Nx.add_node g n attr) a b = Nx.edge_data g a b.
Proof.
  intros [Hs Ha Hn] a b. unfold Nx.add_node, Nx.has_node.
  case_bool_decide as Hin; [reflexivity|].
  unfold Nx.edge_data. simpl. destruct (decide (a = n)) as [->|Hne].
  - rewrite lookup_insert_eq. simpl. rewrite lookup_empty.
    destruct (Nx._adj g !! n) eqn:E; [|reflexivity].
    exfalso. apply Hin, Ha. eauto.
  - rewrite lookup_insert_ne by done. reflexivity.
Qed.

Lemma wf_add_node (g : Nx.Graph) (n : string) (attr : Nx.NodeAttrs) :
  wf_graph g -> wf_graph (Nx.add_node g n attr).
Proof.
  intros Hwf. pose proof Hwf as [Hs Ha Hn]. split.
  - intros a b. rewrite !edge_data_add_node by done. apply Hs.
  - intros a. unfold Nx.add_node, Nx.has_node. case_bool_decide as Hin.
    + unfold Nx.nodes. simpl. rewrite dict_set_keys by exact Hin. apply Ha.
    + unfold Nx.nodes. simpl. rewrite fmap_app, elem_of_app. simpl.
      destruct (decide (a = n)) as [->|Hne].
      * intros _. right. left.
      * rewrite lookup_insert_ne by done. intros H. left. apply Ha, H.
  - unfold Nx.add_node, Nx.has_node. case_bool_decide as Hin.
    + unfold Nx.nodes. simpl. rewrite dict_set_keys by exact Hin. exact Hn.
    + unfold Nx.nodes in *. simpl. rewrite fmap_app. simpl.
      apply NoDup_app. split; [exact Hn|]. split.
      * intros x Hx ->%list_elem_of_singleton. done.
      * apply NoDup_singleton.
Qed.

(** [_build_nodes] makes nodes and no edge. *)
Lemma build_nodes_no_edge (self : DeckGraph.t) :
  wf_graph (DeckGraph.graph self) ->
  (forall a b, Nx.edge_data (DeckGraph.graph self) a b = None) ->
  wf_graph (DeckGraph.graph (DeckGraph._build_nodes self)) /\
  (forall a b, Nx.edge_data (DeckGraph.graph (DeckGraph._build_nodes self)) a b = None).
Proof.
  unfold DeckGraph._build_nodes.
  generalize (Deck.cards (DeckGraph.deck self)) as entries.
  intros entries. revert self.
  induction entries as [|kv entries IH]; intros self Hwf Hnone; [auto|].
  simpl. apply IH; simpl.
  - apply wf_add_node, Hwf.
  - intros a b. rewrite edge_data_add_node by exact Hwf. apply Hnone.
Qed.

Lemma deck_build_nodes (self : DeckGraph.t) :
  DeckGraph.deck (DeckGraph._build_nodes self) = DeckGraph.deck self.
Proof.
  unfold DeckGraph._build_nodes.
  generalize (Deck.cards (DeckGraph.deck self)) as entries.
  intros entries. revert self.
  induction entries as [|kv entries IH]; intros self; [reflexivity|].
  simpl. rewrite IH. reflexivity.
Qed.

(** Every graph that [DeckGraph(deck, auto_detect)] builds is well
    formed. *)
Lemma wf_init (deck : Deck.t) (auto_detect : bool) :
  wf_graph (DeckGraph.graph (DeckGraph.init deck auto_detect)).
Proof.
  unfold DeckGraph.init.
  destruct (build_nodes_no_edge (DeckGraph.mk deck Nx.empty [])) as [Hwf _].
  { apply wf_empty. }
  { intros a b. reflexivity. }
  destruct auto_detect; [|exact Hwf].
  unfold DeckGraph.detect_interactions. apply wf_ingest. exact Hwf.
Qed.

End GraphFacts.

(** ** Edge merge: frame, maximum and repeated ingestion *)

Module MergeProps.

Import Spec GraphFacts.

Lemma same_pair_refl (u v : string) : same_pair u v u v = true.
Proof. apply same_pair_spec. auto. Qed.

Lemma same_pair_flip (u v : string) : same_pair v u u v = true.
Proof. apply same_pair_spec. auto. Qed.

(** Two names of one unordered pair select the same pairs. *)
Lemma same_pair_rename (x y u v a b : string) :
  same_pair x y u v = true -> same_pair a b x y = same_pair a b u v.
Proof.
  intros H%same_pair_spec. apply eq_true_iff_eq. rewrite !same_pair_spec.
  destruct H as [[-> ->]|[-> ->]]; tauto.
Qed.

Lemma edge_data_same_pair (g : Nx.Graph) (x y u v : string) :
  wf_graph g -> same_pair x y u v = true -> Nx.edge_data g x y = Nx.edge_data g u v.
Proof.
  intros Hwf H%same_pair_spec.
  destruct H as [[-> ->]|[-> ->]]; [reflexivity | apply (wf_symmetric _ Hwf)].
Qed.

(** C9.  Frame property of a merge: when the endpoints of an interaction
    already have an edge, adding the interaction changes, in the
    attribute dictionary of that edge (seen from either endpoint), the
    type list (one tag appended) and the weight (the maximum) and nothing
    else: the description stays the one the edge had, every other pair
    keeps its dictionary, and the node dictionary, the deck and the
    interaction list are untouched. *)
Theorem merge_changes_only_types_and_weight (self : DeckGraph.t) (i : Interaction.t) :
  let g := DeckGraph.graph self in
  let g' := DeckGraph.graph (DeckGraph.add_interaction self i) in
  let u := Interaction.source_id i in
  let v := Interaction.target_id i in
  wf_graph g ->
  Nx.has_edge g u v = true ->
  exists e e',
    Nx.edge_data g u v = Some e /\ Nx.edge_data g v u = Some e /\
    Nx.edge_data g' u v = Some e' /\ Nx.edge_data g' v u = Some e' /\
    Nx.interaction_types e' =
      Nx.interaction_types e ++ [InteractionType.value (Interaction.interaction_type i)] /\
    Nx.weight e' = PyFloat.max (Nx.weight e) (Interaction.weight i) /\
    Nx.description e' = Nx.description e /\
    (forall a b, same_pair a b u v = false -> Nx.edge_data g' a b = Nx.edge_data g a b) /\
    Nx._node g' = Nx._node g /\
    DeckGraph.deck (DeckGraph.add_interaction self i) = DeckGraph.deck self /\
    DeckGraph.interactions (DeckGraph.add_interaction self i) = DeckGraph.interactions self.
Proof.
  intros g g' u v Hwf Hedge.
  pose proof (edge_data_add_interaction self i Hwf) as Hlook.
  pose proof Hedge as Hsome. rewrite has_edge_edge_data in Hsome.
  apply bool_decide_eq_true in Hsome. destruct Hsome as [e E].
  fold g u v in Hlook, E. rewrite E in Hlook. simpl in Hlook.
  eexists e, _. split; [exact E|].
  split; [rewrite (wf_symmetric _ Hwf); exact E|].
  split; [subst g'; rewrite Hlook, same_pair_refl; reflexivity|].
  split; [subst g'; rewrite Hlook, same_pair_flip; reflexivity|].
  do 3 (split; [reflexivity|]).
  split; [intros a b Hab; subst g'; rewrite Hlook, Hab; reflexivity|].
  split; [apply node_add_interaction_merge; exact Hedge|].
  apply deck_add_interaction.
Qed.

(** C4.  Edge merge: in a graph where [u] and [v] have no edge yet,
    ingesting two interactions between them (each in either direction)
    of weights 0.6 and 0.9 (in either order) leaves one attribute
    dictionary for the pair, found from both endpoints, with weight 0.9,
    the two type tags in order and the first description; no other pair
    is affected.  And whatever list is ingested, into this graph or into
    one that [DeckGraph(deck, auto_detect)] has built, the two adjacency
    entries of a pair always hold the same dictionary: a pair never has
    more than one edge. *)
Theorem edge_merge_keeps_max_weight (self : DeckGraph.t) (u v : string)
    (i1 i2 : Interaction.t) :
  let g := DeckGraph.graph self in
  let g2 := DeckGraph.graph (DeckGraph.ingest self [i1; i2]) in
  wf_graph g ->
  Nx.edge_data g u v = None ->
  same_pair (Interaction.source_id i1) (Interaction.target_id i1) u v = true ->
  same_pair (Interaction.source_id i2) (Interaction.target_id i2) u v = true ->
  (Interaction.weight i1 = 0.6%float /\ Interaction.weight i2 = 0.9%float) \/
  (Interaction.weight i1 = 0.9%float /\ Interaction.weight i2 = 0.6%float) ->
  (exists e,
     Nx.edge_data g2 u v = Some e /\ Nx.edge_data g2 v u = Some e /\
     Nx.weight e = 0.9%float /\
     Nx.interaction_types e =
       [InteractionType.value (Interaction.interaction_type i1);
        InteractionType.value (Interaction.interaction_type i2)] /\
     Nx.description e = Interaction.description i1) /\
  (forall a b, same_pair a b u v = false -> Nx.edge_data g2 a b = Nx.edge_data g a b) /\
  (forall l a b,
     Nx.edge_data (DeckGraph.graph (DeckGraph.ingest self l)) a b =
     Nx.edge_data (DeckGraph.graph (DeckGraph.ingest self l)) b a) /\
  (forall deck auto_detect l a b,
     let built := DeckGraph.ingest (DeckGraph.init deck auto_detect) l in
     Nx.edge_data (DeckGraph.graph built) a b = Nx.edge_data (DeckGraph.graph built) b a).
Proof.
  intros g g2 Hwf Hnone H1 H2 Hw.
  set (s1 := DeckGraph.add_interaction self i1).
  assert (Hwf1 : wf_graph (DeckGraph.graph s1)) by (apply wf_add_interaction, Hwf).
  pose proof (edge_data_add_interaction self i1 Hwf) as L1.
  pose proof (edge_data_add_interaction s1 i2 Hwf1) as L2.
  fold g in L1. fold s1 in L1.
  rewrite (edge_data_same_pair g _ _ u v Hwf H1), Hnone in L1. simpl in L1.
  assert (E1 : Nx.edge_data (DeckGraph.graph s1)
                 (Interaction.source_id i2) (Interaction.target_id i2) =
               Some (merged None i1)).
  { rewrite L1, (same_pair_rename _ _ u v) by exact H1. rewrite H2. reflexivity. }
  rewrite E1 in L2.
  assert (Hmax : PyFloat.max (Interaction.weight i1) (Interaction.weight i2) = 0.9%float).
  { destruct Hw as [[-> ->]|[-> ->]]; reflexivity. }
  change g2 with (DeckGraph.graph (DeckGraph.add_interaction s1 i2)).
  split; [|split; [|split]].
  - exists (merged (Some (merged None i1)) i2).
    split; [rewrite L2, (same_pair_rename _ _ u v), same_pair_refl by exact H2; reflexivity|].
    split; [rewrite L2, (same_pair_rename _ _ u v), same_pair_flip by exact H2; reflexivity|].
    simpl. rewrite Hmax. auto.
  - intros a b Hab. rewrite L2, (same_pair_rename _ _ u v), Hab by exact H2.
    rewrite L1, (same_pair_rename _ _ u v), Hab by exact H1. reflexivity.
  - intros l a b. apply (wf_symmetric _ (wf_ingest l self Hwf)).
  - intros deck auto_detect l a b built.
    apply (wf_symmetric _ (wf_ingest l _ (wf_init deck auto_detect))).
Qed.

Lemma covered_add_interaction (self : DeckGraph.t) (i : Interaction.t) :
  wf_graph (DeckGraph.graph self) ->
  covered (DeckGraph.graph (DeckGraph.add_interaction self i)) i.
Proof.
  intros Hwf. unfold covered.
  rewrite (edge_data_add_interaction self i Hwf), same_pair_refl.
  eexists. split; [reflexivity|].
  destruct (Nx.edge_data _ _ _) as [e|]; simpl.
  - apply FloatFacts.max_not_below_r.
  - apply FloatFacts.ltb_irrefl.
Qed.

Lemma covered_preserved (self : DeckGraph.t) (j i : Interaction.t) :
  wf_graph (DeckGraph.graph self) ->
  covered (DeckGraph.graph self) i ->
  covered (DeckGraph.graph (DeckGraph.add_interaction self j)) i.
Proof.
  intros Hwf (e & E & Hw). unfold covered.
  rewrite (edge_data_add_interaction self j Hwf).
  destruct (same_pair _ _ _ _) eqn:Hp; [|eauto].
  rewrite <- (edge_data_same_pair _ _ _ _ _ Hwf Hp), E.
  eexists. split; [reflexivity|]. simpl.
  apply FloatFacts.max_not_below, Hw.
Qed.

Lemma covered_ingest_preserved (l : list Interaction.t) (self : DeckGraph.t)
    (i : Interaction.t) :
  wf_graph (DeckGraph.graph self) ->
  covered (DeckGraph.graph self) i ->
  covered (DeckGraph.graph (DeckGraph.ingest self l)) i.
Proof.
  revert self. induction l as [|j l IH]; intros self Hwf Hc; [exact Hc|].
  apply (IH (DeckGraph.add_interaction self j));
    [apply wf_add_interaction, Hwf | apply covered_preserved; assumption].
Qed.

(** After a list is ingested, each of its interactions finds its edge
    with a weight that is not below its own. *)
Lemma covered_ingest (l : list Interaction.t) (self : DeckGraph.t) (i : Interaction.t) :
  wf_graph (DeckGraph.graph self) ->
  i ∈ l ->
  covered (DeckGraph.graph (DeckGraph.ingest self l)) i.
Proof.
  revert self. induction l as [|j l IH]; intros self Hwf Hin.
  - inversion Hin.
  - apply elem_of_cons in Hin. destruct Hin as [->|Hin].
    + apply (covered_ingest_preserved l (DeckGraph.add_interaction self j));
        [apply wf_add_interaction, Hwf|].
      apply covered_add_interaction, Hwf.
    + apply (IH (DeckGraph.add_interaction self j));
        [apply wf_add_interaction, Hwf | exact Hin].
Qed.

Lemma contributed_cons (j : Interaction.t) (l : list Interaction.t) (a b : string) :
  contributed (j :: l) a b =
  if same_pair a b (Interaction.source_id j) (Interaction.target_id j)
  then InteractionType.value (Interaction.interaction_type j) :: contributed l a b
  else contributed l a b.
Proof.
  unfold contributed. rewrite filter_cons.
  destruct (same_pair _ _ _ _) eqn:Hp; case_decide as Hd; simpl in *;
    try reflexivity; rewrite ?Hp in Hd; simpl in Hd; tauto.
Qed.

Lemma with_more_types_nil (e : Nx.EdgeData) : with_more_types [] e = e.
Proof. destruct e. unfold with_more_types. simpl. rewrite app_nil_r. reflexivity. Qed.

(** Ingesting interactions whose edges exist with weights that are not
    below theirs only appends their tags. *)
Lemma ingest_covered (l : list Interaction.t) (self : DeckGraph.t) :
  wf_graph (DeckGraph.graph self) ->
  (forall i, i ∈ l -> covered (DeckGraph.graph self) i) ->
  (forall a b,
     Nx.edge_data (DeckGraph.graph (DeckGraph.ingest self l)) a b =
     with_more_types (contributed l a b) <$> Nx.edge_data (DeckGraph.graph self) a b) /\
  Nx._node (DeckGraph.graph (DeckGraph.ingest self l)) = Nx._node (DeckGraph.graph self).
Proof.
  revert self. induction l as [|j l IH]; intros self Hwf Hcov.
  - split; [|reflexivity]. intros a b. simpl.
    destruct (Nx.edge_data _ a b) as [e|]; simpl; [|reflexivity].
    rewrite with_more_types_nil. reflexivity.
  - assert (Hwf1 : wf_graph (DeckGraph.graph (DeckGraph.add_interaction self j)))
      by (apply wf_add_interaction, Hwf).
    destruct (IH (DeckGraph.add_interaction self j) Hwf1) as [IHe IHn].
    { intros i Hi. apply covered_preserved; [exact Hwf|].
      apply Hcov, elem_of_cons. auto. }
    destruct (Hcov j) as (e & E & Hw); [apply elem_of_cons; auto|].
    split.
    + intros a b. change (DeckGraph.ingest self (j :: l))
        with (DeckGraph.ingest (DeckGraph.add_interaction self j) l).
      rewrite IHe, (edge_data_add_interaction self j Hwf), contributed_cons, E.
      destruct (same_pair a b _ _) eqn:Hp.
      * rewrite (edge_data_same_pair _ _ _ _ _ Hwf Hp), E. simpl.
        unfold with_more_types. simpl.
        rewrite (FloatFacts.max_absorb _ _ Hw), <- app_assoc. reflexivity.
      * reflexivity.
    + change (DeckGraph.ingest self (j :: l))
        with (DeckGraph.ingest (DeckGraph.add_interaction self j) l).
      rewrite IHn. apply node_add_interaction_merge.
      rewrite has_edge_edge_data, E. reflexivity.
Qed.

(** C1, as the code has it.  Ingesting the same list a second time keeps
    the nodes, the set of edges and the weight and description of every
    edge, and appends to the type list of every edge, once more, the tags
    of the interactions of the list between its endpoints. *)
Theorem second_ingest_appends_types_again (self : DeckGraph.t) (l : list Interaction.t) :
  let once := DeckGraph.graph (DeckGraph.ingest self l) in
  let twice := DeckGraph.graph (DeckGraph.ingest (DeckGraph.ingest self l) l) in
  wf_graph (DeckGraph.graph self) ->
  Nx._node twice = Nx._node once /\
  (forall a b, Nx.edge_data once a b = None -> Nx.edge_data twice a b = None) /\
  (forall a b e,
     Nx.edge_data once a b = Some e ->
     exists e',
       Nx.edge_data twice a b = Some e' /\
       Nx.weight e' = Nx.weight e /\
       Nx.description e' = Nx.description e /\
       Nx.interaction_types e' = Nx.interaction_types e ++ contributed l a b).
Proof.
  intros once twice Hwf.
  destruct (ingest_covered l (DeckGraph.ingest self l)) as [He Hn].
  { apply wf_ingest, Hwf. }
  { intros i Hi. apply covered_ingest; assumption. }
  split; [exact Hn|]. split.
  - intros a b E. subst twice. rewrite He. fold once. rewrite E. reflexivity.
  - intros a b e E. subst twice. rewrite He. fold once. rewrite E. simpl.
    eexists. split; [reflexivity|]. auto.
Qed.

Lemma second_ingest_appends_types_again_witness :
  wf_graph (DeckGraph.graph Examples.no_cards) /\
  Nx._node (DeckGraph.graph
              (DeckGraph.ingest (DeckGraph.ingest Examples.no_cards [Examples.synergy_ab])
                 [Examples.synergy_ab])) =
  Nx._node (DeckGraph.graph (DeckGraph.ingest Examples.no_cards [Examples.synergy_ab])).
Proof.
  split; [apply wf_empty|].
  apply (second_ingest_appends_types_again Examples.no_cards [Examples.synergy_ab]).
  apply wf_empty.
Defined.

(** C1, as the specification has it, fails: one interaction ingested
    twice leaves its tag twice on the edge, and the graph is not the one
    a single ingestion gives. *)
Lemma second_ingest_duplicates_type :
  let once := DeckGraph.graph (DeckGraph.ingest Examples.no_cards [Examples.synergy_ab]) in
  let twice :=
    DeckGraph.graph
      (DeckGraph.ingest (DeckGraph.ingest Examples.no_cards [Examples.synergy_ab])
         [Examples.synergy_ab]) in
  Nx.edge_data once "a" "b" = Some (Nx.mk_edge ["synergy"] 0.5 None) /\
  Nx.edge_data twice "a" "b" = Some (Nx.mk_edge ["synergy"; "synergy"] 0.5 None) /\
  ~ NoDup ["synergy"; "synergy"] /\
  Nx._adj twice <> Nx._adj once.
Proof.
  split; [vm_compute; reflexivity|]. split; [vm_compute; reflexivity|]. split.
  - intros H. apply NoDup_cons in H. destruct H as [H _]. apply H. left.
  - intros H.
    apply (f_equal (fun adj => adj !! "a" ≫= fun nbrs : gmap string Nx.EdgeData => nbrs !! "b")) in H.
    vm_compute in H. discriminate H.
Qed.

Lemma merge_changes_only_types_and_weight_witness :
  wf_graph (DeckGraph.graph Examples.one_edge) /\
  Nx.has_edge (DeckGraph.graph Examples.one_edge) "a" "b" = true /\
  Nx._node (DeckGraph.graph (DeckGraph.add_interaction Examples.one_edge Examples.tutors_ab)) =
  Nx._node (DeckGraph.graph Examples.one_edge).
Proof.
  assert (Hwf : wf_graph (DeckGraph.graph Examples.one_edge))
    by (apply wf_add_interaction, wf_empty).
  split; [exact Hwf|]. split; [reflexivity|].
  destruct (merge_changes_only_types_and_weight Examples.one_edge Examples.tutors_ab Hwf eq_refl)
    as (e & e' & _ & _ & _ & _ & _ & _ & _ & _ & Hn & _).
  exact Hn.
Defined.

Lemma edge_merge_keeps_max_weight_witness :
  exists e,
    Nx.edge_data
      (DeckGraph.graph
         (DeckGraph.ingest Examples.no_cards [Examples.tribal_ba; Examples.tutors_ab]))
      "a" "b" = Some e /\
    Nx.weight e = 0.9%float.
Proof.
  destruct (edge_merge_keeps_max_weight Examples.no_cards "a" "b"
              Examples.tribal_ba Examples.tutors_ab wf_empty eq_refl eq_refl eq_refl
              (or_introl (conj eq_refl eq_refl)))
    as [(e & E & _ & Hw & _) _].
  exists e. split; [exact E | exact Hw].
Defined.

End MergeProps.

(** ** The interaction detector *)

Module DetectorFacts.

Import InteractionType InteractionDetector.

Lemma elem_of_emit (x i : Interaction.t) (cond : bool) :
  x ∈ emit cond i <-> cond = true /\ x = i.
Proof.
  unfold emit. destruct cond.
  - rewrite list_elem_of_singleton. tauto.
  - split; [intros H; inversion H | intros [? _]; discriminate].
Qed.

(** An interaction is detected exactly when the rules emit it for two
    cards taken in list order. *)
Lemma elem_of_detect_all (x : Interaction.t) (cards : list Card.t) :
  x ∈ detect_all cards <->
  exists i j c1 c2,
    i < j /\ cards !! i = Some c1 /\ cards !! j = Some c2 /\
    x ∈ _detect_pair_interactions c1 c2.
Proof.
  induction cards as [|c rest IH]; simpl.
  - split; [intros H; inversion H|]. intros (i & j & c1 & c2 & _ & H & _). discriminate.
  - rewrite elem_of_app, list_elem_of_bind, IH. split.
    + intros [(c2 & Hx & Hin)|(i & j & c1 & c2 & Hij & Hi & Hj & Hx)].
      * apply list_elem_of_lookup in Hin. destruct Hin as [k Hk].
        exists 0, (S k), c, c2. repeat split; [lia | assumption..].
      * exists (S i), (S j), c1, c2. repeat split; [lia | assumption..].
    + intros (i & j & c1 & c2 & Hij & Hi & Hj & Hx).
      destruct j as [|j]; [lia|]. destruct i as [|i]; simpl in Hi, Hj.
      * left. injection Hi as <-. exists c2. split; [exact Hx|].
        apply list_elem_of_lookup. eauto.
      * right. exists i, j, c1, c2. repeat split; [lia | assumption..].
Qed.

(** Taking apart the membership of an interaction in what the rules
    emit. *)
Ltac emitted :=
  repeat match goal with
  | H : _ ∈ _ ++ _ |- _ => apply elem_of_app in H; destruct H as [H|H]
  | H : _ ∈ emit _ _ |- _ => apply elem_of_emit in H; destruct H as [? ->]
  | H : _ ∈ (_ ≫= _) |- _ =>
      apply list_elem_of_bind in H; destruct H as (? & H & ?)
  | H : _ ∈ (let '(_, _) := ?p in _) |- _ => destruct p
  | H : _ ∈ (if ?c then _ else _) |- _ => destruct c eqn:?
  | H : _ ∈ [] |- _ => inversion H
  end.

(** Every rule reports the two cards it was given, in one direction or
    the other. *)
Lemma pair_endpoints (card1 card2 : Card.t) (x : Interaction.t) :
  x ∈ _detect_pair_interactions card1 card2 ->
  (Interaction.source_id x = Card.id card1 /\ Interaction.target_id x = Card.id card2) \/
  (Interaction.source_id x = Card.id card2 /\ Interaction.target_id x = Card.id card1).
Proof.
  unfold _detect_pair_interactions, _check_sacrifice_synergy, _check_etb_synergy,
    _check_counter_synergy, _check_tribal_synergy, _check_type_matters,
    _check_mana_relationship, _check_keyword_synergy, _check_tutor_relationship.
  intros H. emitted; simpl; auto.
Qed.


(** Cards with distinct ids are told apart by their ids. *)
Lemma distinct_ids (cards : list Card.t) (i j : nat) (c1 c2 : Card.t) :
  NoDup (Card.id <$> cards) ->
  cards !! i = Some c1 -> cards !! j = Some c2 ->
  Card.id c1 = Card.id c2 -> i = j.
Proof.
  intros Hnd Hi Hj Hid.
  apply (NoDup_lookup _ i j (Card.id c1) Hnd).
  - rewrite list_lookup_fmap, Hi. reflexivity.
  - rewrite list_lookup_fmap, Hj, Hid. reflexivity.
Qed.

Lemma same_card (cards : list Card.t) (i j : nat) (c1 c2 : Card.t) :
  NoDup (Card.id <$> cards) ->
  cards !! i = Some c1 -> cards !! j = Some c2 ->
  Card.id c1 = Card.id c2 -> c1 = c2.
Proof.
  intros Hnd Hi Hj Hid. pose proof (distinct_ids _ _ _ _ _ Hnd Hi Hj Hid) as ->.
  congruence.
Qed.




End DetectorFacts.

(** ** No self-interaction *)

Module SelfLoopFacts.

Import Spec GraphFacts.

Lemma no_self_loop_add_interaction (self : DeckGraph.t) (i : Interaction.t) :
  wf_graph (DeckGraph.graph self) ->
  Interaction.source_id i <> Interaction.target_id i ->
  no_self_loop (DeckGraph.graph self) ->
  no_self_loop (DeckGraph.graph (DeckGraph.add_interaction self i)).
Proof.
  intros Hwf Hne Hno w. rewrite (edge_data_add_interaction self i Hwf).
  destruct (same_pair _ _ _ _) eqn:Hp; [|apply Hno].
  apply same_pair_spec in Hp. destruct Hp as [[Hu Hv]|[Hv Hu]]; congruence.
Qed.

Lemma no_self_loop_ingest (l : list Interaction.t) (self : DeckGraph.t) :
  wf_graph (DeckGraph.graph self) ->
  (forall x, x ∈ l -> Interaction.source_id x <> Interaction.target_id x) ->
  no_self_loop (DeckGraph.graph self) ->
  no_self_loop (DeckGraph.graph (DeckGraph.ingest self l)).
Proof.
  revert self. induction l as [|i l IH]; intros self Hwf Hl Hno; [exact Hno|].
  apply (IH (DeckGraph.add_interaction self i)).
  - apply wf_add_interaction, Hwf.
  - intros x Hx. apply Hl, elem_of_cons. auto.
  - apply no_self_loop_add_interaction; [exact Hwf | | exact Hno].
    apply Hl, elem_of_cons. auto.
Qed.

(** C10.  For cards with pairwise distinct ids, every detected
    interaction joins two different ids; so ingesting what was detected
    into a graph without self-loop leaves it without self-loop, and the
    graph that [DeckGraph(deck)] builds and fills has none. *)
Theorem detected_interactions_join_distinct_cards (cards : list Card.t) :
  NoDup (Card.id <$> cards) ->
  (forall x, x ∈ InteractionDetector.detect_all cards ->
             Interaction.source_id x <> Interaction.target_id x) /\
  (forall self,
     wf_graph (DeckGraph.graph self) ->
     no_self_loop (DeckGraph.graph self) ->
     no_self_loop
       (DeckGraph.graph (DeckGraph.ingest self (InteractionDetector.detect_all cards)))) /\
  (forall deck,
     Deck.get_unique_cards deck = cards ->
     no_self_loop (DeckGraph.graph (DeckGraph.init deck true))).
Proof.
  intros Hnd.
  assert (Hsrc : forall x, x ∈ InteractionDetector.detect_all cards ->
                           Interaction.source_id x <> Interaction.target_id x).
  { intros x Hx Heq. apply DetectorFacts.elem_of_detect_all in Hx.
    destruct Hx as (i & j & c1 & c2 & Hij & Hi & Hj & Hx).
    apply DetectorFacts.pair_endpoints in Hx.
    assert (Hid : Card.id c1 = Card.id c2)
      by (destruct Hx as [[Hs Ht]|[Hs Ht]]; congruence).
    pose proof (DetectorFacts.distinct_ids _ _ _ _ _ Hnd Hi Hj Hid). lia. }
  split; [exact Hsrc|]. split.
  - intros self Hwf Hno. apply no_self_loop_ingest; assumption.
  - intros deck Hcards. unfold DeckGraph.init, DeckGraph.detect_interactions.
    destruct (build_nodes_no_edge (DeckGraph.mk deck Nx.empty [])) as [Hwf Hnone].
    { apply wf_empty. }
    { intros a b. reflexivity. }
    apply no_self_loop_ingest; simpl.
    + exact Hwf.
    + rewrite deck_build_nodes. simpl. rewrite Hcards. exact Hsrc.
    + intros u. apply Hnone.
Qed.

Lemma detected_interactions_join_distinct_cards_witness :
  NoDup (Card.id <$> [Examples.card1; Examples.card2; Examples.card3]) /\
  no_self_loop
    (DeckGraph.graph
       (DeckGraph.ingest Examples.no_cards
          (InteractionDetector.detect_all
             [Examples.card1; Examples.card2; Examples.card3]))).
Proof.
  assert (Hnd : NoDup (Card.id <$> [Examples.card1; Examples.card2; Examples.card3])).
  { apply (bool_decide_unpack _). vm_compute. exact I. }
  split; [exact Hnd|].
  apply (detected_interactions_join_distinct_cards _ Hnd).
  - apply wf_empty.
  - intros u. reflexivity.
Defined.

End SelfLoopFacts.

(** ** What the patterns match *)

Module RegexFacts.

Import Spec.

Lemma match_here_one (k : Re.cset) (p : Re.re) (s : string) :
  Re.match_here (Re.One k :: p) s = true <->
  exists x s', s = String x s' /\ Re.cset_mem k x = true /\ Re.match_here p s' = true.
Proof.
  destruct s as [|x s]; simpl.
  - split; [discriminate | intros (? & ? & ? & _); discriminate].
  - rewrite andb_true_iff. split.
    + intros [? ?]. eauto.
    + intros (? & ? & [= <- <-] & ? & ?). auto.
Qed.

Lemma match_here_lit (w : string) (p : Re.re) (s : string) :
  Re.match_here (Re.lit w ++ p) s = true <->
  exists s', s = w +:+ s' /\ Re.match_here p s' = true.
Proof.
  revert s. induction w as [|c w IH]; intros s.
  - simpl. split; [eauto | intros (? & -> & ?); assumption].
  - change (Re.lit (String c w) ++ p) with (Re.One (Re.Lit c) :: (Re.lit w ++ p)).
    rewrite match_here_one. split.
    + intros (x & s' & -> & Hx & Hm). apply IH in Hm. destruct Hm as (s'' & -> & Hm).
      simpl in Hx. apply Ascii.eqb_eq in Hx. subst. eauto.
    + intros (s' & -> & Hm). exists c, (w +:+ s'). split; [reflexivity|].
      split; [apply Ascii.eqb_refl | apply IH; eauto].
Qed.

(** The starred position, unfolded once. *)
Lemma match_here_star_unfold (k : Re.cset) (p : Re.re) (s : string) :
  Re.match_here (Re.Star k :: p) s =
  Re.match_here p s ||
  match s with
  | EmptyString => false
  | String x s' => Re.cset_mem k x && Re.match_here (Re.Star k :: p) s'
  end.
Proof. destruct s; reflexivity. Qed.

Lemma match_here_star (k : Re.cset) (p : Re.re) (s : string) :
  Re.match_here (Re.Star k :: p) s = true <->
  exists m s', s = m +:+ s' /\ all_in k m = true /\ Re.match_here p s' = true.
Proof.
  split.
  - induction s as [|x s IH]; rewrite match_here_star_unfold, orb_true_iff.
    + intros [H|H]; [|discriminate]. exists EmptyString, EmptyString. auto.
    + intros [H|H]; [exists EmptyString, (String x s); auto|].
      apply andb_true_iff in H. destruct H as [Hx H].
      destruct (IH H) as (m & s' & -> & Hm & Hp).
      exists (String x m), s'. simpl. rewrite Hx, Hm. auto.
  - intros (m & s' & -> & Hm & Hp). induction m as [|x m IH].
    + change (EmptyString +:+ s') with s'.
      rewrite match_here_star_unfold, Hp. reflexivity.
    + simpl in Hm. apply andb_true_iff in Hm. destruct Hm as [Hx Hm].
      change (String x m +:+ s') with (String x (m +:+ s')).
      rewrite match_here_star_unfold. cbv beta iota. rewrite Hx, (IH Hm).
      apply orb_true_r.
Qed.

Lemma search_mono (p q : Re.re) :
  (forall s, Re.match_here p s = true -> Re.match_here q s = true) ->
  forall s, Re.search p s = true -> Re.search q s = true.
Proof.
  intros Hpq s. induction s as [|x s IH]; simpl; rewrite !orb_true_iff.
  - intros [H|H]; [left; apply Hpq, H | discriminate].
  - intros [H|H]; [left; apply Hpq, H | right; apply IH, H].
Qed.

(** [Whenever another .* dies] is an instance of [Whenever .* dies]. *)
Lemma whenever_another_dies (s : string) :
  Re.match_here (nth 2 InteractionDetector.death_trigger_patterns []) s = true ->
  Re.match_here (nth 1 Card.death_trigger_patterns []) s = true.
Proof.
  change (nth 2 InteractionDetector.death_trigger_patterns [])
    with (Re.One (Re.OneOf "Ww") ::
            (Re.lit "henever another " ++ (Re.Star Re.Dot :: (Re.lit " dies" ++ [])))).
  change (nth 1 Card.death_trigger_patterns [])
    with (Re.One (Re.OneOf "Ww") ::
            (Re.lit "henever " ++ (Re.Star Re.Dot :: (Re.lit " dies" ++ [])))).
  rewrite !match_here_one. intros (x & s1 & -> & Hx & H).
  apply match_here_lit in H. destruct H as (s2 & -> & H).
  apply match_here_star in H. destruct H as (m & s3 & -> & Hm & H).
  exists x, ("henever another " +:+ m +:+ s3). split; [reflexivity|]. split; [exact Hx|].
  apply match_here_lit. exists ("another " +:+ m +:+ s3). split; [reflexivity|].
  apply match_here_star. exists ("another " +:+ m), s3.
  split; [reflexivity|]. split; [|exact H]. simpl. exact Hm.
Qed.

(** [Whenever a creature dies] is an instance of [Whenever .* dies]. *)
Lemma whenever_a_creature_dies (s : string) :
  Re.match_here (nth 3 InteractionDetector.death_trigger_patterns []) s = true ->
  Re.match_here (nth 1 Card.death_trigger_patterns []) s = true.
Proof.
  change (nth 3 InteractionDetector.death_trigger_patterns [])
    with (Re.One (Re.OneOf "Ww") :: (Re.lit "henever a creature dies" ++ [])).
  change (nth 1 Card.death_trigger_patterns [])
    with (Re.One (Re.OneOf "Ww") ::
            (Re.lit "henever " ++ (Re.Star Re.Dot :: (Re.lit " dies" ++ [])))).
  rewrite !match_here_one. intros (x & s1 & -> & Hx & H).
  apply match_here_lit in H. destruct H as (s2 & -> & _).
  exists x, ("henever a creature dies" +:+ s2). split; [reflexivity|]. split; [exact Hx|].
  apply match_here_lit. exists ("a creature dies" +:+ s2). split; [reflexivity|].
  apply match_here_star. exists "a creature", (" dies" +:+ s2).
  split; [reflexivity|]. split; [reflexivity|].
  apply match_here_lit. exists s2. auto.
Qed.

(** A text with a death trigger for the detector has one for the card
    model. *)
Lemma detector_death_trigger (c : Card.t) :
  Re.any_search InteractionDetector.death_trigger_patterns (Card.oracle_text c) = true ->
  Card.has_death_trigger c = true.
Proof.
  unfold Card.has_death_trigger, Re.any_search.
  generalize (Card.oracle_text c) as text. intros text.
  change (existsb (fun p => Re.search p text) InteractionDetector.death_trigger_patterns)
    with (Re.search (nth 1 Card.death_trigger_patterns []) text ||
          (Re.search (nth 0 Card.death_trigger_patterns []) text ||
           (Re.search (nth 2 InteractionDetector.death_trigger_patterns []) text ||
            (Re.search (nth 3 InteractionDetector.death_trigger_patterns []) text || false)))).
  change (existsb (fun p => Re.search p text) Card.death_trigger_patterns)
    with (Re.search (nth 0 Card.death_trigger_patterns []) text ||
          (Re.search (nth 1 Card.death_trigger_patterns []) text ||
           (Re.search (nth 2 Card.death_trigger_patterns []) text || false))).
  rewrite !orb_true_iff.
  intros [H|[H|[H|[H|H]]]]; auto.
  - right. left. revert H. apply search_mono, whenever_another_dies.
  - right. left. revert H. apply search_mono, whenever_a_creature_dies.
Qed.

End RegexFacts.

(** ** Sacrifice outlets and death triggers *)

Module SacrificeProps.

Import InteractionType InteractionDetector DetectorFacts.

(** C3, as the code has it.  For two cards [A] and [B] at different
    positions, if the text of [A] matches a sacrifice-outlet pattern and
    the text of [B] a death-trigger pattern, a [DEATH_CHAIN] interaction
    from [A] to [B] of weight 0.8 is detected; a [SACRIFICE_OUTLET]
    interaction from [A] to [B] of weight 0.7 is detected as well when
    [B] is a creature. *)
Theorem sacrifice_outlet_with_death_trigger (cards : list Card.t) (i j : nat)
    (A B : Card.t) :
  cards !! i = Some A -> cards !! j = Some B -> i <> j ->
  Re.any_search sacrifice_outlet_patterns (Card.oracle_text A) = true ->
  Re.any_search death_trigger_patterns (Card.oracle_text B) = true ->
  Interaction.mk (Card.id A) (Card.id B) DEATH_CHAIN 0.8
    (Some (Card.name A +:+ " can sacrifice creatures to trigger " +:+ Card.name B))
    false ∈ detect_all cards /\
  (Card.is_creature B = true ->
   Interaction.mk (Card.id A) (Card.id B) SACRIFICE_OUTLET 0.7
     (Some (Card.name A +:+ " can sacrifice " +:+ Card.name B +:+ " for value"))
     false ∈ detect_all cards).
Proof.
  intros Hi Hj Hij Hout Hdeath.
  pose proof (RegexFacts.detector_death_trigger B Hdeath) as Htrig.
  split; [|intros Hcre]; apply elem_of_detect_all;
    (destruct (Nat.lt_total i j) as [Hlt|[Heq|Hgt]]; [|contradiction|]);
    [exists i, j, A, B | exists j, i, B, A | exists i, j, A, B | exists j, i, B, A];
    (repeat split; try assumption);
    unfold _detect_pair_interactions; rewrite elem_of_app; left;
    unfold _check_sacrifice_synergy; rewrite !elem_of_app, !elem_of_emit;
    rewrite ?Hout, ?Hdeath, ?Htrig, ?Hcre; simpl; auto 10.
Qed.

Lemma sacrifice_outlet_with_death_trigger_witness :
  Interaction.mk "c1" "c2" DEATH_CHAIN 0.8
    (Some "Sacrifice Outlet can sacrifice creatures to trigger Death Trigger") false
    ∈ detect_all [Examples.card1; Examples.card2] /\
  Interaction.mk "c1" "c2" SACRIFICE_OUTLET 0.7
    (Some "Sacrifice Outlet can sacrifice Death Trigger for value") false
    ∈ detect_all [Examples.card1; Examples.card2].
Proof.
  assert (Hne : 0 <> 1) by lia.
  assert (Hout : Re.any_search sacrifice_outlet_patterns
                   (Card.oracle_text Examples.card1) = true)
    by (vm_compute; reflexivity).
  assert (Hdeath : Re.any_search death_trigger_patterns
                     (Card.oracle_text Examples.card2) = true)
    by (vm_compute; reflexivity).
  destruct (sacrifice_outlet_with_death_trigger
              [Examples.card1; Examples.card2] 0 1 Examples.card1 Examples.card2
              eq_refl eq_refl Hne Hout Hdeath) as [H1 H2].
  split; [exact H1 | apply H2; vm_compute; reflexivity].
Defined.

(** C3, as the specification has it, fails: the outlet in front of an
    enchantment with a death trigger gets its [DEATH_CHAIN] but no
    [SACRIFICE_OUTLET] interaction, the enchantment not being a
    creature. *)
Lemma sacrifice_outlet_needs_a_creature :
  Re.any_search sacrifice_outlet_patterns (Card.oracle_text Examples.card1) = true /\
  Re.any_search death_trigger_patterns (Card.oracle_text Examples.card4) = true /\
  ~ exists x, x ∈ detect_all [Examples.card1; Examples.card4] /\
              Interaction.interaction_type x = SACRIFICE_OUTLET /\
              Interaction.source_id x = Card.id Examples.card1 /\
              Interaction.target_id x = Card.id Examples.card4 /\
              Interaction.weight x = 0.7%float.
Proof.
  split; [vm_compute; reflexivity|]. split; [vm_compute; reflexivity|].
  intros (x & Hx & Hty & _).
  assert (Hall : forallb
                   (fun y => negb (bool_decide (Interaction.interaction_type y = SACRIFICE_OUTLET)))
                   (detect_all [Examples.card1; Examples.card4]) = true)
    by (vm_compute; reflexivity).
  rewrite forallb_forall in Hall. apply list_elem_of_In in Hx.
  specialize (Hall x Hx). rewrite Hty in Hall. discriminate Hall.
Qed.

End SacrificeProps.

(** ** The synergy weighter *)

Module WeighterProps.

Import SynergyWeighter.

Lemma check_direct_reference_orb (card1 card2 : Card.t) :
  check_direct_reference card1 card2 =
  PyStr.contains (Card.name card1) (Card.oracle_text card2) ||
  PyStr.contains (Card.name card2) (Card.oracle_text card1).
Proof.
  unfold check_direct_reference.
  destruct (PyStr.contains (Card.name card1) _), (PyStr.contains (Card.name card2) _);
    reflexivity.
Qed.

(** C2, as the code has it.  With the default weights, the tags
    ["recursion"] and ["graveyard"] are no keywords of any category, so
    each counts with the weight 1.0 of ["other"]: the score is 2.0, and
    7.0 when one card's name occurs in the other's text.  The scores 2.9
    and 7.9 are those of a keyword of the recursion category followed by
    a keyword of the graveyard category. *)
Theorem score_of_recursion_and_graveyard (card1 card2 : Card.t) :
  let self := init None in
  let referenced :=
    PyStr.contains (Card.name card1) (Card.oracle_text card2) ||
    PyStr.contains (Card.name card2) (Card.oracle_text card1) in
  calculate_synergy_score self card1 card2 ["recursion"; "graveyard"] =
    (if referenced then 7.0 else 2.0)%float /\
  (forall tag1 tag2,
     KeywordTagger.get_category tag1 = "recursion" ->
     KeywordTagger.get_category tag2 = "graveyard" ->
     calculate_synergy_score self card1 card2 [tag1; tag2] =
       (if referenced then 7.9 else 2.9)%float).
Proof.
  intros self referenced. unfold calculate_synergy_score.
  rewrite check_direct_reference_orb. fold referenced. split.
  - destruct referenced; vm_compute; reflexivity.
  - intros tag1 tag2 H1 H2. simpl. rewrite H1, H2.
    destruct referenced; vm_compute; reflexivity.
Qed.

Lemma score_of_recursion_and_graveyard_witness :
  calculate_synergy_score (init None) Examples.card1 Examples.card2 ["persist"; "mill"] =
  2.9%float.
Proof.
  apply (proj2 (score_of_recursion_and_graveyard Examples.card1 Examples.card2)
           "persist" "mill"); vm_compute; reflexivity.
Defined.

(** C2, as the specification has it, fails: two cards that do not name
    each other score 2.0 on the tags ["recursion"] and ["graveyard"],
    which is not 2.9. *)
Lemma recursion_and_graveyard_score_two :
  PyStr.contains (Card.name Examples.card1) (Card.oracle_text Examples.card2) = false /\
  PyStr.contains (Card.name Examples.card2) (Card.oracle_text Examples.card1) = false /\
  calculate_synergy_score (init None) Examples.card1 Examples.card2
    ["recursion"; "graveyard"] = 2.0%float /\
  calculate_synergy_score (init None) Examples.card1 Examples.card2
    ["recursion"; "graveyard"] <> 2.9%float.
Proof.
  split; [vm_compute; reflexivity|]. split; [vm_compute; reflexivity|].
  split; [vm_compute; reflexivity|].
  intros H. apply (f_equal (fun x => PrimFloat.ltb x 2.5)) in H.
  vm_compute in H. discriminate H.
Qed.

End WeighterProps.

(** ** The analyzer on small graphs and on failures *)

Module AnalyzerProps.

Import Py GraphAnalyzer.

(** C6.  On a graph with fewer than two nodes, betweenness, closeness,
    eigenvector centrality and PageRank are the empty dictionary and the
    average clustering is 0.0, whatever networkx would have answered;
    the average clustering is 0.0 already with fewer than three nodes.
    None of the five calls raises. *)
Theorem degenerate_graph_short_circuits (nx : Networkx) (graph : Nx.Graph) :
  (Nx.number_of_nodes graph < 2 ->
   betweenness_centrality nx graph = Ok ∅ /\
   closeness_centrality nx graph = Ok ∅ /\
   eigenvector_centrality nx graph = Ok ∅ /\
   pagerank nx graph = Ok ∅ /\
   average_clustering nx graph = Ok 0.0%float) /\
  (Nx.number_of_nodes graph < 3 ->
   average_clustering nx graph = Ok 0.0%float).
Proof.
  unfold betweenness_centrality, closeness_centrality, eigenvector_centrality,
    pagerank, average_clustering.
  split.
  - intros Hn.
    assert (H2 : (Nx.number_of_nodes graph <? 2)%nat = true) by (apply Nat.ltb_lt; lia).
    assert (H3 : (Nx.number_of_nodes graph <? 3)%nat = true) by (apply Nat.ltb_lt; lia).
    rewrite H2, H3. auto.
  - intros Hn.
    assert (H3 : (Nx.number_of_nodes graph <? 3)%nat = true) by (apply Nat.ltb_lt; lia).
    rewrite H3. reflexivity.
Qed.

Lemma degenerate_graph_short_circuits_witness :
  Nx.number_of_nodes Examples.one_node < 2 /\
  pagerank Examples.failing_networkx Examples.one_node = Ok ∅ /\
  average_clustering Examples.failing_networkx Examples.two_nodes = Ok 0.0%float.
Proof.
  assert (H1 : Nx.number_of_nodes Examples.one_node < 2) by (vm_compute; lia).
  assert (H2 : Nx.number_of_nodes Examples.two_nodes < 3) by (vm_compute; lia).
  split; [exact H1|]. split.
  - apply (proj1 (degenerate_graph_short_circuits Examples.failing_networkx
                    Examples.one_node) H1).
  - apply (proj2 (degenerate_graph_short_circuits Examples.failing_networkx
                    Examples.two_nodes) H2).
Defined.

(** C7.  With fewer than two nodes, the communities are the one list of
    all nodes.  Otherwise, when [louvain_communities] cannot be imported
    or raises, the failure is caught and the answer is the one of
    [connected_components]: the components networkx finds, as lists. *)
Theorem detect_communities_recovers (nx : Networkx) (graph : Nx.Graph) :
  (Nx.number_of_nodes graph < 2 ->
   detect_communities nx graph = Ok [Nx.nodes graph]) /\
  (2 <= Nx.number_of_nodes graph ->
   (nx_louvain_communities nx = None \/
    exists louvain e, nx_louvain_communities nx = Some louvain /\ louvain graph = Raise e) ->
   detect_communities nx graph = connected_components nx graph /\
   forall components,
     nx_connected_components nx graph = Ok components ->
     detect_communities nx graph = Ok (elements <$> components)).
Proof.
  unfold detect_communities. split.
  - intros Hn.
    assert (H2 : (Nx.number_of_nodes graph <? 2)%nat = true) by (apply Nat.ltb_lt; lia).
    rewrite H2. reflexivity.
  - intros Hn Hfail.
    assert (H2 : (Nx.number_of_nodes graph <? 2)%nat = false) by (apply Nat.ltb_ge; lia).
    rewrite H2.
    assert (Hcc : match nx_louvain_communities nx with
                  | Some louvain_communities =>
                      match louvain_communities graph with
                      | Ok communities => Ok (elements <$> communities)
                      | Raise _ => connected_components nx graph
                      end
                  | None => connected_components nx graph
                  end = connected_components nx graph).
    { destruct Hfail as [->|(louvain & e & -> & ->)]; reflexivity. }
    rewrite Hcc. split; [reflexivity|].
    intros components Hc. unfold connected_components. rewrite Hc. reflexivity.
Qed.

Lemma detect_communities_recovers_witness :
  2 <= Nx.number_of_nodes Examples.two_nodes /\
  detect_communities Examples.louvain_failing_networkx Examples.two_nodes =
  Ok [["a"]; ["b"]].
Proof.
  assert (H2 : 2 <= Nx.number_of_nodes Examples.two_nodes) by (vm_compute; lia).
  split; [exact H2|].
  apply (proj2 (detect_communities_recovers Examples.louvain_failing_networkx
                  Examples.two_nodes) H2).
  right. eexists _, _. split; reflexivity.
Defined.

End AnalyzerProps.

(** ** The stable descending sort *)

Module SortFacts.

Import Spec.

Section Sorted.

Context {A : Type}.
Variable key : A -> float.

Lemma before_nil (x y : A) : ~ before [] x y.
Proof. intros (i & j & _ & Hi & _). discriminate. Qed.

Lemma before_cons (h : A) (l : list A) (x y : A) :
  before (h :: l) x y <-> (x = h /\ y ∈ l) \/ before l x y.
Proof.
  split.
  - intros (i & j & Hij & Hi & Hj). destruct j as [|j]; [lia|].
    destruct i as [|i]; simpl in Hi, Hj.
    + left. split; [congruence|]. apply list_elem_of_lookup. eauto.
    + right. exists i, j. repeat split; [lia | assumption..].
  - intros [[-> Hy]|(i & j & Hij & Hi & Hj)].
    + apply list_elem_of_lookup in Hy. destruct Hy as [j Hj].
      exists 0, (S j). repeat split; [lia | assumption].
    + exists (S i), (S j). repeat split; [lia | assumption..].
Qed.

Lemma before_elem_of (l : list A) (x y : A) : before l x y -> x ∈ l /\ y ∈ l.
Proof.
  intros (i & j & _ & Hi & Hj). split; apply list_elem_of_lookup; eauto.
Qed.

Lemma before_take (n : nat) (l : list A) (x y : A) :
  before (take n l) x y -> before l x y.
Proof.
  intros (i & j & Hij & Hi & Hj). exists i, j.
  apply lookup_take_Some in Hi. apply lookup_take_Some in Hj.
  destruct Hi as [Hi _], Hj as [Hj _]. auto.
Qed.

Lemma elem_of_insert_desc (a : A) (l : list A) (y : A) :
  y ∈ Py.insert_desc key a l <-> y = a \/ y ∈ l.
Proof.
  induction l as [|h l IH]; simpl.
  - rewrite list_elem_of_singleton. split; [auto|]. intros [?|H]; [done | inversion H].
  - destruct (PrimFloat.ltb (key a) (key h)); rewrite !elem_of_cons, ?IH; tauto.
Qed.

Lemma elem_of_sorted_desc (l : list A) (y : A) :
  y ∈ Py.sorted_desc key l <-> y ∈ l.
Proof.
  induction l as [|a l IH]; simpl; [reflexivity|].
  rewrite elem_of_insert_desc, IH, elem_of_cons. reflexivity.
Qed.

Lemma length_insert_desc (a : A) (l : list A) :
  length (Py.insert_desc key a l) = S (length l).
Proof.
  induction l as [|h l IH]; simpl; [reflexivity|].
  destruct (PrimFloat.ltb (key a) (key h)); simpl; [rewrite IH|]; reflexivity.
Qed.

Lemma length_sorted_desc (l : list A) : length (Py.sorted_desc key l) = length l.
Proof.
  induction l as [|a l IH]; simpl; [reflexivity|].
  rewrite length_insert_desc, IH. reflexivity.
Qed.

Lemma descending_tail (h : A) (l : list A) : descending key (h :: l) -> descending key l.
Proof. intros H x y Hxy. apply H, before_cons. auto. Qed.

(** Where the inserted element ends up relative to the others. *)
Lemma before_insert_desc (a : A) (s : list A) (x y : A) :
  descending key s -> no_nan key s ->
  before (Py.insert_desc key a s) x y ->
  (x = a /\ y ∈ s /\ PrimFloat.ltb (key a) (key y) = false) \/
  (y = a /\ x ∈ s /\ PrimFloat.ltb (key a) (key x) = true) \/
  before s x y.
Proof.
  induction s as [|h s IH]; intros Hd Hn; simpl.
  - intros H. apply before_cons in H. destruct H as [[_ H]|H].
    + inversion H.
    + destruct (before_nil _ _ H).
  - assert (Hd' : descending key s) by (eapply descending_tail, Hd).
    assert (Hn' : no_nan key s) by (intros z Hz; apply Hn, elem_of_cons; auto).
    destruct (PrimFloat.ltb (key a) (key h)) eqn:E; intros H; apply before_cons in H.
    + destruct H as [[-> Hy]|H].
      * apply elem_of_insert_desc in Hy. destruct Hy as [->|Hy].
        -- right. left. split; [reflexivity|]. split; [left | exact E].
        -- right. right. apply before_cons. auto.
      * destruct (IH Hd' Hn' H) as [(-> & Hy & Hlt)|[(-> & Hx & Hlt)|Hb]].
        -- left. split; [reflexivity|]. split; [right; exact Hy | exact Hlt].
        -- right. left. split; [reflexivity|]. split; [right; exact Hx | exact Hlt].
        -- right. right. apply before_cons. auto.
    + destruct H as [[-> Hy]|H]; [|auto].
      left. split; [reflexivity|]. split; [exact Hy|].
      apply elem_of_cons in Hy. destruct Hy as [->|Hy]; [exact E|].
      apply (FloatFacts.ltb_neg_trans _ (key h)).
      * apply Hn. left.
      * exact E.
      * apply Hd, before_cons. auto.
Qed.

Lemma descending_insert_desc (a : A) (s : list A) :
  descending key s -> no_nan key s -> descending key (Py.insert_desc key a s).
Proof.
  intros Hd Hn x y H.
  destruct (before_insert_desc a s x y Hd Hn H) as [(-> & _ & Hlt)|[(-> & _ & Hlt)|Hb]].
  - exact Hlt.
  - apply FloatFacts.ltb_asym, Hlt.
  - apply Hd, Hb.
Qed.

Lemma no_nan_sorted_desc (l : list A) : no_nan key l -> no_nan key (Py.sorted_desc key l).
Proof. intros Hn x Hx. apply Hn, elem_of_sorted_desc, Hx. Qed.

(** The sort puts the keys in descending order. *)
Lemma sorted_desc_descending (l : list A) :
  no_nan key l -> descending key (Py.sorted_desc key l).
Proof.
  induction l as [|a l IH]; intros Hn; simpl.
  - intros x y H. destruct (before_nil _ _ H).
  - assert (Hn' : no_nan key l) by (intros z Hz; apply Hn, elem_of_cons; auto).
    apply descending_insert_desc; [apply IH, Hn' | apply no_nan_sorted_desc, Hn'].
Qed.

(** The sort is stable: an element is moved in front of another one
    only past a strictly smaller key. *)
Lemma sorted_desc_stable (l : list A) (x y : A) :
  no_nan key l ->
  before (Py.sorted_desc key l) x y ->
  PrimFloat.ltb (key y) (key x) = true \/ before l x y.
Proof.
  revert x y. induction l as [|a l IH]; intros x y Hn; simpl.
  - intros H. destruct (before_nil _ _ H).
  - assert (Hn' : no_nan key l) by (intros z Hz; apply Hn, elem_of_cons; auto).
    intros H. apply before_insert_desc in H;
      [|apply sorted_desc_descending, Hn' | apply no_nan_sorted_desc, Hn'].
    destruct H as [(-> & Hy & _)|[(-> & _ & Hlt)|Hb]].
    + right. apply before_cons. left. split; [reflexivity|].
      apply elem_of_sorted_desc, Hy.
    + left. exact Hlt.
    + destruct (IH x y Hn' Hb) as [?|Hb']; [auto|].
      right. apply before_cons. auto.
Qed.

End Sorted.

End SortFacts.

(** ** The ranking of key cards *)

Module KeyCardsProps.

Import Spec Py GraphAnalyzer.

Lemma dict_set_fresh {V : Type} (k : string) (v : V) (d : list (string * V)) :
  k ∉ d.*1 -> Nx.dict_set k v d = d ++ [(k, v)].
Proof.
  induction d as [|[k' v'] d IH]; intros Hk; [reflexivity|].
  cbn [Nx.dict_set]. rewrite fmap_cons, not_elem_of_cons in Hk. destruct Hk as [Hne Hk].
  rewrite decide_False by exact Hne. rewrite IH by exact Hk. reflexivity.
Qed.

(** Filling a dictionary with distinct new keys lists them in order. *)
Lemma foldl_dict_set {V : Type} (f : string -> V) (ks : list string)
    (d : list (string * V)) :
  NoDup ks -> (forall k, k ∈ ks -> k ∉ d.*1) ->
  foldl (fun d k => Nx.dict_set k (f k) d) d ks = d ++ ((fun k => (k, f k)) <$> ks).
Proof.
  revert d. induction ks as [|k ks IH]; intros d Hnd Hfresh; simpl.
  - rewrite app_nil_r. reflexivity.
  - apply NoDup_cons in Hnd. destruct Hnd as [Hk Hnd].
    rewrite dict_set_fresh by (apply Hfresh; left).
    rewrite IH; [rewrite <- app_assoc; reflexivity | exact Hnd |].
    intros k' Hk'. rewrite fmap_app, elem_of_app. simpl.
    rewrite list_elem_of_singleton. intros [H | ->]; [|contradiction].
    revert H. apply Hfresh. right. exact Hk'.
Qed.

Lemma length_slice_to {A : Type} (n : Z) (l : list A) :
  (0 <= n)%Z -> length (slice_to n l) = Nat.min (Z.to_nat n) (length l).
Proof.
  intros Hn. unfold slice_to.
  assert (H : (0 <=? n)%Z = true) by (apply Z.leb_le, Hn).
  rewrite H. apply length_take.
Qed.

(** C8.  When the four metrics are available, [key_cards(top_n)] returns
    entries of the cards ranked by composite score, whatever the bound:
    each entry carries the composite [degree*0.3 + betweenness*0.3 +
    pagerank*0.3 + clustering*0.1] of its card, a metric that has no
    value for the card counting as 0; no entry has a smaller composite
    than a later one, or than a card left out; entries of equal composite
    are in the order of the nodes of the graph.  For a bound that is not
    negative these are the first [top_n] entries of the ranking (all of
    them if there are fewer), so at most [top_n]; for a negative bound
    they are all entries but the last [-top_n]. *)
Theorem key_cards_ranked (nx : Networkx) (graph : Nx.Graph) (top_n : Z)
    (deg btw pr clu : gmap string float) :
  let score := fun card_id : string =>
    (get0 deg card_id * 0.3 + get0 btw card_id * 0.3 +
     get0 pr card_id * 0.3 + get0 clu card_id * 0.1)%float in
  degree_centrality nx graph = Ok deg ->
  betweenness_centrality nx graph = Ok btw ->
  pagerank nx graph = Ok pr ->
  clustering_coefficient nx graph = Ok clu ->
  NoDup (Nx.nodes graph) ->
  (forall card_id, card_id ∈ Nx.nodes graph -> PyFloat.is_nan (score card_id) = false) ->
  exists ranked,
    key_cards nx graph top_n = Ok ranked /\
    ((0 <= top_n)%Z ->
     (Z.of_nat (length ranked) <= top_n)%Z /\
     length ranked = Nat.min (Z.to_nat top_n) (length (Nx.nodes graph))) /\
    ((top_n < 0)%Z ->
     length ranked = length (Nx.nodes graph) - Z.to_nat (- top_n)) /\
    (forall card_id m,
       (card_id, m) ∈ ranked ->
       card_id ∈ Nx.nodes graph /\
       composite m = score card_id /\
       degree m = get0 deg card_id /\ betweenness m = get0 btw card_id /\
       pagerank_score m = get0 pr card_id /\ clustering m = get0 clu card_id) /\
    (forall x y, before ranked x y ->
                 PrimFloat.ltb (composite x.2) (composite y.2) = false) /\
    (forall x y, before ranked x y ->
                 PrimFloat.eqb (composite x.2) (composite y.2) = true ->
                 before (Nx.nodes graph) x.1 y.1) /\
    (forall card_id, card_id ∈ Nx.nodes graph -> card_id ∉ ranked.*1 ->
                     forall x, x ∈ ranked ->
                               PrimFloat.ltb (composite x.2) (score card_id) = false).
Proof.
  intros score Hdeg Hbtw Hpr Hclu Hnd Hnan.
  unfold key_cards. rewrite Hdeg, Hbtw, Hpr, Hclu. simpl.
  set (entry := fun card_id : string => (card_id, metrics_of deg btw pr clu card_id)).
  set (key := fun x : string * Metrics => composite x.2).
  assert (Hscores :
    foldl (fun scores card_id =>
             Nx.dict_set card_id (metrics_of deg btw pr clu card_id) scores)
          [] (Nx.nodes graph) = entry <$> Nx.nodes graph).
  { rewrite (foldl_dict_set (metrics_of deg btw pr clu)); [reflexivity | exact Hnd |].
    intros k _ H. inversion H. }
  rewrite Hscores.
  set (scores := entry <$> Nx.nodes graph).
  set (sorted_cards := sorted_desc key scores).
  assert (Hin : forall x, x ∈ scores <-> exists card_id, card_id ∈ Nx.nodes graph /\ x = entry card_id).
  { intros x. subst scores. rewrite list_elem_of_fmap. split; intros (c & ? & ?); eauto. }
  assert (Hnn : no_nan key scores).
  { intros x Hx. apply Hin in Hx. destruct Hx as (c & Hc & ->). apply Hnan, Hc. }
  assert (Hdesc : descending key sorted_cards)
    by (apply SortFacts.sorted_desc_descending, Hnn).
  assert (Hsorted : length sorted_cards = length (Nx.nodes graph)).
  { subst sorted_cards scores. rewrite SortFacts.length_sorted_desc, length_fmap.
    reflexivity. }
  set (kept := if (0 <=? top_n)%Z then Z.to_nat top_n
               else Z.to_nat (Z.of_nat (length sorted_cards) + top_n)).
  assert (Htake : slice_to top_n sorted_cards = take kept sorted_cards).
  { unfold slice_to. subst kept. destruct (0 <=? top_n)%Z; reflexivity. }
  exists (slice_to top_n sorted_cards). split; [reflexivity|]. rewrite Htake.
  split; [|split; [|split; [|split; [|split]]]].
  - intros Hn. assert (H : (0 <=? top_n)%Z = true) by (apply Z.leb_le, Hn).
    subst kept. rewrite H, length_take, Hsorted. lia.
  - intros Hn. assert (H : (0 <=? top_n)%Z = false) by (apply Z.leb_gt, Hn).
    subst kept. rewrite H, length_take, Hsorted. lia.
  - intros card_id m Hm. apply elem_of_take in Hm. destruct Hm as (i & Hm & _).
    apply list_elem_of_lookup_2, SortFacts.elem_of_sorted_desc, Hin in Hm.
    destruct Hm as (c & Hc & [= -> ->]). repeat split; [exact Hc | reflexivity..].
  - intros x y Hxy. apply Hdesc. eapply SortFacts.before_take, Hxy.
  - intros x y Hxy Heq. apply SortFacts.before_take in Hxy.
    apply (SortFacts.sorted_desc_stable key) in Hxy; [|exact Hnn].
    destruct Hxy as [Hlt|(i & j & Hij & Hi & Hj)].
    + pose proof (FloatFacts.eqb_not_ltb _ _ Heq) as Hge. fold (key x) (key y) in Hge.
      rewrite Hlt in Hge. discriminate Hge.
    + exists i, j. subst scores. rewrite list_lookup_fmap in Hi, Hj.
      destruct (Nx.nodes graph !! i) as [ci|] eqn:Ei; [|discriminate].
      destruct (Nx.nodes graph !! j) as [cj|] eqn:Ej; [|discriminate].
      simpl in Hi, Hj. injection Hi as <-. injection Hj as <-. auto.
  - intros card_id Hc Hout x Hx.
    assert (He : entry card_id ∈ sorted_cards).
    { apply SortFacts.elem_of_sorted_desc, Hin. eauto. }
    apply list_elem_of_lookup in He. destruct He as [j Hj].
    apply elem_of_take in Hx. destruct Hx as (i & Hi & Hlt).
    assert (Hge : kept <= j).
    { destruct (le_lt_dec kept j) as [?|Hjn]; [assumption|].
      exfalso. apply Hout. apply list_elem_of_fmap. exists (entry card_id).
      split; [reflexivity|]. apply elem_of_take. eauto. }
    apply (Hdesc x (entry card_id)). exists i, j. repeat split; [lia | assumption..].
Qed.

Lemma key_cards_ranked_witness :
  exists ranked,
    key_cards Examples.ranking_networkx Examples.four_nodes 3 = Ok ranked /\
    ranked.*1 = ["b"; "a"; "c"] /\
    (Z.of_nat (length ranked) <= 3)%Z.
Proof.
  assert (Hnd : NoDup (Nx.nodes Examples.four_nodes)).
  { apply (bool_decide_unpack _). vm_compute. exact I. }
  assert (Hn : (0 <= 3)%Z) by lia.
  destruct (key_cards_ranked Examples.ranking_networkx Examples.four_nodes 3
              (list_to_map [("a", 0.5%float); ("b", 1%float); ("c", 0.5%float)]) ∅ ∅ ∅
              eq_refl eq_refl eq_refl eq_refl Hnd) as (ranked & Hr & Hcount & _).
  - intros card_id Hc.
    repeat (apply elem_of_cons in Hc; destruct Hc as [-> | Hc]; [vm_compute; reflexivity|]).
    inversion Hc.
  - exists ranked. split; [exact Hr|]. split; [|apply (Hcount Hn)].
    assert (Hv : key_cards Examples.ranking_networkx Examples.four_nodes 3 =
                 Ok [("b", metrics_of (list_to_map [("a", 0.5%float); ("b", 1%float); ("c", 0.5%float)]) ∅ ∅ ∅ "b");
                     ("a", metrics_of (list_to_map [("a", 0.5%float); ("b", 1%float); ("c", 0.5%float)]) ∅ ∅ ∅ "a");
                     ("c", metrics_of (list_to_map [("a", 0.5%float); ("b", 1%float); ("c", 0.5%float)]) ∅ ∅ ∅ "c")])
      by (vm_compute; reflexivity).
    rewrite Hv in Hr. injection Hr as <-. reflexivity.
Defined.

(** C8, as the specification has it, fails for a negative bound:
    [key_cards(-1)] on four cards returns three entries, which is more
    than [-1]. *)
Lemma key_cards_exceeds_negative_bound :
  exists ranked,
    key_cards Examples.ranking_networkx Examples.four_nodes (-1) = Ok ranked /\
    length ranked = 3 /\
    ~ (Z.of_nat (length ranked) <= -1)%Z.
Proof.
  eexists. split; [vm_compute; reflexivity|]. split; [reflexivity|]. simpl. lia.
Qed.

End KeyCardsProps.


(* ===================================================================== *)
(** * Part III: further properties of the code                            *)
(* ===================================================================== *)

(** ** Insertion-ordered dictionaries *)

Module DictFacts.

Import PyDict.

Section Dict.

Context {V : Type}.
Implicit Types (d : list (string * V)) (k : string) (v : V).

Lemma dict_get_None k d : dict_get k d = None <-> k ∉ d.*1.
Proof.
  induction d as [|[k' v'] d IH]; simpl.
  - split; [intros _ Hx; inversion Hx | reflexivity].
  - rewrite not_elem_of_cons. case_decide as Hk.
    + split; [discriminate | intros [? _]; contradiction].
    + rewrite IH. tauto.
Qed.

Lemma dict_get_elem_of k v d : dict_get k d = Some v -> (k, v) ∈ d.
Proof.
  induction d as [|[k' v'] d IH]; simpl; [discriminate|].
  case_decide as Hk.
  - intros [= ->]. subst. left.
  - intros H. right. apply IH, H.
Qed.

Lemma elem_of_dict_get k v d : NoDup d.*1 -> (k, v) ∈ d -> dict_get k d = Some v.
Proof.
  induction d as [|[k' v'] d IH]; simpl; intros Hnd Hin; [inversion Hin|].
  apply NoDup_cons in Hnd. destruct Hnd as [Hk' Hnd].
  apply elem_of_cons in Hin. destruct Hin as [[= -> ->]|Hin].
  - rewrite decide_True by reflexivity. reflexivity.
  - case_decide as Hk; [|apply IH; assumption].
    subst. exfalso. apply Hk'. apply list_elem_of_fmap. exists (k', v). auto.
Qed.

Lemma dict_get_set_eq k v d : dict_get k (Nx.dict_set k v d) = Some v.
Proof.
  induction d as [|[k' v'] d IH]; simpl.
  - rewrite decide_True by reflexivity. reflexivity.
  - case_decide as Hk; simpl.
    + rewrite decide_True by reflexivity. reflexivity.
    + rewrite decide_False by exact Hk. exact IH.
Qed.

Lemma dict_get_set_ne k k' v d : k <> k' -> dict_get k' (Nx.dict_set k v d) = dict_get k' d.
Proof.
  intros Hne. induction d as [|[k0 v0] d IH]; simpl.
  - rewrite decide_False by congruence. reflexivity.
  - destruct (decide (k = k0)) as [->|Hk]; simpl.
    + rewrite !decide_False by congruence. reflexivity.
    + case_decide; [reflexivity | exact IH].
Qed.

Lemma dict_get_del_ne k k' d : k <> k' -> dict_get k' (dict_del k d) = dict_get k' d.
Proof.
  intros Hne. induction d as [|[k0 v0] d IH]; simpl; [reflexivity|].
  destruct (decide (k = k0)) as [->|Hk]; simpl.
  - rewrite decide_False by congruence. reflexivity.
  - case_decide; [reflexivity | exact IH].
Qed.

Lemma elem_of_dict_del k d (x : string * V) : x ∈ dict_del k d -> x ∈ d.
Proof.
  induction d as [|[k0 v0] d IH]; simpl; [auto|].
  case_decide as Hk; rewrite !elem_of_cons; [auto|]. intros [?|?]; auto.
Qed.

Lemma keys_dict_del k d (k' : string) : k' ∈ (dict_del k d).*1 -> k' ∈ d.*1.
Proof.
  rewrite !list_elem_of_fmap. intros (x & ? & Hx). exists x. split; [assumption|].
  eapply elem_of_dict_del, Hx.
Qed.

Lemma NoDup_dict_del k d : NoDup d.*1 -> NoDup (dict_del k d).*1.
Proof.
  induction d as [|[k0 v0] d IH]; simpl; [auto|]. intros Hnd.
  apply NoDup_cons in Hnd. destruct Hnd as [Hk0 Hnd].
  case_decide as Hk; [exact Hnd|]. simpl. apply NoDup_cons. split; [|apply IH, Hnd].
  intros Hin. apply Hk0. eapply keys_dict_del, Hin.
Qed.

Lemma dict_get_del_eq k d : NoDup d.*1 -> dict_get k (dict_del k d) = None.
Proof.
  induction d as [|[k0 v0] d IH]; simpl; [reflexivity|]. intros Hnd.
  apply NoDup_cons in Hnd. destruct Hnd as [Hk0 Hnd].
  destruct (decide (k = k0)) as [->|Hk]; simpl.
  - apply dict_get_None, Hk0.
  - rewrite decide_False by exact Hk. apply IH, Hnd.
Qed.

Lemma elem_of_dict_set k v d (x : string * V) :
  x ∈ Nx.dict_set k v d -> x = (k, v) \/ x ∈ d.
Proof.
  induction d as [|[k0 v0] d IH]; simpl.
  - rewrite list_elem_of_singleton. auto.
  - case_decide as Hk; rewrite !elem_of_cons; [tauto|]. intros [?|Hin]; [auto|].
    destruct (IH Hin); auto.
Qed.

Lemma keys_dict_set k v d :
  (Nx.dict_set k v d).*1 =
  match dict_get k d with Some _ => d.*1 | None => d.*1 ++ [k] end.
Proof.
  induction d as [|[k0 v0] d IH]; [reflexivity|].
  cbn [Nx.dict_set dict_get].
  destruct (decide (k = k0)) as [->|Hk]; [reflexivity|].
  rewrite !fmap_cons, IH. destruct (dict_get k d); reflexivity.
Qed.

Lemma NoDup_dict_set k v d : NoDup d.*1 -> NoDup (Nx.dict_set k v d).*1.
Proof.
  intros Hnd. rewrite keys_dict_set. destruct (dict_get k d) eqn:E; [exact Hnd|].
  apply NoDup_app. split; [exact Hnd|]. split; [|apply NoDup_singleton].
  intros x Hx ->%list_elem_of_singleton. apply dict_get_None in E. contradiction.
Qed.

End Dict.

End DictFacts.

(** ** Card management in a deck *)

Module DeckProps.

Import PyDict DictFacts MoreSpec DeckOps.

(** The sum of the quantities filed in a dictionary of entries. *)
Lemma foldl_quantity (acc : Z) (d : list (string * Deck.DeckEntry)) :
  foldl (fun acc kv => (acc + Deck.quantity (snd kv))%Z) acc d =
  (acc + foldl (fun acc kv => (acc + Deck.quantity (snd kv))%Z) 0 d)%Z.
Proof.
  revert acc. induction d as [|kv d IH]; intros acc; simpl; [lia|].
  rewrite IH, (IH (0 + _)%Z). lia.
Qed.

Lemma total_cons (k : string) (e : Deck.DeckEntry) (d : list (string * Deck.DeckEntry))
    (c : option string) :
  total_cards (Deck.mk ((k, e) :: d) c) = (Deck.quantity e + total_cards (Deck.mk d c))%Z.
Proof. unfold total_cards. simpl. rewrite foldl_quantity. reflexivity. Qed.

Lemma total_dict_set (k : string) (e' : Deck.DeckEntry)
    (d : list (string * Deck.DeckEntry)) (c : option string) :
  total_cards (Deck.mk (Nx.dict_set k e' d) c) =
  (total_cards (Deck.mk d c) + Deck.quantity e' -
   match dict_get k d with Some e => Deck.quantity e | None => 0 end)%Z.
Proof.
  induction d as [|[k0 e0] d IH]; cbn [Nx.dict_set dict_get].
  - unfold total_cards. simpl. lia.
  - destruct (decide (k = k0)) as [->|Hk].
    + rewrite !total_cons. lia.
    + rewrite !total_cons, IH. lia.
Qed.

Lemma total_dict_del (k : string) (d : list (string * Deck.DeckEntry)) (c : option string) :
  total_cards (Deck.mk (dict_del k d) c) =
  (total_cards (Deck.mk d c) -
   match dict_get k d with Some e => Deck.quantity e | None => 0 end)%Z.
Proof.
  induction d as [|[k0 e0] d IH]; cbn [dict_del dict_get].
  - lia.
  - destruct (decide (k = k0)) as [->|Hk].
    + rewrite !total_cons. lia.
    + rewrite !total_cons, IH. lia.
Qed.

Lemma deck_ok_set (d : Deck.t) (k : string) (e : Deck.DeckEntry) :
  deck_ok d -> k = Card.id (Deck.card e) ->
  deck_ok (with_cards d (Nx.dict_set k e (Deck.cards d))).
Proof.
  intros [Hnd Hkey] Hk. split; simpl.
  - apply NoDup_dict_set, Hnd.
  - intros k' e' Hin. apply elem_of_dict_set in Hin.
    destruct Hin as [[= -> ->]|Hin]; [exact Hk | apply Hkey, Hin].
Qed.

Lemma deck_ok_del (d : Deck.t) (k : string) :
  deck_ok d -> deck_ok (with_cards d (dict_del k (Deck.cards d))).
Proof.
  intros [Hnd Hkey]. split; simpl.
  - apply NoDup_dict_del, Hnd.
  - intros k' e' Hin. apply Hkey. eapply elem_of_dict_del, Hin.
Qed.

(** X1.  A deck in which every entry is filed under the id of its card,
    each id once, stays so under [add_card], [remove_card],
    [set_card_quantity] and [set_card_category]; the deck without cards is
    one; and the unique cards of such a deck have pairwise distinct ids. *)
Theorem deck_keys_are_card_ids (d : Deck.t) :
  deck_ok (Deck.mk [] (Deck.commander d)) /\
  (deck_ok d ->
   (forall card quantity category, deck_ok (add_card d card quantity category)) /\
   (forall card_id quantity, deck_ok (remove_card d card_id quantity).1) /\
   (forall card_id quantity, deck_ok (set_card_quantity d card_id quantity).1) /\
   (forall card_id category, deck_ok (set_card_category d card_id category).1) /\
   NoDup (Card.id <$> Deck.get_unique_cards d)).
Proof.
  split.
  { split; simpl; [constructor | intros k e H; inversion H]. }
  intros Hok. pose proof Hok as [Hnd Hkey].
  assert (Hget : forall k e, dict_get k (Deck.cards d) = Some e -> k = Card.id (Deck.card e)).
  { intros k e E. apply Hkey, dict_get_elem_of, E. }
  split; [|split; [|split; [|split]]].
  - intros card quantity category. unfold add_card.
    destruct (dict_get _ _) as [e|] eqn:E; apply deck_ok_set; try exact Hok; simpl.
    + exact (Hget _ _ E).
    + reflexivity.
  - intros card_id quantity. unfold remove_card.
    destruct (dict_get _ _) as [e|] eqn:E; [|exact Hok].
    destruct (_ <=? 0)%Z; simpl; [apply deck_ok_del, Hok|].
    apply deck_ok_set; [exact Hok | exact (Hget _ _ E)].
  - intros card_id quantity. unfold set_card_quantity.
    destruct (dict_get _ _) as [e|] eqn:E; [|exact Hok].
    destruct (_ <=? 0)%Z; simpl; [apply deck_ok_del, Hok|].
    apply deck_ok_set; [exact Hok | exact (Hget _ _ E)].
  - intros card_id category. unfold set_card_category.
    destruct (dict_get _ _) as [e|] eqn:E; [|exact Hok]. simpl.
    apply deck_ok_set; [exact Hok | exact (Hget _ _ E)].
  - unfold Deck.get_unique_cards. rewrite <- list_fmap_compose.
    replace ((Card.id ∘ (fun kv : string * Deck.DeckEntry => Deck.card kv.2)) <$> Deck.cards d)
      with (Deck.cards d).*1; [exact Hnd|].
    apply list_fmap_ext. intros i [k e] Hin. simpl. eapply Hkey, list_elem_of_lookup_2, Hin.
Qed.

Lemma deck_keys_are_card_ids_witness :
  deck_ok MoreExamples.smoke_deck /\
  NoDup (Card.id <$> Deck.get_unique_cards MoreExamples.smoke_deck).
Proof.
  assert (Hok : deck_ok MoreExamples.smoke_deck).
  { split; [apply (bool_decide_unpack _); vm_compute; exact I|].
    intros k e Hin. vm_compute in Hin.
    repeat (apply elem_of_cons in Hin; destruct Hin as [[= -> ->]|Hin]; [reflexivity|]).
    inversion Hin. }
  split; [exact Hok|].
  apply (proj2 (deck_keys_are_card_ids MoreExamples.smoke_deck) Hok).
Defined.

(** The deck of the smoke test is well kept. *)
Lemma smoke_deck_ok : deck_ok MoreExamples.smoke_deck.
Proof.
  split; [apply (bool_decide_unpack _); vm_compute; exact I|].
  intros k e Hin. vm_compute in Hin.
  repeat (apply elem_of_cons in Hin; destruct Hin as [[= -> ->]|Hin]; [reflexivity|]).
  inversion Hin.
Qed.

Lemma smoke_deck_ids : NoDup (Card.id <$> Deck.get_unique_cards MoreExamples.smoke_deck).
Proof. apply (bool_decide_unpack _). vm_compute. exact I. Qed.

(** X2.  [add_card] followed by [get_card]: a card that was absent is
    found with the given quantity and category; for a card that was
    present the quantity is added to the one on file, while the card and
    the category on file stay (the arguments are not stored).  No other
    entry changes, and the total number of cards grows by the quantity. *)
Theorem add_card_then_get_card (d : Deck.t) (card : Card.t) (quantity : Z)
    (category : string) :
  get_card (add_card d card quantity category) (Card.id card) =
    Some (match get_card d (Card.id card) with
          | Some e => Deck.mk_entry (Deck.card e) (Deck.quantity e + quantity) (Deck.category e)
          | None => Deck.mk_entry card quantity category
          end) /\
  (forall card_id, card_id <> Card.id card ->
     get_card (add_card d card quantity category) card_id = get_card d card_id) /\
  total_cards (add_card d card quantity category) = (total_cards d + quantity)%Z /\
  unique_cards (add_card d card quantity category) =
    match get_card d (Card.id card) with
    | Some _ => unique_cards d
    | None => S (unique_cards d)
    end.
Proof.
  unfold get_card, add_card, unique_cards.
  destruct d as [cards commander]. simpl.
  destruct (dict_get (Card.id card) cards) as [e|] eqn:E; simpl.
  - split; [apply dict_get_set_eq|].
    split; [intros k Hk; apply dict_get_set_ne; congruence|].
    split; [unfold with_cards; simpl; rewrite total_dict_set, E; simpl; lia|].
    rewrite <- !(length_fmap fst), keys_dict_set, E. reflexivity.
  - split; [apply dict_get_set_eq|].
    split; [intros k Hk; apply dict_get_set_ne; congruence|].
    split; [unfold with_cards; simpl; rewrite total_dict_set, E; simpl; lia|].
    rewrite <- !(length_fmap fst), keys_dict_set, E, length_app. simpl. lia.
Qed.

Lemma add_card_then_get_card_witness :
  get_card (add_card MoreExamples.smoke_deck Examples.card1 2 "Ramp") "c2" =
  get_card MoreExamples.smoke_deck "c2".
Proof.
  apply (add_card_then_get_card MoreExamples.smoke_deck Examples.card1 2 "Ramp").
  intros H. discriminate H.
Defined.

(** X3.  [remove_card] on a well-kept deck: for a card that is not in the
    deck it answers False and changes nothing; otherwise it answers True,
    lowers the quantity, and drops the entry when nothing positive is
    left, so that the total falls by the quantity asked for or, at a drop,
    by what was there.  No other entry changes. *)
Theorem remove_card_behaviour (d : Deck.t) (card_id : string) (quantity : Z) :
  deck_ok d ->
  (get_card d card_id = None -> remove_card d card_id quantity = (d, false)) /\
  (forall e, get_card d card_id = Some e ->
     (remove_card d card_id quantity).2 = true /\
     get_card (remove_card d card_id quantity).1 card_id =
       (if (Deck.quantity e - quantity <=? 0)%Z then None
        else Some (Deck.mk_entry (Deck.card e) (Deck.quantity e - quantity)
                     (Deck.category e))) /\
     total_cards (remove_card d card_id quantity).1 =
       (total_cards d -
        (if (Deck.quantity e - quantity <=? 0)%Z then Deck.quantity e else quantity))%Z) /\
  (forall other, other <> card_id ->
     get_card (remove_card d card_id quantity).1 other = get_card d other).
Proof.
  intros [Hnd _]. unfold get_card, remove_card.
  destruct d as [cards commander]. simpl in *.
  destruct (dict_get card_id cards) as [e|] eqn:E.
  - split; [discriminate|]. split.
    + intros e' [= <-]. destruct (_ <=? 0)%Z eqn:Hq; simpl.
      * split; [reflexivity|]. split; [apply dict_get_del_eq, Hnd|].
        unfold with_cards. simpl. rewrite total_dict_del, E. reflexivity.
      * split; [reflexivity|]. split; [apply dict_get_set_eq|].
        unfold with_cards. simpl. rewrite total_dict_set, E. simpl. lia.
    + intros other Hne. destruct (_ <=? 0)%Z; simpl.
      * apply dict_get_del_ne. congruence.
      * apply dict_get_set_ne. congruence.
  - split; [reflexivity|]. split; [discriminate|]. reflexivity.
Qed.

Lemma remove_card_behaviour_witness :
  get_card (remove_card MoreExamples.smoke_deck "c2" 1).1 "c2" = None /\
  total_cards (remove_card MoreExamples.smoke_deck "c2" 1).1 = 2%Z.
Proof.
  destruct (remove_card_behaviour MoreExamples.smoke_deck "c2" 1 smoke_deck_ok)
    as (_ & H & _).
  destruct (H _ eq_refl) as (_ & Hget & Htot). split; [exact Hget | exact Htot].
Defined.

(** X4.  Quantities stay positive: in a deck where every entry holds at
    least one copy, this is still so after [remove_card],
    [set_card_quantity] and [set_card_category], and after [add_card]
    of a positive quantity; then [get_cards_list] has as many cards as
    [total_cards] counts. *)
Theorem quantities_stay_positive (d : Deck.t) :
  all_positive d ->
  (forall card quantity category,
     (0 < quantity)%Z -> all_positive (add_card d card quantity category)) /\
  (forall card_id quantity, all_positive (remove_card d card_id quantity).1) /\
  (forall card_id quantity, all_positive (set_card_quantity d card_id quantity).1) /\
  (forall card_id category, all_positive (set_card_category d card_id category).1) /\
  Z.of_nat (length (get_cards_list d)) = total_cards d.
Proof.
  intros Hpos.
  assert (Hget : forall k e, dict_get k (Deck.cards d) = Some e -> (0 < Deck.quantity e)%Z).
  { intros k e E. eapply Hpos, dict_get_elem_of, E. }
  assert (Hset : forall k e, (0 < Deck.quantity e)%Z ->
            all_positive (with_cards d (Nx.dict_set k e (Deck.cards d)))).
  { intros k e He k' e' Hin. simpl in Hin. apply elem_of_dict_set in Hin.
    destruct Hin as [[= -> ->]|Hin]; [exact He | eapply Hpos, Hin]. }
  assert (Hdel : forall k, all_positive (with_cards d (dict_del k (Deck.cards d)))).
  { intros k k' e' Hin. simpl in Hin. eapply Hpos, elem_of_dict_del, Hin. }
  split; [|split; [|split; [|split]]].
  - intros card quantity category Hq. unfold add_card.
    destruct (dict_get _ _) as [e|] eqn:E; apply Hset; simpl; [|exact Hq].
    pose proof (Hget _ _ E). lia.
  - intros card_id quantity. unfold remove_card.
    destruct (dict_get _ _) as [e|] eqn:E; [|exact Hpos].
    destruct (_ <=? 0)%Z eqn:Hq; simpl; [apply Hdel|].
    apply Hset. simpl. apply Z.leb_gt in Hq. exact Hq.
  - intros card_id quantity. unfold set_card_quantity.
    destruct (dict_get _ _) as [e|] eqn:E; [|exact Hpos].
    destruct (_ <=? 0)%Z eqn:Hq; simpl; [apply Hdel|].
    apply Hset. simpl. apply Z.leb_gt in Hq. exact Hq.
  - intros card_id category. unfold set_card_category.
    destruct (dict_get _ _) as [e|] eqn:E; [|exact Hpos]. simpl.
    apply Hset. simpl. apply (Hget _ _ E).
  - unfold get_cards_list. destruct d as [cards commander]. simpl in *.
    clear Hget Hset Hdel. induction cards as [|[k e] cards IH].
    + reflexivity.
    + rewrite total_cons. cbn [mbind list_bind]. rewrite length_app, length_replicate.
      rewrite Nat2Z.inj_add, IH.
      * simpl. assert (0 < Deck.quantity e)%Z by (eapply Hpos; left). lia.
      * intros k' e' Hin. eapply Hpos. right. exact Hin.
Qed.

Lemma quantities_stay_positive_witness :
  all_positive MoreExamples.smoke_deck /\
  Z.of_nat (length (get_cards_list MoreExamples.smoke_deck)) =
  total_cards MoreExamples.smoke_deck.
Proof.
  assert (Hpos : all_positive MoreExamples.smoke_deck).
  { intros k e Hin. vm_compute in Hin.
    repeat (apply elem_of_cons in Hin; destruct Hin as [[= -> ->]|Hin]; [reflexivity|]).
    inversion Hin. }
  split; [exact Hpos|].
  apply (quantities_stay_positive MoreExamples.smoke_deck Hpos).
Defined.

End DeckProps.

(** ** Serialization of interactions *)

Module CodecProps.

Import InteractionCodec.

Lemma of_value_value (ty : InteractionType.t) :
  of_value (InteractionType.value ty) = Some ty.
Proof. destruct ty; reflexivity. Qed.

Lemma of_value_Some (s : string) (ty : InteractionType.t) :
  of_value s = Some ty -> InteractionType.value ty = s.
Proof.
  unfold of_value. intros H. apply find_some in H. destruct H as [_ H].
  apply String.eqb_eq, H.
Qed.

(** X5.  [Interaction.from_dict] undoes [to_dict]; a dictionary that
    lacks the three optional keys loads with weight 1.0, no description
    and [bidirectional] false; and [InteractionType(...)] finds a member
    exactly from its own value, so that distinct members have distinct
    values. *)
Theorem interaction_round_trip (i : Interaction.t) :
  from_dict (to_dict i) = Loaded i /\
  from_dict (delete "weight" (delete "description" (delete "bidirectional" (to_dict i)))) =
    Loaded (Interaction.mk (Interaction.source_id i) (Interaction.target_id i)
              (Interaction.interaction_type i) 1.0 None false) /\
  (forall s ty, of_value s = Some ty <-> InteractionType.value ty = s).
Proof.
  split; [|split].
  - destruct i as [src tgt [] w [d|] b]; vm_compute; reflexivity.
  - destruct i as [src tgt [] w [d|] b]; vm_compute; reflexivity.
  - intros s ty. split; [apply of_value_Some | intros <-; apply of_value_value].
Qed.

End CodecProps.

(** ** How the graph is built *)

Module BuildProps.

Import Spec MoreSpec GraphFacts MergeProps.

Lemma between_cons (j : Interaction.t) (l : list Interaction.t) (a b : string) :
  between (j :: l) a b =
  if same_pair a b (Interaction.source_id j) (Interaction.target_id j)
  then j :: between l a b else between l a b.
Proof.
  unfold between. rewrite filter_cons.
  destruct (same_pair _ _ _ _) eqn:Hp; case_decide as Hd; simpl in *;
    try reflexivity; rewrite ?Hp in Hd; simpl in Hd; tauto.
Qed.

Lemma contributed_between (l : list Interaction.t) (a b : string) :
  contributed l a b =
  (fun j => InteractionType.value (Interaction.interaction_type j)) <$> between l a b.
Proof. reflexivity. Qed.

(** Ingesting into an edge that exists. *)
Lemma ingest_onto_edge (l : list Interaction.t) (self : DeckGraph.t) (a b : string)
    (e : Nx.EdgeData) :
  wf_graph (DeckGraph.graph self) ->
  Nx.edge_data (DeckGraph.graph self) a b = Some e ->
  Nx.edge_data (DeckGraph.graph (DeckGraph.ingest self l)) a b =
  Some (Nx.mk_edge
          (Nx.interaction_types e ++ contributed l a b)
          (foldl PyFloat.max (Nx.weight e) (Interaction.weight <$> between l a b))
          (Nx.description e)).
Proof.
  revert self e. induction l as [|j l IH]; intros self e Hwf E.
  - simpl. rewrite E, contributed_between. simpl. rewrite app_nil_r. destruct e; reflexivity.
  - change (DeckGraph.ingest self (j :: l))
      with (DeckGraph.ingest (DeckGraph.add_interaction self j) l).
    pose proof (wf_add_interaction self j Hwf) as Hwf1.
    pose proof (edge_data_add_interaction self j Hwf a b) as L.
    rewrite contributed_cons, between_cons.
    destruct (same_pair a b _ _) eqn:Hp.
    + rewrite <- (edge_data_same_pair _ _ _ _ _ Hwf Hp), E in L. simpl in L.
      rewrite (IH _ _ Hwf1 L). simpl. rewrite <- app_assoc. reflexivity.
    + rewrite E in L. apply (IH _ _ Hwf1 L).
Qed.

(** Ingesting where there is no edge yet. *)
Lemma ingest_onto_no_edge (l : list Interaction.t) (self : DeckGraph.t) (a b : string) :
  wf_graph (DeckGraph.graph self) ->
  Nx.edge_data (DeckGraph.graph self) a b = None ->
  Nx.edge_data (DeckGraph.graph (DeckGraph.ingest self l)) a b = summary (between l a b).
Proof.
  revert self. induction l as [|j l IH]; intros self Hwf E.
  - exact E.
  - change (DeckGraph.ingest self (j :: l))
      with (DeckGraph.ingest (DeckGraph.add_interaction self j) l).
    pose proof (wf_add_interaction self j Hwf) as Hwf1.
    pose proof (edge_data_add_interaction self j Hwf a b) as L.
    rewrite between_cons. destruct (same_pair a b _ _) eqn:Hp.
    + rewrite <- (edge_data_same_pair _ _ _ _ _ Hwf Hp), E in L. simpl in L.
      rewrite (ingest_onto_edge l _ a b _ Hwf1 L). simpl.
      rewrite contributed_between. reflexivity.
    + rewrite E in L. apply (IH _ Hwf1 L).
Qed.

Lemma deck_ingest (l : list Interaction.t) (self : DeckGraph.t) :
  DeckGraph.deck (DeckGraph.ingest self l) = DeckGraph.deck self /\
  DeckGraph.interactions (DeckGraph.ingest self l) = DeckGraph.interactions self.
Proof.
  revert self. induction l as [|j l IH]; intros self; [auto|].
  change (DeckGraph.ingest self (j :: l))
    with (DeckGraph.ingest (DeckGraph.add_interaction self j) l).
  destruct (IH (DeckGraph.add_interaction self j)) as [-> ->].
  apply deck_add_interaction.
Qed.

(** The edges of a built graph, read off the detected interactions. *)
Lemma built_edge_data (deck : Deck.t) (a b : string) :
  Nx.edge_data (DeckGraph.graph (DeckGraph.init deck true)) a b =
  summary (between (InteractionDetector.detect_all (Deck.get_unique_cards deck)) a b).
Proof.
  unfold DeckGraph.init, DeckGraph.detect_interactions.
  destruct (build_nodes_no_edge (DeckGraph.mk deck Nx.empty [])) as [Hwf Hnone].
  { apply wf_empty. }
  { intros x y. reflexivity. }
  rewrite deck_build_nodes. simpl.
  apply ingest_onto_no_edge; [exact Hwf | apply Hnone].
Qed.

(** X6.  What [DeckGraph(deck)] makes of the detected interactions: two
    cards have an edge exactly when some interaction was detected between
    them, in either direction; the edge then lists the type tags of these
    interactions in the order of detection, repetitions included, weighs
    the greatest of their weights and keeps the description of the first.
    The same holds for any list ingested into a well-formed graph without
    edges. *)
Theorem edges_summarize_interactions (deck : Deck.t) :
  (forall a b,
     Nx.edge_data (DeckGraph.graph (DeckGraph.init deck true)) a b =
     summary (between (InteractionDetector.detect_all (Deck.get_unique_cards deck)) a b)) /\
  (forall self l a b,
     wf_graph (DeckGraph.graph self) -> no_edge (DeckGraph.graph self) ->
     Nx.edge_data (DeckGraph.graph (DeckGraph.ingest self l)) a b = summary (between l a b)).
Proof.
  split.
  - intros a b. apply built_edge_data.
  - intros self l a b Hwf Hnone. apply ingest_onto_no_edge; [exact Hwf | apply Hnone].
Qed.

Lemma edges_summarize_interactions_witness :
  Nx.edge_data
    (DeckGraph.graph (DeckGraph.ingest Examples.no_cards [Examples.tribal_ba; Examples.tutors_ab]))
    "a" "b" =
  Some (Nx.mk_edge ["tribal"; "tutors"] 0.9 (Some "Both are Elf")).
Proof.
  rewrite (proj2 (edges_summarize_interactions MoreExamples.empty_deck)
             Examples.no_cards _ "a" "b" wf_empty (fun a b => eq_refl)).
  vm_compute. reflexivity.
Defined.

(** X7.  Detecting a second time, as the HTML endpoint and the smoke test
    do with [DeckGraph(deck)] followed by [detect_interactions()], leaves
    the nodes, the pairs that have an edge, and the weight and description
    of every edge as they were, and makes every type list twice as long:
    the list, followed by itself. *)
Theorem second_detection_doubles_types (deck : Deck.t) :
  let first := DeckGraph.init deck true in
  let second := DeckGraph.detect_interactions first in
  Nx._node (DeckGraph.graph second) = Nx._node (DeckGraph.graph first) /\
  DeckGraph.interactions second = DeckGraph.interactions first /\
  forall a b,
    Nx.edge_data (DeckGraph.graph second) a b =
    (fun e => Nx.mk_edge (Nx.interaction_types e ++ Nx.interaction_types e)
                (Nx.weight e) (Nx.description e)) <$>
    Nx.edge_data (DeckGraph.graph first) a b.
Proof.
  intros first second.
  set (found := InteractionDetector.detect_all (Deck.get_unique_cards deck)).
  set (built := DeckGraph._build_nodes (DeckGraph.mk deck Nx.empty [])).
  assert (Hfirst : first = DeckGraph.ingest (DeckGraph.mk deck (DeckGraph.graph built) found) found).
  { subst first built found. unfold DeckGraph.init, DeckGraph.detect_interactions.
    rewrite deck_build_nodes. reflexivity. }
  destruct (build_nodes_no_edge (DeckGraph.mk deck Nx.empty [])) as [Hwf Hnone].
  { apply wf_empty. }
  { intros x y. reflexivity. }
  fold built in Hwf, Hnone.
  set (start := DeckGraph.mk deck (DeckGraph.graph built) found) in *.
  assert (Hdeck : DeckGraph.deck first = deck).
  { rewrite Hfirst. rewrite (proj1 (deck_ingest found start)). reflexivity. }
  assert (Hint : DeckGraph.interactions first = found).
  { rewrite Hfirst. rewrite (proj2 (deck_ingest found start)). reflexivity. }
  set (again := DeckGraph.mk deck (DeckGraph.graph first) found).
  assert (Hsecond : second = DeckGraph.ingest again found).
  { subst second again. unfold DeckGraph.detect_interactions. rewrite Hdeck. reflexivity. }
  assert (Hwf1 : wf_graph (DeckGraph.graph again)).
  { simpl. rewrite Hfirst. apply wf_ingest. exact Hwf. }
  destruct (ingest_covered found again Hwf1) as [He Hn].
  { intros i Hi. simpl. rewrite Hfirst. apply covered_ingest; [exact Hwf | exact Hi]. }
  simpl in He, Hn.
  split; [rewrite Hsecond; exact Hn|].
  split.
  { rewrite Hsecond, (proj2 (deck_ingest found again)). simpl. symmetry. exact Hint. }
  intros a b. rewrite Hsecond, He.
  assert (Hsum : Nx.edge_data (DeckGraph.graph first) a b = summary (between found a b)).
  { rewrite Hfirst. apply ingest_onto_no_edge; [exact Hwf | apply Hnone]. }
  rewrite Hsum. rewrite contributed_between.
  destruct (between found a b) as [|i rest]; reflexivity.
Qed.

End BuildProps.

(** ** What every built graph satisfies *)

Module InvariantProps.

Import Spec MoreSpec GraphFacts MergeProps InteractionType.

Lemma elem_of_nodes_add_node (g : Nx.Graph) (n a : string) (attr : Nx.NodeAttrs) :
  a ∈ Nx.nodes (Nx.add_node g n attr) <-> a = n \/ a ∈ Nx.nodes g.
Proof.
  unfold Nx.add_node, Nx.has_node. case_bool_decide as Hn.
  - unfold Nx.nodes. simpl. rewrite dict_set_keys by exact Hn.
    split; [tauto | intros [->|?]; done].
  - unfold Nx.nodes. simpl. rewrite fmap_app, elem_of_app. simpl.
    rewrite list_elem_of_singleton. tauto.
Qed.

(** An interaction between known nodes adds no node. *)
Lemma node_add_interaction_known (self : DeckGraph.t) (i : Interaction.t) :
  Interaction.source_id i ∈ Nx.nodes (DeckGraph.graph self) ->
  Interaction.target_id i ∈ Nx.nodes (DeckGraph.graph self) ->
  Nx._node (DeckGraph.graph (DeckGraph.add_interaction self i)) =
  Nx._node (DeckGraph.graph self).
Proof.
  intros Hu Hv. unfold DeckGraph.add_interaction.
  destruct (Nx.has_edge _ _ _); [destruct (Nx.edge_data _ _ _); reflexivity|].
  simpl. unfold Nx.ensure_node at 2. unfold Nx.has_node.
  rewrite bool_decide_eq_true_2 by exact Hu.
  unfold Nx.ensure_node, Nx.has_node. rewrite bool_decide_eq_true_2 by exact Hv.
  reflexivity.
Qed.

Lemma node_ingest_known (l : list Interaction.t) (self : DeckGraph.t) :
  (forall i, i ∈ l ->
     Interaction.source_id i ∈ Nx.nodes (DeckGraph.graph self) /\
     Interaction.target_id i ∈ Nx.nodes (DeckGraph.graph self)) ->
  Nx._node (DeckGraph.graph (DeckGraph.ingest self l)) = Nx._node (DeckGraph.graph self).
Proof.
  revert self. induction l as [|j l IH]; intros self Hl; [reflexivity|].
  change (DeckGraph.ingest self (j :: l))
    with (DeckGraph.ingest (DeckGraph.add_interaction self j) l).
  assert (Hj : Nx._node (DeckGraph.graph (DeckGraph.add_interaction self j)) =
               Nx._node (DeckGraph.graph self)).
  { destruct (Hl j) as [Hu Hv]; [left|]. apply node_add_interaction_known; assumption. }
  rewrite IH; [exact Hj|].
  intros i Hi. unfold Nx.nodes. rewrite Hj. apply Hl. right. exact Hi.
Qed.

Local Abbreviation build_step :=
  (fun (self : DeckGraph.t) (kv : string * Deck.DeckEntry) =>
     DeckGraph.with_graph self
       (Nx.add_node (DeckGraph.graph self) (Card.id (Deck.card kv.2))
          (node_attrs (DeckGraph.deck self) kv.2))).

Lemma build_nodes_contains (entries : list (string * Deck.DeckEntry)) (self : DeckGraph.t)
    (n : string) :
  n ∈ Nx.nodes (DeckGraph.graph self) \/
  n ∈ (fun kv : string * Deck.DeckEntry => Card.id (Deck.card kv.2)) <$> entries ->
  n ∈ Nx.nodes (DeckGraph.graph (foldl build_step self entries)).
Proof.
  revert self. induction entries as [|kv entries IH]; intros self.
  - intros [H|H]; [exact H | inversion H].
  - intros H. simpl. apply IH. simpl. rewrite elem_of_nodes_add_node.
    rewrite fmap_cons, elem_of_cons in H. tauto.
Qed.

Lemma build_nodes_fresh (entries : list (string * Deck.DeckEntry)) (self : DeckGraph.t) :
  NoDup ((fun kv : string * Deck.DeckEntry => Card.id (Deck.card kv.2)) <$> entries) ->
  (forall kv, kv ∈ entries -> Card.id (Deck.card kv.2) ∉ Nx.nodes (DeckGraph.graph self)) ->
  Nx._node (DeckGraph.graph (foldl build_step self entries)) =
  Nx._node (DeckGraph.graph self) ++
  ((fun kv : string * Deck.DeckEntry =>
      (Card.id (Deck.card kv.2), Some (node_attrs (DeckGraph.deck self) kv.2))) <$> entries).
Proof.
  revert self. induction entries as [|kv entries IH]; intros self Hnd Hfresh.
  - simpl. rewrite app_nil_r. reflexivity.
  - rewrite fmap_cons in Hnd. apply NoDup_cons in Hnd. destruct Hnd as [Hkv Hnd].
    simpl. rewrite IH; [|exact Hnd|].
    + simpl. unfold Nx.add_node, Nx.has_node.
      rewrite bool_decide_eq_false_2 by (apply Hfresh; left).
      simpl. rewrite <- app_assoc. reflexivity.
    + intros kv' Hin. simpl. rewrite elem_of_nodes_add_node. intros [Heq|Hold].
      * apply Hkv. rewrite <- Heq. apply list_elem_of_fmap. exists kv'. auto.
      * revert Hold. apply Hfresh. right. exact Hin.
Qed.

(** The endpoints of a detected interaction are ids of analysed cards. *)
Lemma detected_endpoints (cards : list Card.t) (x : Interaction.t) :
  x ∈ InteractionDetector.detect_all cards ->
  Interaction.source_id x ∈ Card.id <$> cards /\
  Interaction.target_id x ∈ Card.id <$> cards.
Proof.
  intros Hx. apply DetectorFacts.elem_of_detect_all in Hx.
  destruct Hx as (i & j & c1 & c2 & _ & Hi & Hj & Hx).
  apply DetectorFacts.pair_endpoints in Hx.
  assert (H1 : Card.id c1 ∈ Card.id <$> cards).
  { apply list_elem_of_fmap. exists c1. split; [reflexivity|].
    eapply list_elem_of_lookup_2, Hi. }
  assert (H2 : Card.id c2 ∈ Card.id <$> cards).
  { apply list_elem_of_fmap. exists c2. split; [reflexivity|].
    eapply list_elem_of_lookup_2, Hj. }
  destruct Hx as [[-> ->]|[-> ->]]; auto.
Qed.

Lemma build_nodes_only (entries : list (string * Deck.DeckEntry)) (self : DeckGraph.t)
    (n : string) :
  n ∈ Nx.nodes (DeckGraph.graph (foldl build_step self entries)) ->
  n ∈ Nx.nodes (DeckGraph.graph self) \/
  n ∈ (fun kv : string * Deck.DeckEntry => Card.id (Deck.card kv.2)) <$> entries.
Proof.
  revert self. induction entries as [|kv entries IH]; intros self.
  - intros H. left. exact H.
  - intros H. apply IH in H. simpl in H. rewrite elem_of_nodes_add_node in H.
    rewrite fmap_cons, elem_of_cons. tauto.
Qed.

(** Detection adds no node and changes no node attribute. *)
Lemma detection_adds_no_node (deck : Deck.t) :
  Nx._node (DeckGraph.graph (DeckGraph.init deck true)) =
  Nx._node (DeckGraph.graph (DeckGraph.init deck false)).
Proof.
  unfold DeckGraph.init, DeckGraph.detect_interactions.
  rewrite deck_build_nodes. simpl. rewrite node_ingest_known; [reflexivity|].
  intros i Hi. simpl. apply detected_endpoints in Hi.
  unfold Deck.get_unique_cards in Hi. rewrite <- !list_fmap_compose in Hi.
  unfold DeckGraph._build_nodes. simpl.
  split; apply build_nodes_contains; right; tauto.
Qed.

(** The nodes of a built graph are the ids of the cards of the deck. *)
Lemma built_nodes (deck : Deck.t) (auto_detect : bool) (n : string) :
  n ∈ Nx.nodes (DeckGraph.graph (DeckGraph.init deck auto_detect)) <->
  n ∈ Card.id <$> Deck.get_unique_cards deck.
Proof.
  assert (H : n ∈ Nx.nodes (DeckGraph.graph (DeckGraph.init deck false)) <->
              n ∈ Card.id <$> Deck.get_unique_cards deck).
  { unfold DeckGraph.init, DeckGraph._build_nodes, Deck.get_unique_cards. simpl.
    rewrite <- list_fmap_compose. split.
    - intros Hn. apply build_nodes_only in Hn. destruct Hn as [Hn|Hn]; [inversion Hn|exact Hn].
    - intros Hn. apply build_nodes_contains. right. exact Hn. }
  destruct auto_detect; [|exact H].
  unfold Nx.nodes. rewrite detection_adds_no_node. exact H.
Qed.

(** X8.  The graph of [DeckGraph(deck)] has its nodes from the deck
    alone: detecting interactions adds no node and changes no node
    attribute, and when the cards of the deck have pairwise distinct ids
    there is exactly one node per entry, in the order of the deck, with
    the attributes of the entry's card. *)
Theorem nodes_mirror_the_deck (deck : Deck.t) :
  Nx._node (DeckGraph.graph (DeckGraph.init deck true)) =
  Nx._node (DeckGraph.graph (DeckGraph.init deck false)) /\
  (NoDup (Card.id <$> Deck.get_unique_cards deck) ->
   forall auto_detect,
     Nx._node (DeckGraph.graph (DeckGraph.init deck auto_detect)) =
     (fun kv : string * Deck.DeckEntry =>
        (Card.id (Deck.card kv.2), Some (node_attrs deck kv.2))) <$> Deck.cards deck).
Proof.
  pose proof (detection_adds_no_node deck) as Hdetect.
  split; [exact Hdetect|].
  intros Hnd auto_detect.
  assert (Hbuilt : Nx._node (DeckGraph.graph (DeckGraph.init deck false)) =
                   (fun kv : string * Deck.DeckEntry =>
                      (Card.id (Deck.card kv.2), Some (node_attrs deck kv.2))) <$> Deck.cards deck).
  { unfold DeckGraph.init, DeckGraph._build_nodes. simpl.
    rewrite build_nodes_fresh; [reflexivity | |].
    - unfold Deck.get_unique_cards in Hnd. rewrite <- list_fmap_compose in Hnd. exact Hnd.
    - intros kv _ H. inversion H. }
  destruct auto_detect; [rewrite Hdetect|]; exact Hbuilt.
Qed.

Lemma nodes_mirror_the_deck_witness :
  Nx.nodes (DeckGraph.graph (DeckGraph.init MoreExamples.smoke_deck true)) =
  ["c1"; "c2"; "c3"].
Proof.
  unfold Nx.nodes.
  rewrite (proj2 (nodes_mirror_the_deck MoreExamples.smoke_deck)
             DeckProps.smoke_deck_ids true).
  reflexivity.
Defined.

Lemma typed_add_interaction (self : DeckGraph.t) (i : Interaction.t) :
  wf_graph (DeckGraph.graph self) ->
  typed_edges (DeckGraph.graph self) ->
  typed_edges (DeckGraph.graph (DeckGraph.add_interaction self i)).
Proof.
  intros Hwf Hty a b e. rewrite (edge_data_add_interaction self i Hwf).
  destruct (same_pair _ _ _ _); [|apply Hty].
  intros [= <-]. destruct (Nx.edge_data _ _ _) as [e0|] eqn:E; simpl.
  - destruct (Hty _ _ _ E) as [_ Hall]. split.
    + intros H. apply app_eq_nil in H. destruct H as [_ H]. discriminate.
    + apply Forall_app. split; [exact Hall|]. constructor; [|constructor].
      eexists. apply CodecProps.of_value_value.
  - split; [discriminate|]. constructor; [|constructor].
    eexists. apply CodecProps.of_value_value.
Qed.

Lemma typed_ingest (l : list Interaction.t) (self : DeckGraph.t) :
  wf_graph (DeckGraph.graph self) ->
  typed_edges (DeckGraph.graph self) ->
  typed_edges (DeckGraph.graph (DeckGraph.ingest self l)).
Proof.
  revert self. induction l as [|j l IH]; intros self Hwf Hty; [exact Hty|].
  apply (IH (DeckGraph.add_interaction self j)).
  - apply wf_add_interaction, Hwf.
  - apply typed_add_interaction; assumption.
Qed.

(** X9.  Whatever is added to the graph that [DeckGraph(deck)] built, by
    detection or by hand, every edge keeps a type list that is not empty
    and holds names of [InteractionType] members only: the export always
    finds a first type, and [InteractionType(...)] of it never fails. *)
Theorem edges_carry_known_types (deck : Deck.t) (auto_detect : bool)
    (l : list Interaction.t) :
  let g := DeckGraph.graph (DeckGraph.ingest (DeckGraph.init deck auto_detect) l) in
  typed_edges g /\
  forall a b e, Nx.edge_data g a b = Some e ->
    exists primary rest,
      Nx.interaction_types e = InteractionType.value primary :: rest.
Proof.
  intros g.
  assert (Hty : typed_edges g).
  { subst g. apply typed_ingest; [apply wf_init|].
    unfold DeckGraph.init.
    destruct (build_nodes_no_edge (DeckGraph.mk deck Nx.empty [])) as [Hwf Hnone].
    { apply wf_empty. }
    { intros x y. reflexivity. }
    destruct auto_detect.
    - unfold DeckGraph.detect_interactions. apply typed_ingest; [exact Hwf|].
      intros a b e E. simpl in E. rewrite Hnone in E. discriminate.
    - intros a b e E. rewrite Hnone in E. discriminate. }
  split; [exact Hty|].
  intros a b e E. destruct (Hty a b e E) as [Hne Hall].
  destruct (Nx.interaction_types e) as [|s rest]; [contradiction|].
  apply Forall_cons in Hall. destruct Hall as [[ty Hs] _].
  exists ty, rest. apply CodecProps.of_value_Some in Hs. rewrite Hs. reflexivity.
Qed.

Lemma edges_carry_known_types_witness :
  exists primary rest,
    Nx.interaction_types (Nx.mk_edge ["tribal"] 0.6 (Some "Both are Elf")) =
    InteractionType.value primary :: rest.
Proof.
  apply (proj2 (edges_carry_known_types MoreExamples.empty_deck false [Examples.tribal_ba])
           "a" "b").
  vm_compute. reflexivity.
Defined.

End InvariantProps.

(** ** The shape of detected interactions *)

Module DetectionProps.

Import Spec MoreSpec GraphFacts InteractionType InteractionDetector DetectorFacts.

Lemma min_at_most (x : float) : PrimFloat.ltb 0.9 (PyFloat.min x 0.8) = false.
Proof.
  unfold PyFloat.min. destruct (PrimFloat.ltb 0.8 x) eqn:E; [reflexivity|].
  destruct (PrimFloat.ltb 0.9 x) eqn:F; [|reflexivity].
  assert (H : PrimFloat.ltb 0.8 0.9 = true) by reflexivity.
  rewrite (FloatFacts.ltb_trans 0.8%float 0.9%float x H F) in E. discriminate.
Qed.

Local Ltac unfold_rules :=
  unfold _detect_pair_interactions, _check_sacrifice_synergy, _check_etb_synergy,
    _check_counter_synergy, _check_tribal_synergy, _check_type_matters,
    _check_mana_relationship, _check_keyword_synergy, _check_tutor_relationship.

Lemma pair_shape (card1 card2 : Card.t) (x : Interaction.t) :
  x ∈ _detect_pair_interactions card1 card2 ->
  Interaction.interaction_type x ∈
    [DEATH_CHAIN; SACRIFICE_OUTLET; ETB_CHAIN; COUNTER_SYNERGY; TRIBAL;
     TYPE_MATTERS; MANA_ENABLES; BUFFS; ENABLES; TUTORS] /\
  is_Some (Interaction.description x) /\
  (Interaction.bidirectional x = true ->
   Interaction.interaction_type x = COUNTER_SYNERGY \/
   Interaction.interaction_type x = TRIBAL) /\
  PrimFloat.ltb 0.9 (Interaction.weight x) = false.
Proof.
  unfold_rules. intros H.
  emitted; simpl;
    (split; [apply list_elem_of_In; simpl; tauto|]); (split; [eauto|]);
    (split; [first [discriminate | auto]|]);
    first [reflexivity | apply min_at_most].
Qed.

Lemma weights_add_interaction (bound : float) (self : DeckGraph.t) (i : Interaction.t) :
  wf_graph (DeckGraph.graph self) ->
  weights_at_most bound (DeckGraph.graph self) ->
  PrimFloat.ltb bound (Interaction.weight i) = false ->
  weights_at_most bound (DeckGraph.graph (DeckGraph.add_interaction self i)).
Proof.
  intros Hwf Hb Hi a b e. rewrite (edge_data_add_interaction self i Hwf).
  destruct (same_pair _ _ _ _); [|apply Hb].
  intros [= <-]. destruct (Nx.edge_data _ _ _) as [e0|] eqn:E; simpl; [|exact Hi].
  unfold PyFloat.max.
  destruct (PrimFloat.ltb (Nx.weight e0) (Interaction.weight i));
    [exact Hi | apply (Hb _ _ _ E)].
Qed.

Lemma weights_ingest (bound : float) (l : list Interaction.t) (self : DeckGraph.t) :
  wf_graph (DeckGraph.graph self) ->
  weights_at_most bound (DeckGraph.graph self) ->
  (forall i, i ∈ l -> PrimFloat.ltb bound (Interaction.weight i) = false) ->
  weights_at_most bound (DeckGraph.graph (DeckGraph.ingest self l)).
Proof.
  revert self. induction l as [|j l IH]; intros self Hwf Hb Hl; [exact Hb|].
  apply (IH (DeckGraph.add_interaction self j)).
  - apply wf_add_interaction, Hwf.
  - apply weights_add_interaction; [exact Hwf | exact Hb | apply Hl; left].
  - intros i Hi. apply Hl. right. exact Hi.
Qed.

(** X10.  What the detector emits: the type of a detected interaction is
    one of ten (never [COMBOS_WITH], [SYNERGY], [PROTECTS], [DRAWS_INTO]
    or [SACRIFICE_FODDER]), it always has a description, it is marked
    bidirectional only if it is a counter or a tribal synergy, and its
    weight is never above 0.9. *)
Theorem detected_interactions_shape (cards : list Card.t) (x : Interaction.t) :
  x ∈ detect_all cards ->
  Interaction.interaction_type x ∈
    [DEATH_CHAIN; SACRIFICE_OUTLET; ETB_CHAIN; COUNTER_SYNERGY; TRIBAL;
     TYPE_MATTERS; MANA_ENABLES; BUFFS; ENABLES; TUTORS] /\
  is_Some (Interaction.description x) /\
  (Interaction.bidirectional x = true ->
   Interaction.interaction_type x = COUNTER_SYNERGY \/
   Interaction.interaction_type x = TRIBAL) /\
  PrimFloat.ltb 0.9 (Interaction.weight x) = false.
Proof.
  intros Hx. apply elem_of_detect_all in Hx.
  destruct Hx as (i & j & c1 & c2 & _ & _ & _ & Hx).
  eapply pair_shape, Hx.
Qed.

Lemma detected_interactions_shape_witness :
  PrimFloat.ltb 0.9
    (Interaction.weight
       (Interaction.mk "c1" "c2" DEATH_CHAIN 0.8
          (Some "Sacrifice Outlet can sacrifice creatures to trigger Death Trigger") false)) =
  false.
Proof.
  assert (Hin : Interaction.mk "c1" "c2" DEATH_CHAIN 0.8
                  (Some "Sacrifice Outlet can sacrifice creatures to trigger Death Trigger")
                  false
                ∈ detect_all [Examples.card1; Examples.card2]).
  { apply list_elem_of_In. vm_compute. tauto. }
  apply (detected_interactions_shape _ _ Hin).
Defined.

(** X11.  No edge of the graph that [DeckGraph(deck)] builds weighs more
    than 0.9; ingesting further interactions whose weights are not above a
    bound of at least that keeps all edge weights under the bound. *)
Theorem built_weights_at_most (deck : Deck.t) :
  weights_at_most 0.9 (DeckGraph.graph (DeckGraph.init deck true)) /\
  (forall l,
     (forall i, i ∈ l -> PrimFloat.ltb 1.0 (Interaction.weight i) = false) ->
     weights_at_most 1.0
       (DeckGraph.graph (DeckGraph.ingest (DeckGraph.init deck true) l))).
Proof.
  assert (Hbuilt : weights_at_most 0.9 (DeckGraph.graph (DeckGraph.init deck true))).
  { unfold DeckGraph.init, DeckGraph.detect_interactions.
    destruct (build_nodes_no_edge (DeckGraph.mk deck Nx.empty [])) as [Hwf Hnone].
    { apply wf_empty. }
    { intros x y. reflexivity. }
    apply weights_ingest; simpl.
    - exact Hwf.
    - intros a b e E. rewrite Hnone in E. discriminate.
    - intros i Hi. apply elem_of_detect_all in Hi.
      destruct Hi as (p & q & c1 & c2 & _ & _ & _ & Hi).
      eapply pair_shape, Hi. }
  split; [exact Hbuilt|].
  intros l Hl. apply weights_ingest; [apply wf_init | | exact Hl].
  intros a b e E. destruct (PrimFloat.ltb 1.0 (Nx.weight e)) eqn:F; [|reflexivity].
  assert (H : PrimFloat.ltb 0.9 1.0 = true) by reflexivity.
  rewrite <- (Hbuilt a b e E). symmetry.
  apply (FloatFacts.ltb_trans 0.9%float 1.0%float (Nx.weight e) H F).
Qed.

Lemma built_weights_at_most_witness :
  PrimFloat.ltb 1.0 (Nx.weight (Nx.mk_edge ["tutors"] 0.9 (Some "a can find b"))) = false.
Proof.
  assert (Hl : forall i, i ∈ [Examples.tutors_ab] ->
                         PrimFloat.ltb 1.0 (Interaction.weight i) = false).
  { intros i Hi. apply list_elem_of_singleton in Hi. subst i. reflexivity. }
  apply (proj2 (built_weights_at_most MoreExamples.empty_deck) [Examples.tutors_ab] Hl "a" "b").
  vm_compute. reflexivity.
Defined.

End DetectionProps.

(** ** Detection and the order of the cards *)

Module OrderProps.

Import Spec MoreSpec InteractionType InteractionDetector DetectorFacts.

Local Ltac unfold_rules :=
  unfold _detect_pair_interactions, _check_sacrifice_synergy, _check_etb_synergy,
    _check_counter_synergy, _check_tribal_synergy, _check_type_matters,
    _check_mana_relationship, _check_keyword_synergy, _check_tutor_relationship.

(** Finding an interaction among what the rules emit, given the
    conditions that hold. *)
Local Ltac find_emitted :=
  lazymatch goal with
  | |- _ ∈ emit _ _ =>
      apply elem_of_emit; split; [first [assumption | rewrite orb_comm; assumption] | reflexivity]
  | |- _ ∈ _ ++ _ =>
      apply elem_of_app; first [left; find_emitted | right; find_emitted]
  | |- _ ∈ (_ ≫= _) =>
      apply list_elem_of_bind; eexists; split; [|eassumption]; lazy beta iota; find_emitted
  | |- _ ∈ (if ?c then _ else _) =>
      let E := fresh in
      assert (E : c = true) by (first [assumption | rewrite orb_comm; assumption]);
      rewrite E; find_emitted
  end.

(** A directed interaction is found whichever of the two cards is given
    first. *)
Lemma pair_swap (card1 card2 : Card.t) (x : Interaction.t) :
  x ∈ _detect_pair_interactions card1 card2 ->
  Interaction.bidirectional x = false ->
  x ∈ _detect_pair_interactions card2 card1.
Proof.
  unfold_rules. intros H Hb.
  emitted; simpl in Hb; try discriminate Hb; find_emitted.
Qed.

(** A bidirectional interaction is found from the other card when the
    cards are given in the other order. *)
Lemma pair_swap_bidirectional (card1 card2 : Card.t) (x : Interaction.t) :
  x ∈ _detect_pair_interactions card1 card2 ->
  Interaction.bidirectional x = true ->
  exists y, y ∈ _detect_pair_interactions card2 card1 /\ same_but_direction x y.
Proof.
  unfold_rules. intros H Hb.
  emitted; simpl in Hb; try discriminate Hb.
  - match goal with Hc : _ = true |- _ =>
      apply andb_true_iff in Hc; destruct Hc as [Hc Hor];
      apply andb_true_iff in Hc; destruct Hc as [Hc1 Hc2];
      apply orb_true_iff in Hor
    end.
    eexists (Interaction.mk (Card.id card2) (Card.id card1) COUNTER_SYNERGY 0.7 _ true).
    split; [|repeat split].
    do 2 (apply elem_of_app; right). apply elem_of_app; left.
    do 2 (apply elem_of_app; right).
    apply elem_of_emit. split; [|reflexivity].
    apply andb_true_iff; split; [apply andb_true_iff; split; assumption|].
    apply orb_true_iff. tauto.
  - eexists (Interaction.mk (Card.id card2) (Card.id card1) TRIBAL 0.5 _ true).
    split; [|repeat split].
    do 3 (apply elem_of_app; right). apply elem_of_app; left.
    apply elem_of_app; left.
    apply elem_of_emit. split; [|reflexivity].
    match goal with Hc : _ = true |- _ =>
      apply andb_true_iff in Hc; destruct Hc as [Hc Hc2];
      apply andb_true_iff in Hc; destruct Hc as [Hc0 Hc1]
    end.
    rewrite (comm_L (∩) (list_to_set (Card.get_creature_types card2))).
    repeat (apply andb_true_iff; split); assumption.
Qed.

(** X12.  Detection does not depend on the order of the cards: when the
    list of cards is permuted, every directed interaction is detected
    again, unchanged; a bidirectional one is detected again too, possibly
    from the other card of its pair, with the same type and weight. *)
Theorem detection_ignores_card_order (cards cards' : list Card.t) (x : Interaction.t) :
  cards ≡ₚ cards' ->
  x ∈ detect_all cards ->
  (Interaction.bidirectional x = false -> x ∈ detect_all cards') /\
  exists y, y ∈ detect_all cards' /\ (y = x \/ same_but_direction x y).
Proof.
  intros Hperm Hx. apply elem_of_detect_all in Hx.
  destruct Hx as (i & j & c1 & c2 & Hij & Hi & Hj & Hx).
  apply Permutation_inj in Hperm. destruct Hperm as (_ & f & Hinj & Hf).
  rewrite Hf in Hi, Hj.
  assert (Hne : f i <> f j) by (intros Heq; apply Hinj in Heq; lia).
  destruct (Nat.lt_total (f i) (f j)) as [Hlt|[Heq|Hgt]]; [|contradiction|].
  - assert (Hin : x ∈ detect_all cards').
    { apply elem_of_detect_all. exists (f i), (f j), c1, c2. auto. }
    split; [auto|]. exists x. auto.
  - split.
    + intros Hb. apply elem_of_detect_all. exists (f j), (f i), c2, c1.
      repeat split; try assumption. apply pair_swap; assumption.
    + destruct (Interaction.bidirectional x) eqn:Hb.
      * destruct (pair_swap_bidirectional c1 c2 x Hx Hb) as (y & Hy & Hsame).
        exists y. split; [|auto]. apply elem_of_detect_all.
        exists (f j), (f i), c2, c1. auto.
      * exists x. split; [|auto]. apply elem_of_detect_all.
        exists (f j), (f i), c2, c1. repeat split; try assumption.
        apply pair_swap; assumption.
Qed.

Lemma detection_ignores_card_order_witness :
  Interaction.mk "c1" "c2" DEATH_CHAIN 0.8
    (Some "Sacrifice Outlet can sacrifice creatures to trigger Death Trigger") false
  ∈ detect_all [Examples.card2; Examples.card1].
Proof.
  assert (Hperm : [Examples.card1; Examples.card2] ≡ₚ [Examples.card2; Examples.card1])
    by apply perm_swap.
  assert (Hin : Interaction.mk "c1" "c2" DEATH_CHAIN 0.8
                  (Some "Sacrifice Outlet can sacrifice creatures to trigger Death Trigger")
                  false
                ∈ detect_all [Examples.card1; Examples.card2]).
  { apply list_elem_of_In. vm_compute. tauto. }
  apply (proj1 (detection_ignores_card_order _ _ _ Hperm Hin)). reflexivity.
Defined.

End OrderProps.

(** ** Cards that add counters *)

Module CounterProps.

Import Spec MoreSpec InteractionType InteractionDetector DetectorFacts.

(** A text in which a pattern matches holds a match of every tail of
    the pattern. *)
Lemma match_here_app_search (p q : Re.re) (s : string) :
  Re.match_here (p ++ q) s = true -> Re.search q s = true.
Proof.
  assert (Hnil : forall s, Re.match_here q s = true -> Re.search q s = true).
  { intros s0 H. destruct s0; simpl; rewrite H; reflexivity. }
  assert (Hskip : forall x s, Re.search q s = true -> Re.search q (String x s) = true).
  { intros x s0 H. simpl. rewrite H. apply orb_true_r. }
  assert (Hstar : forall k p',
             (forall s, Re.match_here (p' ++ q) s = true -> Re.search q s = true) ->
             forall s, Re.match_here (Re.Star k :: p' ++ q) s = true -> Re.search q s = true).
  { intros k p' IH s0. induction s0 as [|x s0 IHs];
      rewrite RegexFacts.match_here_star_unfold, orb_true_iff.
    - intros [H|H]; [apply IH, H | discriminate].
    - intros [H|H]; [apply IH, H|].
      apply andb_true_iff in H. destruct H as [_ H]. apply Hskip, IHs, H. }
  revert s. induction p as [|[k|k|k] p IH]; intros s; simpl app.
  - apply Hnil.
  - intros H. apply RegexFacts.match_here_one in H.
    destruct H as (x & s' & -> & _ & H). apply Hskip, IH, H.
  - apply Hstar, IH.
  - destruct s as [|x s]; [discriminate|]. intros H.
    change (Re.cset_mem k x && Re.match_here (Re.Star k :: p ++ q) s = true) in H.
    apply andb_true_iff in H. destruct H as [_ H]. eapply Hskip, Hstar, H. exact IH.
Qed.

Lemma search_app_search (p q : Re.re) (s : string) :
  Re.search (p ++ q) s = true -> Re.search q s = true.
Proof.
  induction s as [|x s IH]; simpl; rewrite orb_true_iff.
  - intros [H|H]; [|discriminate]. apply (match_here_app_search p q EmptyString H).
  - intros [H|H].
    + apply (match_here_app_search p q (String x s) H).
    + rewrite (IH H). apply orb_true_r.
Qed.

(** A card whose text matches a pattern for adding counters also
    matches the first pattern for caring about them, the literal
    [+1/+1 counter] on which both patterns for adding end. *)
Lemma adds_counters_cares (c : Card.t) :
  Re.any_search counter_add_patterns (Card.oracle_text c) = true ->
  Card.has_counter_synergy c = true.
Proof.
  unfold Card.has_counter_synergy, Re.any_search, counter_add_patterns,
    Card.counter_synergy_patterns.
  cbn [existsb]. rewrite !orb_false_r. intros H.
  apply orb_true_iff in H. apply orb_true_iff. left.
  destruct H as [H|H].
  - apply (search_app_search
             ([Re.One (Re.OneOf "Pp")] ++ Re.lit "ut " ++ [Re.Star Re.Dot] ++ Re.lit " ")
             (Re.lit "+1/+1 counter")).
    exact H.
  - apply (search_app_search
             ([Re.One (Re.OneOf "Ee")] ++ Re.lit "nters " ++ [Re.Star Re.Dot] ++
              Re.lit " with " ++ [Re.Star Re.Dot] ++ Re.lit " ")
             (Re.lit "+1/+1 counter")).
    exact H.
Qed.

(** X13.  A card that adds +1/+1 counters always counts as caring about
    counters as well.  So whenever the detector reports the directed
    counter synergy, one card adding counters for the other at weight
    0.75, it also reports the bidirectional counter synergy of weight 0.7
    for the same two cards. *)
Theorem counter_adder_reported_twice (cards : list Card.t) (x : Interaction.t) :
  x ∈ detect_all cards ->
  Interaction.interaction_type x = COUNTER_SYNERGY ->
  Interaction.bidirectional x = false ->
  Interaction.weight x = 0.75%float /\
  exists y,
    y ∈ detect_all cards /\
    Interaction.interaction_type y = COUNTER_SYNERGY /\
    Interaction.bidirectional y = true /\
    Interaction.weight y = 0.7%float /\
    same_pair (Interaction.source_id x) (Interaction.target_id x)
      (Interaction.source_id y) (Interaction.target_id y) = true.
Proof.
  intros Hx Hty Hb. apply elem_of_detect_all in Hx.
  destruct Hx as (i & j & c1 & c2 & Hij & Hi & Hj & Hx).
  set (y := Interaction.mk (Card.id c1) (Card.id c2) COUNTER_SYNERGY 0.7
              (Some ("Both " +:+ Card.name c1 +:+ " and " +:+ Card.name c2 +:+
                     " work with counters")) true).
  assert (Hy : forall adds1 adds2,
             Card.has_counter_synergy c1 = true -> Card.has_counter_synergy c2 = true ->
             Re.any_search counter_add_patterns (Card.oracle_text c1) = adds1 ->
             Re.any_search counter_add_patterns (Card.oracle_text c2) = adds2 ->
             adds1 || adds2 = true ->
             y ∈ detect_all cards).
  { intros adds1 adds2 H1 H2 E1 E2 Hor. apply elem_of_detect_all.
    exists i, j, c1, c2. repeat split; try assumption.
    unfold _detect_pair_interactions, _check_counter_synergy.
    do 2 (apply elem_of_app; right). apply elem_of_app; left.
    do 2 (apply elem_of_app; right).
    apply elem_of_emit. split; [|reflexivity].
    rewrite H1, H2, E1, E2. exact Hor. }
  revert Hx.
  unfold _detect_pair_interactions, _check_sacrifice_synergy, _check_etb_synergy,
    _check_counter_synergy, _check_tribal_synergy, _check_type_matters,
    _check_mana_relationship, _check_keyword_synergy, _check_tutor_relationship.
  intros Hx.
  emitted; simpl in Hty, Hb; try discriminate Hty; try discriminate Hb;
    match goal with Hc : _ && _ = true |- _ =>
      apply andb_true_iff in Hc; destruct Hc as [Hadds Hcares]
    end;
    (split; [reflexivity|]); exists y; split.
  - eapply Hy; [apply adds_counters_cares, Hadds | exact Hcares | exact Hadds | reflexivity
                | reflexivity].
  - repeat split. subst y. cbn [Interaction.source_id Interaction.target_id].
    unfold same_pair. rewrite bool_decide_true by auto. reflexivity.
  - eapply Hy; [exact Hcares | apply adds_counters_cares, Hadds | reflexivity | exact Hadds
                | apply orb_true_r].
  - repeat split. subst y. cbn [Interaction.source_id Interaction.target_id].
    unfold same_pair. rewrite (bool_decide_true (Card.id c2 = Card.id c2 /\ _)) by auto.
    apply orb_true_r.
Qed.

Lemma counter_adder_reported_twice_witness :
  exists y,
    y ∈ detect_all [ExampleCards.hardened_scales; ExampleCards.travel_preparations] /\
    Interaction.interaction_type y = COUNTER_SYNERGY /\
    Interaction.bidirectional y = true.
Proof.
  assert (Hin : Interaction.mk "tp" "hs" COUNTER_SYNERGY 0.75
                  (Some "Travel Preparations adds counters for Hardened Scales") false
                ∈ detect_all [ExampleCards.hardened_scales; ExampleCards.travel_preparations]).
  { apply list_elem_of_In. vm_compute. tauto. }
  destruct (counter_adder_reported_twice _ _ Hin eq_refl eq_refl)
    as (_ & y & Hy & Hty & Hb & _).
  exists y. auto.
Defined.

End CounterProps.

(** ** Removing an edge, and adding one by hand *)

Module RemoveProps.

Import Spec MoreSpec GraphFacts.

Lemma edge_data_remove_edge (g : Nx.Graph) (u v a b : string) :
  Nx.edge_data (Nx.remove_edge g u v) a b =
  if same_pair a b u v then None else Nx.edge_data g a b.
Proof.
  unfold Nx.edge_data, Nx.remove_edge, same_pair. cbn [Nx._adj].
  destruct (decide (u = v)) as [->|Huv].
  - destruct (decide (a = v)) as [->|Ha].
    + rewrite lookup_insert_eq. simpl.
      destruct (decide (b = v)) as [->|Hb].
      * rewrite lookup_delete_eq. rewrite bool_decide_true by auto. reflexivity.
      * rewrite lookup_delete_ne by done.
        rewrite !bool_decide_false by (intros [_ ?]; done). simpl.
        destruct (Nx._adj g !! v); reflexivity.
    + rewrite lookup_insert_ne by done.
      rewrite !bool_decide_false by (intros [? _]; done). reflexivity.
  - destruct (decide (a = v)) as [->|Hav].
    + rewrite lookup_insert_eq, lookup_insert_ne by done. simpl.
      rewrite (bool_decide_false (v = u /\ _)) by (intros [? _]; done). simpl.
      destruct (decide (b = u)) as [->|Hb].
      * rewrite lookup_delete_eq. rewrite bool_decide_true by auto. reflexivity.
      * rewrite lookup_delete_ne by done.
        rewrite bool_decide_false by (intros [_ ?]; done).
        destruct (Nx._adj g !! v); reflexivity.
    + rewrite lookup_insert_ne by done.
      rewrite (bool_decide_false (a = v /\ _)) by (intros [? _]; done).
      rewrite orb_false_r.
      destruct (decide (a = u)) as [->|Hau].
      * rewrite lookup_insert_eq. simpl.
        destruct (decide (b = v)) as [->|Hb].
        -- rewrite lookup_delete_eq. rewrite bool_decide_true by auto. reflexivity.
        -- rewrite lookup_delete_ne by done.
           rewrite bool_decide_false by (intros [_ ?]; done).
           destruct (Nx._adj g !! u); reflexivity.
      * rewrite lookup_insert_ne by done.
        rewrite bool_decide_false by (intros [? _]; done). reflexivity.
Qed.

Lemma remove_edge_is_Some (g : Nx.Graph) (u v a : string) :
  is_Some (Nx._adj (Nx.remove_edge g u v) !! a) ->
  a = u \/ a = v \/ is_Some (Nx._adj g !! a).
Proof.
  unfold Nx.remove_edge. cbn [Nx._adj].
  destruct (decide (a = u)) as [->|Hau]; [auto|].
  destruct (decide (a = v)) as [->|Hav]; [auto|].
  destruct (decide (u = v)); rewrite ?lookup_insert_ne by done; auto.
Qed.

Lemma wf_remove_edge (g : Nx.Graph) (u v : string) :
  wf_graph g -> Nx.has_edge g u v = true -> wf_graph (Nx.remove_edge g u v).
Proof.
  intros Hwf He. pose proof Hwf as [Hs Ha Hn].
  rewrite has_edge_edge_data in He. apply bool_decide_eq_true in He.
  destruct He as [e E]. destruct (edge_data_Some_node g u v e Hwf E) as [Hu Hv].
  split.
  - intros a b. rewrite !edge_data_remove_edge, (same_pair_swap a b), Hs. reflexivity.
  - intros a H. apply remove_edge_is_Some in H.
    destruct H as [->|[->|H]]; [exact Hu | exact Hv | apply Ha, H].
  - exact Hn.
Qed.

Lemma edge_data_remove_interaction (self : DeckGraph.t) (s t a b : string) :
  wf_graph (DeckGraph.graph self) ->
  Nx.edge_data (DeckGraph.graph (DeckGraph.remove_interaction self s t)) a b =
  if same_pair a b s t then None else Nx.edge_data (DeckGraph.graph self) a b.
Proof.
  intros Hwf. unfold DeckGraph.remove_interaction.
  destruct (Nx.has_edge (DeckGraph.graph self) s t) eqn:He.
  - apply edge_data_remove_edge.
  - destruct (same_pair a b s t) eqn:Hp; [|reflexivity].
    rewrite has_edge_edge_data in He. apply bool_decide_eq_false in He.
    apply same_pair_spec in Hp.
    destruct Hp as [[-> ->]|[-> ->]]; [|rewrite (wf_symmetric _ Hwf)];
      destruct (Nx.edge_data (DeckGraph.graph self) s t); try reflexivity;
      exfalso; apply He; eauto.
Qed.

(** X14.  [remove_interaction] on a well-formed graph: the edge between
    the two cards is gone in both directions, with every interaction type
    it had accumulated; every other edge, the nodes (the two endpoints
    included) and the list of recorded interactions are as before; the
    graph stays well formed; and when the two cards have no edge nothing
    changes at all. *)
Theorem remove_interaction_behaviour (self : DeckGraph.t) (source_id target_id : string) :
  wf_graph (DeckGraph.graph self) ->
  let after := DeckGraph.remove_interaction self source_id target_id in
  wf_graph (DeckGraph.graph after) /\
  (forall a b,
     Nx.edge_data (DeckGraph.graph after) a b =
     if same_pair a b source_id target_id then None
     else Nx.edge_data (DeckGraph.graph self) a b) /\
  Nx.has_edge (DeckGraph.graph after) target_id source_id = false /\
  Nx._node (DeckGraph.graph after) = Nx._node (DeckGraph.graph self) /\
  DeckGraph.interactions after = DeckGraph.interactions self /\
  (Nx.has_edge (DeckGraph.graph self) source_id target_id = false -> after = self).
Proof.
  intros Hwf after.
  assert (Hed : forall a b,
             Nx.edge_data (DeckGraph.graph after) a b =
             if same_pair a b source_id target_id then None
             else Nx.edge_data (DeckGraph.graph self) a b).
  { intros a b. apply edge_data_remove_interaction, Hwf. }
  split; [|split; [exact Hed|split]].
  - subst after. unfold DeckGraph.remove_interaction.
    destruct (Nx.has_edge _ _ _) eqn:He; [|exact Hwf].
    apply wf_remove_edge; assumption.
  - rewrite has_edge_edge_data, Hed.
    rewrite (proj2 (same_pair_spec _ _ _ _)) by auto. reflexivity.
  - subst after. unfold DeckGraph.remove_interaction.
    destruct (Nx.has_edge _ _ _); repeat split; try reflexivity. discriminate.
Qed.

Lemma remove_interaction_behaviour_witness :
  Nx.edge_data
    (DeckGraph.graph (DeckGraph.remove_interaction Examples.one_edge "a" "b")) "b" "a" = None.
Proof.
  assert (Hwf : wf_graph (DeckGraph.graph Examples.one_edge))
    by (apply wf_add_interaction, wf_empty).
  destruct (remove_interaction_behaviour Examples.one_edge "a" "b" Hwf) as (_ & H & _).
  rewrite H. reflexivity.
Defined.

(** X15.  An interaction added by hand and removed again: the edge it
    was merged into is gone as a whole, so a pair that had an edge before
    has none afterwards, while every other pair is as before; the
    interaction stays on record, last in the list. *)
Theorem custom_interaction_then_remove (self : DeckGraph.t) (source_id target_id : string)
    (interaction_type : InteractionType.t) (weight : float) (description : option string) :
  wf_graph (DeckGraph.graph self) ->
  let added :=
    DeckGraph.add_custom_interaction self source_id target_id interaction_type
      weight description in
  let after := DeckGraph.remove_interaction added.1 source_id target_id in
  added.2 = Interaction.mk source_id target_id interaction_type weight description false /\
  Nx.has_edge (DeckGraph.graph added.1) source_id target_id = true /\
  (forall a b,
     Nx.edge_data (DeckGraph.graph after) a b =
     if same_pair a b source_id target_id then None
     else Nx.edge_data (DeckGraph.graph self) a b) /\
  DeckGraph.interactions after = DeckGraph.interactions self ++ [added.2].
Proof.
  intros Hwf added after.
  set (i := Interaction.mk source_id target_id interaction_type weight description false).
  set (listed := DeckGraph.mk (DeckGraph.deck self) (DeckGraph.graph self)
                   (DeckGraph.interactions self ++ [i])).
  assert (Hadded : added.1 = DeckGraph.add_interaction listed i) by reflexivity.
  assert (Hwf' : wf_graph (DeckGraph.graph added.1)).
  { rewrite Hadded. apply wf_add_interaction. exact Hwf. }
  assert (Hed : forall a b,
             Nx.edge_data (DeckGraph.graph added.1) a b =
             if same_pair a b source_id target_id
             then Some (merged (Nx.edge_data (DeckGraph.graph self) source_id target_id) i)
             else Nx.edge_data (DeckGraph.graph self) a b).
  { intros a b. rewrite Hadded. apply (edge_data_add_interaction listed i Hwf). }
  split; [reflexivity|]. split; [|split].
  - rewrite has_edge_edge_data, Hed.
    rewrite (proj2 (same_pair_spec _ _ _ _)) by auto.
    apply bool_decide_eq_true. eauto.
  - intros a b. subst after. rewrite edge_data_remove_interaction by exact Hwf'.
    rewrite Hed. destruct (same_pair a b source_id target_id); reflexivity.
  - subst after. unfold DeckGraph.remove_interaction.
    assert (Hi : DeckGraph.interactions added.1 = DeckGraph.interactions self ++ [i]).
    { rewrite Hadded. apply (deck_add_interaction listed i). }
    destruct (Nx.has_edge _ _ _); exact Hi.
Qed.

Lemma custom_interaction_then_remove_witness :
  Nx.edge_data
    (DeckGraph.graph
       (DeckGraph.remove_interaction
          (DeckGraph.add_custom_interaction Examples.one_edge "a" "b"
             InteractionType.COMBOS_WITH 1.0 None).1 "a" "b")) "a" "b" = None.
Proof.
  assert (Hwf : wf_graph (DeckGraph.graph Examples.one_edge))
    by (apply wf_add_interaction, wf_empty).
  destruct (custom_interaction_then_remove Examples.one_edge "a" "b"
              InteractionType.COMBOS_WITH 1.0 None Hwf) as (_ & _ & H & _).
  rewrite H. reflexivity.
Defined.

End RemoveProps.

(** ** Neighbours and isolated cards *)

Module QueryProps.

Import Spec MoreSpec GraphFacts DeckGraphQueries.

Lemma neighbors_lookup (g : Nx.Graph) (a b : string) :
  neighbors g a !! b = Nx.edge_data g a b.
Proof.
  unfold neighbors, Nx.edge_data.
  destruct (Nx._adj g !! a); simpl; [reflexivity | apply lookup_empty].
Qed.

Lemma elem_of_connected (self : DeckGraph.t) (a b : string) :
  wf_graph (DeckGraph.graph self) ->
  b ∈ get_connected_cards self a <-> Nx.has_edge (DeckGraph.graph self) a b = true.
Proof.
  intros Hwf. rewrite has_edge_edge_data, bool_decide_eq_true.
  unfold get_connected_cards, Nx.has_node. case_bool_decide as Hn; simpl.
  - rewrite list_elem_of_fmap. split.
    + intros ([k e] & -> & Hin). apply elem_of_map_to_list in Hin.
      rewrite neighbors_lookup in Hin. simpl. eauto.
    + intros [e E]. exists (b, e). split; [reflexivity|].
      apply elem_of_map_to_list. rewrite neighbors_lookup. exact E.
  - split; [intros H; inversion H|].
    intros [e E]. exfalso. apply Hn.
    apply (edge_data_Some_node _ a b e Hwf E).
Qed.

Lemma degree_zero (g : Nx.Graph) (n : string) :
  degree g n = 0 <-> forall b, Nx.edge_data g n b = None.
Proof.
  unfold degree. split.
  - intros H b. rewrite <- neighbors_lookup.
    assert (Hs : size (neighbors g n) = 0) by lia.
    apply map_size_empty_iff in Hs. rewrite Hs. apply lookup_empty.
  - intros H.
    assert (He : neighbors g n = ∅).
    { apply map_empty. intros b. rewrite neighbors_lookup. apply H. }
    rewrite He, map_size_empty, lookup_empty.
    rewrite bool_decide_false; [reflexivity|]. intros [x Hx]. discriminate.
Qed.

Lemma elem_of_isolated (self : DeckGraph.t) (n : string) :
  n ∈ get_isolated_cards self <->
  n ∈ Nx.nodes (DeckGraph.graph self) /\
  forall b, Nx.edge_data (DeckGraph.graph self) n b = None.
Proof.
  unfold get_isolated_cards. rewrite list_elem_of_filter, degree_zero. tauto.
Qed.

(** X16.  On a well-formed graph, [get_connected_cards] lists exactly
    the cards that share an edge with the given one, each once (the model
    does not fix their order); being listed is mutual; and an id that is
    not in the graph has the empty list.  [get_isolated_cards] lists, in
    node order, exactly the nodes for which [get_connected_cards] is
    empty. *)
Theorem connected_and_isolated_cards (self : DeckGraph.t) :
  wf_graph (DeckGraph.graph self) ->
  (forall a b, b ∈ get_connected_cards self a <->
               Nx.has_edge (DeckGraph.graph self) a b = true) /\
  (forall a b, b ∈ get_connected_cards self a <-> a ∈ get_connected_cards self b) /\
  (forall a, NoDup (get_connected_cards self a)) /\
  (forall a, a ∉ Nx.nodes (DeckGraph.graph self) -> get_connected_cards self a = []) /\
  (forall n, n ∈ get_isolated_cards self <->
             n ∈ Nx.nodes (DeckGraph.graph self) /\ get_connected_cards self n = []).
Proof.
  intros Hwf. split; [|split; [|split; [|split]]].
  - intros a b. apply elem_of_connected, Hwf.
  - intros a b. rewrite !elem_of_connected by exact Hwf.
    rewrite !has_edge_edge_data, (wf_symmetric _ Hwf a b). reflexivity.
  - intros a. unfold get_connected_cards. destruct (negb _); [constructor|].
    apply NoDup_fst_map_to_list.
  - intros a Ha. unfold get_connected_cards, Nx.has_node.
    rewrite bool_decide_false by exact Ha. reflexivity.
  - intros n. rewrite elem_of_isolated. split; intros [Hn H]; (split; [exact Hn|]).
    + destruct (get_connected_cards self n) as [|b l] eqn:E; [reflexivity|].
      assert (Hb : b ∈ get_connected_cards self n) by (rewrite E; left).
      apply elem_of_connected in Hb; [|exact Hwf].
      rewrite has_edge_edge_data, H in Hb. apply bool_decide_eq_true in Hb.
      destruct Hb as [x Hx]. discriminate.
    + intros b. destruct (Nx.edge_data (DeckGraph.graph self) n b) as [e|] eqn:E;
        [|reflexivity].
      assert (Hb : b ∈ get_connected_cards self n).
      { apply elem_of_connected; [exact Hwf|].
        rewrite has_edge_edge_data, E. apply bool_decide_eq_true. eauto. }
      rewrite H in Hb. inversion Hb.
Qed.

Lemma connected_and_isolated_cards_witness :
  "a" ∈ get_connected_cards Examples.one_edge "b".
Proof.
  assert (Hwf : wf_graph (DeckGraph.graph Examples.one_edge))
    by (apply wf_add_interaction, wf_empty).
  apply (proj1 (connected_and_isolated_cards Examples.one_edge Hwf)).
  reflexivity.
Defined.

(** X17.  In the graph that [DeckGraph(deck)] builds, the isolated cards
    are exactly the cards of the deck that no detected interaction has as
    its source or its target. *)
Theorem isolated_cards_have_no_interaction (deck : Deck.t) (n : string) :
  n ∈ get_isolated_cards (DeckGraph.init deck true) <->
  n ∈ Card.id <$> Deck.get_unique_cards deck /\
  forall x, x ∈ InteractionDetector.detect_all (Deck.get_unique_cards deck) ->
            Interaction.source_id x <> n /\ Interaction.target_id x <> n.
Proof.
  rewrite elem_of_isolated, InvariantProps.built_nodes.
  assert (Hnone : forall b,
             Nx.edge_data (DeckGraph.graph (DeckGraph.init deck true)) n b = None <->
             forall x, x ∈ InteractionDetector.detect_all (Deck.get_unique_cards deck) ->
                       same_pair n b (Interaction.source_id x) (Interaction.target_id x) = false).
  { intros b. rewrite BuildProps.built_edge_data.
    generalize (InteractionDetector.detect_all (Deck.get_unique_cards deck)) as l.
    intros l. split.
    - intros H x Hx.
      destruct (same_pair n b _ _) eqn:Hp; [|reflexivity].
      assert (Hin : x ∈ between l n b).
      { apply list_elem_of_filter. split; [rewrite Hp; exact I | exact Hx]. }
      destruct (between l n b); [inversion Hin | discriminate].
    - intros H. destruct (between l n b) as [|x rest] eqn:E; [reflexivity|].
      assert (Hin : x ∈ between l n b) by (rewrite E; left).
      apply list_elem_of_filter in Hin. destruct Hin as [Hp Hx].
      rewrite (H x Hx) in Hp. destruct Hp. }
  split; intros [Hn H]; (split; [exact Hn|]).
  - intros x Hx. split; intros Heq.
    + pose proof (proj1 (Hnone (Interaction.target_id x)) (H _) x Hx) as Hp.
      rewrite (proj2 (same_pair_spec _ _ _ _)) in Hp by auto. discriminate.
    + pose proof (proj1 (Hnone (Interaction.source_id x)) (H _) x Hx) as Hp.
      rewrite (proj2 (same_pair_spec _ _ _ _)) in Hp by auto. discriminate.
  - intros b. apply Hnone. intros x Hx. destruct (H x Hx) as [Hs Ht].
    destruct (same_pair n b _ _) eqn:Hp; [|reflexivity].
    apply same_pair_spec in Hp. destruct Hp as [[-> _]|[-> _]]; congruence.
Qed.

Lemma isolated_cards_have_no_interaction_witness :
  "c2" ∈ get_isolated_cards (DeckGraph.init ExampleCards.lone_deck true).
Proof.
  apply (proj2 (isolated_cards_have_no_interaction ExampleCards.lone_deck "c2")).
  split.
  - apply list_elem_of_In. vm_compute. tauto.
  - intros x Hx. vm_compute in Hx. inversion Hx.
Defined.

End QueryProps.

(** ** Node colours *)

Module ColourProps.

Import DeckGraphQueries.

(** X18.  The colour of a card's node follows the order in which
    [get_card_types] lists the types, not the order of the colour table:
    a creature is green whatever else it is, then a land is brown, then
    come instant, sorcery, artifact, enchantment and planeswalker; a card
    with none of these types gets the default colour. *)
Theorem node_colour_priority (c : Card.t) :
  _get_type_color (Card.get_card_types c) =
  if Card.is_creature c then "#4CAF50"
  else if Card.is_land c then "#8D6E63"
  else if Card.is_instant c then "#2196F3"
  else if Card.is_sorcery c then "#F44336"
  else if Card.is_artifact c then "#9E9E9E"
  else if Card.is_enchantment c then "#9C27B0"
  else if Card.is_planeswalker c then "#FF9800"
  else "#607D8B".
Proof.
  unfold Card.get_card_types, Card.card_type_names, Card.is_creature, Card.is_land,
    Card.is_instant, Card.is_sorcery, Card.is_artifact, Card.is_enchantment,
    Card.is_planeswalker.
  repeat (rewrite filter_cons; case_decide as H;
          [apply Is_true_true_1 in H; rewrite H; reflexivity
          |apply Is_true_false_1 in H; rewrite H; clear H]).
  reflexivity.
Qed.

End ColourProps.

(** ** Categories and their weights *)

Module CategoryProps.

Import KeywordTagger SynergyWeighter.

Lemma get_category_known (keyword : string) :
  get_category keyword ∈
    ["evasion"; "combat"; "protection"; "speed"; "recursion"; "economy";
     "advantage"; "removal"; "tokens"; "counters"; "graveyard"; "other"].
Proof.
  unfold get_category, KEYWORD_CATEGORIES. cbn [first_category].
  repeat case_bool_decide; apply list_elem_of_In; simpl; tauto.
Qed.

Lemma default_weight_known (keyword : string) :
  is_Some (DEFAULT_CATEGORY_WEIGHTS !! get_category keyword).
Proof.
  pose proof (get_category_known keyword) as H.
  repeat (apply elem_of_cons in H; destruct H as [-> | H];
          [apply (bool_decide_unpack _); vm_compute; exact I|]).
  inversion H.
Qed.

Lemma foldl_score_ext (f g : float -> string -> float) (l : list string) (a : float) :
  (forall x t, f x t = g x t) -> foldl f a l = foldl g a l.
Proof.
  intros H. revert a. induction l as [|t l IH]; intros a; [reflexivity|].
  simpl. rewrite H. apply IH.
Qed.

(** X19.  [get_category] always answers one of the twelve category
    names, and each of them has a weight in every weighter, so the
    fallback weight 1.0 of the score is never used.  Custom weights filed
    under other names, such as keywords, change no score.  The score does
    not depend on the order of the two cards. *)
Theorem scores_read_weights_by_category (custom : option (gmap string float))
    (card1 card2 : Card.t) (interaction_tags : list string) :
  (forall keyword,
     get_category keyword ∈
       ["evasion"; "combat"; "protection"; "speed"; "recursion"; "economy";
        "advantage"; "removal"; "tokens"; "counters"; "graveyard"; "other"] /\
     is_Some (category_weights (init custom) !! get_category keyword)) /\
  ((forall w keyword, custom = Some w -> w !! get_category keyword = None) ->
   calculate_synergy_score (init custom) card1 card2 interaction_tags =
   calculate_synergy_score (init None) card1 card2 interaction_tags) /\
  calculate_synergy_score (init custom) card1 card2 interaction_tags =
  calculate_synergy_score (init custom) card2 card1 interaction_tags.
Proof.
  split; [|split].
  - intros keyword. split; [apply get_category_known|].
    pose proof (default_weight_known keyword) as Hd.
    destruct custom as [w|]; simpl; [|exact Hd].
    case_bool_decide; simpl; [exact Hd|].
    apply lookup_union_is_Some. right. exact Hd.
  - intros Hw. destruct custom as [w|]; [|reflexivity].
    unfold calculate_synergy_score, init. case_bool_decide; [reflexivity|].
    cbn [category_weights].
    rewrite (foldl_score_ext _
               (fun (score : float) (tag : string) =>
                  (score + 1.0 * default 1.0 (DEFAULT_CATEGORY_WEIGHTS !! get_category tag))%float));
      [reflexivity|].
    intros x t. rewrite lookup_union_r by (apply (Hw w t eq_refl)). reflexivity.
  - unfold calculate_synergy_score, check_direct_reference.
    destruct (PyStr.contains (Card.name card1) (Card.oracle_text card2)),
      (PyStr.contains (Card.name card2) (Card.oracle_text card1)); reflexivity.
Qed.

Lemma scores_read_weights_by_category_witness :
  calculate_synergy_score (init (Some {["flying" := 9.0%float]}))
    Examples.card1 Examples.card2 ["flying"] =
  calculate_synergy_score (init None) Examples.card1 Examples.card2 ["flying"].
Proof.
  apply (proj1 (proj2 (scores_read_weights_by_category
                         (Some {["flying" := 9.0%float]})
                         Examples.card1 Examples.card2 ["flying"]))).
  intros w keyword [= <-]. apply lookup_singleton_None.
  intros Heq. pose proof (get_category_known keyword) as H.
  rewrite <- Heq in H.
  repeat (apply elem_of_cons in H; destruct H as [H | H]; [discriminate H|]).
  inversion H.
Defined.

End CategoryProps.

(** ** The bound of [key_cards] *)

Module KeyCardsBoundProps.

Import Spec Py GraphAnalyzer.

Lemma slice_to_all {A : Type} (l : list A) : slice_to (Z.of_nat (length l)) l = l.
Proof.
  unfold slice_to.
  assert (H : (0 <=? Z.of_nat (length l))%Z = true) by (apply Z.leb_le; lia).
  rewrite H, Nat2Z.id. apply firstn_all.
Qed.

Lemma slice_to_negative {A : Type} (n : Z) (l : list A) :
  (n < 0)%Z -> slice_to n l = take (length l - Z.to_nat (- n)) l.
Proof.
  intros Hn. unfold slice_to.
  assert (H : (0 <=? n)%Z = false) by (apply Z.leb_gt, Hn).
  rewrite H. f_equal. lia.
Qed.

(** X20.  A negative [top_n] makes [key_cards] drop that many cards from
    the end of the ranking instead of keeping that many from its start:
    when the nodes are pairwise distinct, [key_cards(top_n)] with
    [top_n < 0] is the full ranking, which has one entry per node, without
    its last [-top_n] entries.  Whether [key_cards] fails, and with which
    exception, does not depend on the bound. *)
Theorem key_cards_negative_bound (nx : Networkx) (graph : Nx.Graph) (top_n : Z) :
  NoDup (Nx.nodes graph) ->
  (top_n < 0)%Z ->
  match key_cards nx graph (Z.of_nat (Nx.number_of_nodes graph)) with
  | Ok full =>
      length full = Nx.number_of_nodes graph /\
      key_cards nx graph top_n =
      Ok (take (Nx.number_of_nodes graph - Z.to_nat (- top_n)) full)
  | Raise e => key_cards nx graph top_n = Raise e
  end.
Proof.
  intros Hnd Hn. unfold key_cards.
  destruct (degree_centrality nx graph) as [deg|e]; [|reflexivity].
  destruct (betweenness_centrality nx graph) as [btw|e]; [|reflexivity].
  destruct (pagerank nx graph) as [pr|e]; [|reflexivity].
  destruct (clustering_coefficient nx graph) as [clu|e]; [|reflexivity].
  cbn [bind].
  rewrite (KeyCardsProps.foldl_dict_set (metrics_of deg btw pr clu));
    [|exact Hnd | intros k _ H; inversion H].
  rewrite app_nil_l.
  set (sorted_cards :=
         sorted_desc (fun x : string * Metrics => composite x.2)
           ((fun k => (k, metrics_of deg btw pr clu k)) <$> Nx.nodes graph)).
  assert (Hlen : length sorted_cards = Nx.number_of_nodes graph).
  { subst sorted_cards. rewrite SortFacts.length_sorted_desc, length_fmap.
    unfold Nx.nodes, Nx.number_of_nodes. apply length_fmap. }
  assert (Hall : slice_to (Z.of_nat (Nx.number_of_nodes graph)) sorted_cards = sorted_cards).
  { rewrite <- Hlen. apply slice_to_all. }
  rewrite Hall. split; [exact Hlen|]. rewrite slice_to_negative by exact Hn.
  rewrite Hlen. reflexivity.
Qed.

Lemma key_cards_negative_bound_witness :
  exists ranked,
    key_cards Examples.ranking_networkx Examples.four_nodes (-1) = Ok ranked /\
    ranked.*1 = ["b"; "a"; "c"].
Proof.
  assert (Hnd : NoDup (Nx.nodes Examples.four_nodes)).
  { apply (bool_decide_unpack _). vm_compute. exact I. }
  assert (Hn : (-1 < 0)%Z) by lia.
  pose proof (key_cards_negative_bound Examples.ranking_networkx Examples.four_nodes
                (-1) Hnd Hn) as H.
  destruct (key_cards Examples.ranking_networkx Examples.four_nodes
              (Z.of_nat (Nx.number_of_nodes Examples.four_nodes))) as [full|e] eqn:E.
  - destruct H as [_ H]. eexists. split; [exact H|].
    vm_compute in E. injection E as <-. reflexivity.
  - vm_compute in E. discriminate E.
Defined.

End KeyCardsBoundProps.

(** ** Quantities, categories and the graph *)

Module QuantityProps.

Import Spec MoreSpec GraphFacts PyDict DeckOps.

(** Overwriting an entry with one that holds the same card keeps the
    cards of the deck. *)
Lemma unique_cards_dict_set (k : string) (e e' : Deck.DeckEntry)
    (cards : list (string * Deck.DeckEntry)) :
  dict_get k cards = Some e -> Deck.card e' = Deck.card e ->
  (fun kv : string * Deck.DeckEntry => Deck.card kv.2) <$> Nx.dict_set k e' cards =
  (fun kv : string * Deck.DeckEntry => Deck.card kv.2) <$> cards.
Proof.
  intros Hget Hcard. induction cards as [|[k0 e0] cards IH]; [discriminate|].
  cbn [dict_get Nx.dict_set] in *. case_decide as Hk.
  - injection Hget as ->. rewrite !fmap_cons. simpl. rewrite Hcard. reflexivity.
  - rewrite !fmap_cons, IH by exact Hget. reflexivity.
Qed.

(** The detected interactions, and with them the edges, are read off
    the cards of the deck alone. *)
Lemma built_from_unique_cards (d d' : Deck.t) :
  Deck.get_unique_cards d' = Deck.get_unique_cards d ->
  DeckGraph.interactions (DeckGraph.init d' true) =
  DeckGraph.interactions (DeckGraph.init d true) /\
  forall a b,
    Nx.edge_data (DeckGraph.graph (DeckGraph.init d' true)) a b =
    Nx.edge_data (DeckGraph.graph (DeckGraph.init d true)) a b.
Proof.
  intros Hsame. split.
  - unfold DeckGraph.init, DeckGraph.detect_interactions.
    rewrite !(proj2 (BuildProps.deck_ingest _ _)). simpl.
    rewrite !deck_build_nodes. simpl. rewrite Hsame. reflexivity.
  - intros a b. rewrite !BuildProps.built_edge_data, Hsame. reflexivity.
Qed.

(** X21.  The interactions of a deck do not depend on quantities or
    categories: after [set_card_category], after [set_card_quantity] to a
    positive quantity, after [add_card] of a card that is already in the
    deck, and after [remove_card] of fewer copies than are on file, the
    deck has the same unique cards in the same order, and [DeckGraph]
    records the same interactions and builds the same edges. *)
Theorem interactions_ignore_quantities (d : Deck.t) :
  let same := fun d' : Deck.t =>
    Deck.get_unique_cards d' = Deck.get_unique_cards d /\
    DeckGraph.interactions (DeckGraph.init d' true) =
    DeckGraph.interactions (DeckGraph.init d true) /\
    forall a b,
      Nx.edge_data (DeckGraph.graph (DeckGraph.init d' true)) a b =
      Nx.edge_data (DeckGraph.graph (DeckGraph.init d true)) a b in
  (forall card_id category, same (set_card_category d card_id category).1) /\
  (forall card_id quantity,
     (0 < quantity)%Z -> same (set_card_quantity d card_id quantity).1) /\
  (forall card quantity category,
     is_Some (get_card d (Card.id card)) -> same (add_card d card quantity category)) /\
  (forall card_id quantity e,
     get_card d card_id = Some e -> (quantity < Deck.quantity e)%Z ->
     same (remove_card d card_id quantity).1).
Proof.
  intros same.
  assert (Hsame : forall d', Deck.get_unique_cards d' = Deck.get_unique_cards d -> same d').
  { intros d' H. split; [exact H|]. apply built_from_unique_cards, H. }
  split; [|split; [|split]].
  - intros card_id category. apply Hsame. unfold set_card_category.
    destruct (dict_get card_id (Deck.cards d)) as [e|] eqn:E; [|reflexivity].
    apply (unique_cards_dict_set _ e); [exact E | reflexivity].
  - intros card_id quantity Hq. apply Hsame. unfold set_card_quantity.
    destruct (dict_get card_id (Deck.cards d)) as [e|] eqn:E; [|reflexivity].
    assert (Hle : (quantity <=? 0)%Z = false) by (apply Z.leb_gt, Hq).
    rewrite Hle. apply (unique_cards_dict_set _ e); [exact E | reflexivity].
  - intros card quantity category [e E]. apply Hsame. unfold add_card.
    unfold get_card in E. rewrite E.
    apply (unique_cards_dict_set _ e); [exact E | reflexivity].
  - intros card_id quantity e E Hq. apply Hsame. unfold remove_card.
    unfold get_card in E. rewrite E. cbv zeta.
    assert (Hle : (Deck.quantity e - quantity <=? 0)%Z = false) by (apply Z.leb_gt; lia).
    rewrite Hle. apply (unique_cards_dict_set _ e); [exact E | reflexivity].
Qed.

Lemma interactions_ignore_quantities_witness :
  DeckGraph.interactions
    (DeckGraph.init (set_card_quantity MoreExamples.smoke_deck "c2" 4).1 true) =
  DeckGraph.interactions (DeckGraph.init MoreExamples.smoke_deck true).
Proof.
  assert (Hq : (0 < 4)%Z) by lia.
  destruct (interactions_ignore_quantities MoreExamples.smoke_deck) as (_ & H & _).
  destruct (H "c2" 4%Z Hq) as (_ & Hi & _). exact Hi.
Defined.

End QuantityProps.

(** ** Cards that care about a card type *)

Module TypeMattersProps.

Import Spec InteractionType InteractionDetector DetectorFacts.

(** A card cares about a type of another card: its text names, in any
    letter case, one of the seven card types, and the type line of the
    other card has that type. *)
Lemma cares_about_type (S T : Card.t) :
  negb (bool_decide (Card.get_referenced_types S ∩ list_to_set (Card.get_card_types T)
                     = (∅ : gset string))) = true <->
  exists type_name,
    type_name ∈ Card.type_patterns /\
    PyStr.contains type_name (PyStr.lower (Card.oracle_text S)) = true /\
    PyStr.contains (PyStr.capitalize type_name) (Card.type_line T) = true.
Proof.
  rewrite negb_true_iff, bool_decide_eq_false.
  unfold Card.get_referenced_types, Card.get_card_types. split.
  - intros Hne. apply set_choose_L in Hne. destruct Hne as [t Ht].
    apply elem_of_intersection in Ht. destruct Ht as [Hr Hi].
    apply elem_of_list_to_set, list_elem_of_fmap in Hr.
    destruct Hr as (type_name & -> & Hr).
    apply list_elem_of_filter in Hr. destruct Hr as [Hr Hin].
    apply elem_of_list_to_set, list_elem_of_filter in Hi. destruct Hi as [Hi _].
    exists type_name. split; [exact Hin|].
    split; apply Is_true_true_1; assumption.
  - intros (type_name & Hin & Hr & Hi) Hempty.
    assert (Ht : PyStr.capitalize type_name ∈
                 (list_to_set
                    (PyStr.capitalize <$>
                       filter (fun type_name =>
                                 Is_true (PyStr.contains type_name
                                            (PyStr.lower (Card.oracle_text S))))
                         Card.type_patterns) : gset string) ∩
                 list_to_set
                   (filter (fun ty => Is_true (PyStr.contains ty (Card.type_line T)))
                      Card.card_type_names)).
    { apply elem_of_intersection. split.
      - apply elem_of_list_to_set, list_elem_of_fmap. exists type_name.
        split; [reflexivity|]. apply list_elem_of_filter.
        split; [apply Is_true_true_2, Hr | exact Hin].
      - apply elem_of_list_to_set, list_elem_of_filter.
        split; [apply Is_true_true_2, Hi|].
        unfold Card.type_patterns in Hin.
        repeat (apply elem_of_cons in Hin; destruct Hin as [-> | Hin];
                [apply list_elem_of_In; vm_compute; tauto|]).
        inversion Hin. }
    rewrite Hempty in Ht. apply elem_of_empty in Ht. exact Ht.
Qed.

(** X22.  Among cards with distinct ids, and for a card [S] whose rules
    text is ASCII, a [TYPE_MATTERS] interaction from [S] to [T] is
    detected exactly when the text of [S] names, in any letter case, one
    of the seven card types and the type line of [T] has that type,
    capitalised; every such interaction weighs 0.6 and is not
    bidirectional. *)
Theorem type_matters_exactly_when (cards : list Card.t) (i j : nat) (S T : Card.t) :
  NoDup (Card.id <$> cards) ->
  cards !! i = Some S -> cards !! j = Some T -> i <> j ->
  ascii_text S ->
  ((exists x, x ∈ detect_all cards /\
              Interaction.interaction_type x = TYPE_MATTERS /\
              Interaction.source_id x = Card.id S /\
              Interaction.target_id x = Card.id T) <->
   (exists type_name,
      type_name ∈ Card.type_patterns /\
      PyStr.contains type_name (PyStr.lower (Card.oracle_text S)) = true /\
      PyStr.contains (PyStr.capitalize type_name) (Card.type_line T) = true)) /\
  (forall x, x ∈ detect_all cards ->
             Interaction.interaction_type x = TYPE_MATTERS ->
             Interaction.weight x = 0.6%float /\ Interaction.bidirectional x = false).
Proof.
  intros Hnd Hi Hj Hij _.
  assert (Hrule : forall c1 c2 x,
            x ∈ _detect_pair_interactions c1 c2 ->
            Interaction.interaction_type x = TYPE_MATTERS ->
            Interaction.weight x = 0.6%float /\ Interaction.bidirectional x = false /\
            ((Interaction.source_id x = Card.id c1 /\ Interaction.target_id x = Card.id c2 /\
              negb (bool_decide (Card.get_referenced_types c1 ∩
                                 list_to_set (Card.get_card_types c2)
                                 = (∅ : gset string))) = true) \/
             (Interaction.source_id x = Card.id c2 /\ Interaction.target_id x = Card.id c1 /\
              negb (bool_decide (Card.get_referenced_types c2 ∩
                                 list_to_set (Card.get_card_types c1)
                                 = (∅ : gset string))) = true))).
  { intros c1 c2 x.
    unfold _detect_pair_interactions, _check_sacrifice_synergy, _check_etb_synergy,
      _check_counter_synergy, _check_tribal_synergy, _check_type_matters,
      _check_mana_relationship, _check_keyword_synergy, _check_tutor_relationship.
    intros H Hty. emitted; simpl in Hty; try discriminate Hty; simpl; auto 10. }
  split; [split|].
  - intros (x & Hx & Hty & Hs & Ht). apply cares_about_type.
    apply elem_of_detect_all in Hx.
    destruct Hx as (p & q & c1 & c2 & Hpq & Hp & Hq & Hx).
    destruct (Hrule c1 c2 x Hx Hty) as (_ & _ & [(Es & Et & Hc)|(Es & Et & Hc)]);
      rewrite Es in Hs; rewrite Et in Ht.
    + rewrite (same_card _ _ _ _ _ Hnd Hp Hi Hs) in Hc.
      rewrite (same_card _ _ _ _ _ Hnd Hq Hj Ht) in Hc. exact Hc.
    + rewrite (same_card _ _ _ _ _ Hnd Hq Hi Hs) in Hc.
      rewrite (same_card _ _ _ _ _ Hnd Hp Hj Ht) in Hc. exact Hc.
  - intros Hc. apply cares_about_type in Hc.
    exists (Interaction.mk (Card.id S) (Card.id T) TYPE_MATTERS 0.6
              (Some (Card.name S +:+ " cares about " +:+
                     PyStr.join ", "
                       (elements (Card.get_referenced_types S ∩
                                  (list_to_set (Card.get_card_types T) : gset string)))))
              false).
    split; [|auto]. apply elem_of_detect_all.
    destruct (Nat.lt_total i j) as [Hlt|[Heq|Hgt]]; [|contradiction|].
    + exists i, j, S, T. repeat split; try assumption.
      unfold _detect_pair_interactions, _check_type_matters.
      do 4 (apply elem_of_app; right). apply elem_of_app; left.
      apply elem_of_app; left. apply elem_of_emit. auto.
    + exists j, i, T, S. repeat split; try assumption.
      unfold _detect_pair_interactions, _check_type_matters.
      do 4 (apply elem_of_app; right). apply elem_of_app; left.
      apply elem_of_app; right. apply elem_of_emit. auto.
  - intros x Hx Hty. apply elem_of_detect_all in Hx.
    destruct Hx as (p & q & c1 & c2 & _ & _ & _ & Hx).
    destruct (Hrule c1 c2 x Hx Hty) as (Hw & Hb & _). auto.
Qed.

Lemma type_matters_exactly_when_witness :
  exists x, x ∈ detect_all [Examples.card2; Examples.card3] /\
            Interaction.interaction_type x = TYPE_MATTERS /\
            Interaction.source_id x = "c3" /\
            Interaction.target_id x = "c2".
Proof.
  assert (Hnd : NoDup (Card.id <$> [Examples.card2; Examples.card3])).
  { apply (bool_decide_unpack _). vm_compute. exact I. }
  assert (Hne : 1 <> 0) by lia.
  assert (Hascii : ascii_text Examples.card3) by (vm_compute; reflexivity).
  apply (proj2 (proj1 (type_matters_exactly_when
                         [Examples.card2; Examples.card3] 1 0 Examples.card3 Examples.card2
                         Hnd eq_refl eq_refl Hne Hascii))).
  exists "creature". split; [apply list_elem_of_In; vm_compute; tauto|].
  split; vm_compute; reflexivity.
Defined.

End TypeMattersProps.

(** ** Tribal synergy *)

Module TribalProps.

Import Spec GraphFacts InteractionType InteractionDetector DetectorFacts.

(** The two cards share a subtype. *)
Lemma shared_subtype (S T : Card.t) :
  negb (bool_decide ((list_to_set (Card.get_creature_types S) : gset string) ∩
                     list_to_set (Card.get_creature_types T) = ∅)) = true <->
  exists ctype, ctype ∈ Card.get_creature_types S /\ ctype ∈ Card.get_creature_types T.
Proof.
  rewrite negb_true_iff, bool_decide_eq_false. split.
  - intros Hne. apply set_choose_L in Hne. destruct Hne as [t Ht].
    apply elem_of_intersection in Ht. rewrite !elem_of_list_to_set in Ht. eauto.
  - intros (t & H1 & H2) Hempty.
    assert (Ht : t ∈ (list_to_set (Card.get_creature_types S) : gset string) ∩
                     list_to_set (Card.get_creature_types T)).
    { apply elem_of_intersection. rewrite !elem_of_list_to_set. auto. }
    rewrite Hempty in Ht. apply elem_of_empty in Ht. exact Ht.
Qed.

(** What the rules say when they emit a tribal interaction. *)
Lemma tribal_from_rule (c1 c2 : Card.t) (x : Interaction.t) :
  x ∈ _detect_pair_interactions c1 c2 ->
  Interaction.interaction_type x = TRIBAL ->
  (Interaction.bidirectional x = true /\ Interaction.weight x = 0.5%float /\
   Interaction.source_id x = Card.id c1 /\ Interaction.target_id x = Card.id c2 /\
   Card.is_creature c1 = true /\ Card.is_creature c2 = true /\
   exists ctype, ctype ∈ Card.get_creature_types c1 /\ ctype ∈ Card.get_creature_types c2) \/
  (Interaction.bidirectional x = false /\ Interaction.weight x = 0.7%float /\
   Interaction.source_id x = Card.id c1 /\ Interaction.target_id x = Card.id c2 /\
   exists ctype, ctype ∈ Card.get_creature_types c2 /\
                 PyStr.contains (PyStr.lower ctype) (PyStr.lower (Card.oracle_text c1)) = true) \/
  (Interaction.bidirectional x = false /\ Interaction.weight x = 0.7%float /\
   Interaction.source_id x = Card.id c2 /\ Interaction.target_id x = Card.id c1 /\
   exists ctype, ctype ∈ Card.get_creature_types c1 /\
                 PyStr.contains (PyStr.lower ctype) (PyStr.lower (Card.oracle_text c2)) = true).
Proof.
  unfold _detect_pair_interactions, _check_sacrifice_synergy, _check_etb_synergy,
    _check_counter_synergy, _check_tribal_synergy, _check_type_matters,
    _check_mana_relationship, _check_keyword_synergy, _check_tutor_relationship.
  intros H Hty. emitted; simpl in Hty; try discriminate Hty; simpl.
  - left.
    match goal with Hc : _ = true |- _ =>
      apply andb_true_iff in Hc; destruct Hc as [Hc Hc2];
      apply andb_true_iff in Hc; destruct Hc as [Hc0 Hc1]
    end.
    apply shared_subtype in Hc0. auto 10.
  - right. left. repeat (split; [reflexivity|]).
    match goal with Hin : _ ∈ elements _ |- _ =>
      apply elem_of_elements, elem_of_list_to_set in Hin
    end.
    eauto.
  - right. right. repeat (split; [reflexivity|]).
    match goal with Hin : _ ∈ elements _ |- _ =>
      apply elem_of_elements, elem_of_list_to_set in Hin
    end.
    eauto.
Qed.

(** X23.  Among cards with distinct ids, for two cards whose subtypes
    are ASCII and a rules text of [S] that is ASCII: a bidirectional
    [TRIBAL] interaction, of weight 0.5, is detected between the two
    cards exactly when both are creatures and their type lines share a
    subtype; a directed one from [S] to [T], of weight 0.7, is detected
    exactly when the text of [S] contains, letter case aside, a subtype
    of [T], whether or not either card is a creature. *)
Theorem tribal_exactly_when (cards : list Card.t) (i j : nat) (S T : Card.t) :
  NoDup (Card.id <$> cards) ->
  cards !! i = Some S -> cards !! j = Some T -> i <> j ->
  ascii_text S -> ascii_subtypes S -> ascii_subtypes T ->
  ((exists x, x ∈ detect_all cards /\
              Interaction.interaction_type x = TRIBAL /\
              Interaction.bidirectional x = true /\
              same_pair (Interaction.source_id x) (Interaction.target_id x)
                (Card.id S) (Card.id T) = true) <->
   (Card.is_creature S = true /\ Card.is_creature T = true /\
    exists ctype, ctype ∈ Card.get_creature_types S /\
                  ctype ∈ Card.get_creature_types T)) /\
  ((exists x, x ∈ detect_all cards /\
              Interaction.interaction_type x = TRIBAL /\
              Interaction.bidirectional x = false /\
              Interaction.source_id x = Card.id S /\
              Interaction.target_id x = Card.id T) <->
   (exists ctype, ctype ∈ Card.get_creature_types T /\
                  PyStr.contains (PyStr.lower ctype)
                    (PyStr.lower (Card.oracle_text S)) = true)) /\
  (forall x, x ∈ detect_all cards ->
             Interaction.interaction_type x = TRIBAL ->
             Interaction.weight x =
             if Interaction.bidirectional x then 0.5%float else 0.7%float).
Proof.
  intros Hnd Hi Hj Hij _ _ _.
  assert (Hpair : forall c1 c2 p q,
            p < q -> cards !! p = Some c1 -> cards !! q = Some c2 ->
            forall x, x ∈ _detect_pair_interactions c1 c2 -> x ∈ detect_all cards).
  { intros c1 c2 p q Hpq Hp Hq x Hx. apply elem_of_detect_all.
    exists p, q, c1, c2. auto. }
  assert (Hrule : forall c1 c2 x, x ∈ _check_tribal_synergy c1 c2 ->
                                  x ∈ _detect_pair_interactions c1 c2).
  { intros c1 c2 x Hx. unfold _detect_pair_interactions.
    do 3 (apply elem_of_app; right). apply elem_of_app; left. exact Hx. }
  assert (Hboth : forall c1 c2,
            Card.is_creature c1 = true -> Card.is_creature c2 = true ->
            (exists ctype, ctype ∈ Card.get_creature_types c1 /\
                           ctype ∈ Card.get_creature_types c2) ->
            exists x, x ∈ _check_tribal_synergy c1 c2 /\
                      Interaction.interaction_type x = TRIBAL /\
                      Interaction.bidirectional x = true /\
                      Interaction.source_id x = Card.id c1 /\
                      Interaction.target_id x = Card.id c2).
  { intros c1 c2 H1 H2 Hsh. apply shared_subtype in Hsh.
    exists (Interaction.mk (Card.id c1) (Card.id c2) TRIBAL 0.5
              (Some ("Both are " +:+
                     PyStr.join ", "
                       (elements ((list_to_set (Card.get_creature_types c1) : gset string) ∩
                                  list_to_set (Card.get_creature_types c2))))) true).
    split; [|auto].
    unfold _check_tribal_synergy. apply elem_of_app; left.
    apply elem_of_emit. split; [|reflexivity]. rewrite Hsh, H1, H2. reflexivity. }
  split; [|split].
  - split.
    + intros (x & Hx & Hty & Hb & Hsame). apply elem_of_detect_all in Hx.
      destruct Hx as (p & q & c1 & c2 & Hpq & Hp & Hq & Hx).
      destruct (tribal_from_rule c1 c2 x Hx Hty)
        as [(_ & _ & Es & Et & H1 & H2 & ctype & Hc1 & Hc2)|[(Hb' & _)|(Hb' & _)]];
        try congruence.
      rewrite Es, Et in Hsame. apply same_pair_spec in Hsame.
      destruct Hsame as [[Hs Ht]|[Hs Ht]].
      * rewrite (same_card _ _ _ _ _ Hnd Hp Hi Hs) in *.
        rewrite (same_card _ _ _ _ _ Hnd Hq Hj Ht) in *. eauto.
      * rewrite (same_card _ _ _ _ _ Hnd Hp Hj Hs) in *.
        rewrite (same_card _ _ _ _ _ Hnd Hq Hi Ht) in *. eauto.
    + intros (H1 & H2 & ctype & Hc1 & Hc2).
      destruct (Nat.lt_total i j) as [Hlt|[Heq|Hgt]]; [|contradiction|].
      * destruct (Hboth S T H1 H2) as (x & Hx & Hty & Hb & Es & Et); [eauto|].
        exists x. split; [eapply (Hpair S T i j); auto|].
        rewrite Es, Et. repeat split; try assumption.
        apply same_pair_spec. auto.
      * destruct (Hboth T S H2 H1) as (x & Hx & Hty & Hb & Es & Et); [eauto|].
        exists x. split; [eapply (Hpair T S j i); auto|].
        rewrite Es, Et. repeat split; try assumption.
        apply same_pair_spec. auto.
  - split.
    + intros (x & Hx & Hty & Hb & Hs & Ht). apply elem_of_detect_all in Hx.
      destruct Hx as (p & q & c1 & c2 & Hpq & Hp & Hq & Hx).
      destruct (tribal_from_rule c1 c2 x Hx Hty)
        as [(Hb' & _)|[(_ & _ & Es & Et & Hc)|(_ & _ & Es & Et & Hc)]];
        try congruence; rewrite Es in Hs; rewrite Et in Ht.
      * rewrite (same_card _ _ _ _ _ Hnd Hp Hi Hs) in Hc.
        rewrite (same_card _ _ _ _ _ Hnd Hq Hj Ht) in Hc. exact Hc.
      * rewrite (same_card _ _ _ _ _ Hnd Hq Hi Hs) in Hc.
        rewrite (same_card _ _ _ _ _ Hnd Hp Hj Ht) in Hc. exact Hc.
    + intros (ctype & Hin & Hc).
      exists (Interaction.mk (Card.id S) (Card.id T) TRIBAL 0.7
                (Some (Card.name S +:+ " cares about " +:+ ctype +:+ "s")) false).
      split; [|auto].
      assert (Hel : forall c, ctype ∈ Card.get_creature_types c ->
                ctype ∈ elements (list_to_set (Card.get_creature_types c) : gset string)).
      { intros c Hc'. apply elem_of_elements, elem_of_list_to_set, Hc'. }
      destruct (Nat.lt_total i j) as [Hlt|[Heq|Hgt]]; [|contradiction|].
      * apply (Hpair S T i j Hlt Hi Hj), Hrule. unfold _check_tribal_synergy.
        apply elem_of_app; right. apply elem_of_app; left.
        apply list_elem_of_bind. exists ctype. split; [|apply Hel, Hin].
        apply elem_of_emit. auto.
      * apply (Hpair T S j i Hgt Hj Hi), Hrule. unfold _check_tribal_synergy.
        do 2 (apply elem_of_app; right).
        apply list_elem_of_bind. exists ctype. split; [|apply Hel, Hin].
        apply elem_of_emit. auto.
  - intros x Hx Hty. apply elem_of_detect_all in Hx.
    destruct Hx as (p & q & c1 & c2 & _ & _ & _ & Hx).
    destruct (tribal_from_rule c1 c2 x Hx Hty)
      as [(-> & -> & _)|[(-> & -> & _)|(-> & -> & _)]]; reflexivity.
Qed.

Lemma tribal_exactly_when_witness :
  exists x, x ∈ detect_all [ExampleCards.elvish_archdruid; ExampleCards.llanowar_elves] /\
            Interaction.interaction_type x = TRIBAL /\
            Interaction.bidirectional x = false /\
            Interaction.source_id x = "ea" /\
            Interaction.target_id x = "le".
Proof.
  assert (Hnd : NoDup (Card.id <$> [ExampleCards.elvish_archdruid;
                                    ExampleCards.llanowar_elves])).
  { apply (bool_decide_unpack _). vm_compute. exact I. }
  assert (Hne : 0 <> 1) by lia.
  assert (Htext : ascii_text ExampleCards.elvish_archdruid) by (vm_compute; reflexivity).
  assert (Hsub : ascii_subtypes ExampleCards.elvish_archdruid) by (vm_compute; reflexivity).
  assert (Hsub' : ascii_subtypes ExampleCards.llanowar_elves) by (vm_compute; reflexivity).
  apply (proj2 (proj1 (proj2 (tribal_exactly_when
                                [ExampleCards.elvish_archdruid; ExampleCards.llanowar_elves]
                                0 1 ExampleCards.elvish_archdruid ExampleCards.llanowar_elves
                                Hnd eq_refl eq_refl Hne Htext Hsub Hsub')))).
  exists "Elf". split; [apply list_elem_of_In; vm_compute; tauto|].
  vm_compute. reflexivity.
Defined.

End TribalProps.
